(** * VoxAi: authentication, session lifecycle and chat endpoint

    A shallow embedding of the parts of the VoxAi application that carry
    its authentication contract:

    - [backend/routes/auth.js]: the [register] and [login] route handlers;
    - [backend/routes/chat.js]: the keyword chatbot behind [POST /api/chat];
    - [frontend/.../context/AuthContext.jsx]: [initializeAuth], [login],
      [register], [logout], [clearError];
    - [frontend/.../services/api.js]: the axios request and response
      interceptors;
    - [frontend/.../utils/helpers.js]: the validators and formatters;
    - the login, registration and chat pages, [ProtectedRoute] and the
      logout of the layout, each run against the handler it calls;
    - the completion proxy variant of [POST /api/chat].

    Third-party libraries (bcryptjs, jsonwebtoken, jwt-decode, the JSON
    built-ins) are interfaces here: classes of operations with the laws the
    handlers rely on, each with one small executable instance used to run
    the handlers on concrete requests. *)

From Stdlib Require Import ZArith Ascii String List Bool Lia DecimalString.
From stdpp Require Import base option gmap strings list.
Import ListNotations.

Local Set Warnings "-register-all".
Local Open Scope Z_scope.
Local Open Scope string_scope.

(* ===================================================================== *)
(** * JavaScript values *)
(* ===================================================================== *)

(** The JSON-shaped values that travel in request bodies, response bodies
    and React state. Numbers are the integers the handlers produce. *)
Inductive jsval : Type :=
  | JUndefined
  | JNull
  | JBool (b : bool)
  | JNum (n : Z)
  | JStr (s : string)
  | JArr (xs : list jsval)
  | JObj (fields : list (string * jsval)).

(** [typeof v] *)
Definition typeof (v : jsval) : string :=
  match v with
  | JUndefined => "undefined"
  | JNull => "object"
  | JBool _ => "boolean"
  | JNum _ => "number"
  | JStr _ => "string"
  | JArr _ => "object"
  | JObj _ => "object"
  end.

(** A string is truthy when it is not empty. *)
Definition truthy_str (s : string) : bool :=
  match s with
  | EmptyString => false
  | String _ _ => true
  end.

(** ToBoolean: what [!v], [v && w], [v || w] and [if (v)] test. *)
Definition truthy (v : jsval) : bool :=
  match v with
  | JUndefined => false
  | JNull => false
  | JBool b => b
  | JNum n => negb (Z.eqb n 0)
  | JStr s => truthy_str s
  | JArr _ => true
  | JObj _ => true
  end.

(** [a || b] on values. *)
Definition js_or (a b : jsval) : jsval := if truthy a then a else b.

(** Lookup of a key in the field list of an object literal: the first
    binding wins, a missing key reads as [undefined]. *)
Fixpoint field (k : string) (fs : list (string * jsval)) : jsval :=
  match fs with
  | [] => JUndefined
  | (k', v) :: fs' => if String.eqb k k' then v else field k fs'
  end.

(** [has_key k fs]: the object has an own property [k]. *)
Definition has_key (k : string) (fs : list (string * jsval)) : bool :=
  existsb (fun kv => String.eqb k (fst kv)) fs.

(** [v.k] for a value [v]: a [TypeError] (here [None]) on [null] and
    [undefined], [undefined] on the other primitives and on arrays. *)
Definition js_get (v : jsval) (k : string) : option jsval :=
  match v with
  | JUndefined => None
  | JNull => None
  | JObj fs => Some (field k fs)
  | _ => Some JUndefined
  end.

(** [v?.k]: optional chaining never throws. *)
Definition js_get_opt (v : jsval) (k : string) : jsval :=
  match js_get v k with
  | Some x => x
  | None => JUndefined
  end.

(** An HTTP response as the handlers build it with
    [res.status(n).json(body)]; [res.json(body)] alone has status 200. *)
Record Response : Type := mkResponse {
  status : Z;
  body : jsval
}.

Definition res_json (b : jsval) : Response := mkResponse 200 b.
Definition res_status_json (n : Z) (b : jsval) : Response := mkResponse n b.

(** The keys of a response body; a body that is not an object has none. *)
Definition body_has (k : string) (r : Response) : bool :=
  match body r with
  | JObj fs => has_key k fs
  | _ => false
  end.

(* ===================================================================== *)
(** * String primitives *)
(* ===================================================================== *)

(** Strings are sequences of code units below 256 (the Latin-1 range); on
    that range [trim], [toLowerCase], [includes] and [startsWith] below
    are the ECMAScript ones. *)
Module JsString.

(** WhiteSpace and LineTerminator code units below 256:
    TAB, LF, VT, FF, CR, SP and NBSP. *)
Definition is_ws (c : ascii) : bool :=
  let n := N_of_ascii c in
  ((9 <=? n) && (n <=? 13) || (n =? 32) || (n =? 160))%N.

(** Lowercase mapping of one code unit: A-Z, and the Latin-1 capitals
    U+00C0-U+00DE except the multiplication sign U+00D7. *)
Definition lower_char (c : ascii) : ascii :=
  let n := N_of_ascii c in
  if ((65 <=? n) && (n <=? 90)
      || (192 <=? n) && (n <=? 222) && negb (n =? 215))%N
  then ascii_of_N (n + 32)
  else c.

Fixpoint toLowerCase (s : string) : string :=
  match s with
  | EmptyString => EmptyString
  | String c s' => String (lower_char c) (toLowerCase s')
  end.

Fixpoint trimStart (s : string) : string :=
  match s with
  | EmptyString => EmptyString
  | String c s' => if is_ws c then trimStart s' else s
  end.

Fixpoint trimEnd (s : string) : string :=
  match s with
  | EmptyString => EmptyString
  | String c s' =>
      match trimEnd s' with
      | EmptyString => if is_ws c then EmptyString else String c EmptyString
      | String d r => String c (String d r)
      end
  end.

Definition trim (s : string) : string := trimEnd (trimStart s).

Definition startsWith (s prefix : string) : bool := String.prefix prefix s.

(** [s.includes(needle)] *)
Fixpoint includes (s needle : string) : bool :=
  String.prefix needle s
  || match s with
     | EmptyString => false
     | String _ s' => includes s' needle
     end.

End JsString.
Import JsString.

(* ===================================================================== *)
(** * POST /api/chat (backend/routes/chat.js) *)
(* ===================================================================== *)

Module Chat.

Definition schemes_reply : string :=
  "I can help you find information about government schemes! You can browse all available schemes on the Schemes page. Would you like to search for a specific type of scheme? I can provide information about financial aid, health schemes, educational schemes, and more.".

Definition scholarship_reply : string :=
  "I can help you find scholarship opportunities! VoxAi provides information about various scholarships available for students. Would you like information about merit-based scholarships, need-based scholarships, or scholarships for specific fields of study?".

Definition job_reply : string :=
  "I can assist you with job opportunities and career guidance! Would you like information about government job openings, private sector opportunities, or career development resources?".

Definition education_reply : string :=
  "I can help you find educational resources and skill development courses! Would you like information about online courses, certification programs, or skill development initiatives?".

Definition greeting_reply : string :=
  "Hello! I'm VoxAi, your AI-powered assistant. I can help you find information about government schemes, scholarships, job opportunities, and educational resources. How can I assist you today?".

Definition help_reply : string :=
  "I'm VoxAi, an AI-powered information assistant. I can help you with:

• Information about government schemes and programs
• Scholarship opportunities and financial aid
• Job openings and career guidance
• Educational resources and skill development courses
• Personalized recommendations based on your interests

What would you like to know more about?".

Definition default_reply : string :=
  "Thank you for your query! I'm here to help you with information about government schemes, scholarships, job opportunities, and educational resources. Could you please provide more details about what you're looking for? For example, you can ask about:

• 'Show me government schemes'
• 'Find scholarships for students'
• 'Job opportunities in [field]'
• 'Educational courses for [subject]'".

(** The six keyword tests of the [if / else if] chain, in source order. *)
Definition is_scheme (m : string) : bool :=
  includes m "scheme" || includes m "government" || includes m "schemes".

Definition is_scholarship (m : string) : bool :=
  includes m "scholarship" || includes m "scholarships"
  || includes m "financial aid".

Definition is_job (m : string) : bool :=
  includes m "job" || includes m "jobs" || includes m "career"
  || includes m "employment".

Definition is_education (m : string) : bool :=
  includes m "course" || includes m "education" || includes m "learn"
  || includes m "skill".

Definition is_greeting (m : string) : bool :=
  includes m "hello" || includes m "hi" || includes m "hey"
  || startsWith m "hii".

Definition is_help (m : string) : bool :=
  includes m "help" || includes m "what can you do"
  || includes m "capabilities".

(** [respond userMessage]: the keyword chain applied to the trimmed,
    lowercased message. *)
Definition respond (userMessage : string) : string :=
  if is_scheme userMessage then schemes_reply
  else if is_scholarship userMessage then scholarship_reply
  else if is_job userMessage then job_reply
  else if is_education userMessage then education_reply
  else if is_greeting userMessage then greeting_reply
  else if is_help userMessage then help_reply
  else default_reply.

(** The input validation:
    [!message || typeof message !== "string" || message.trim().length === 0] *)
Definition rejected (message : jsval) : bool :=
  negb (truthy message)
  || negb (String.eqb (typeof message) "string")
  || match message with
     | JStr s => Nat.eqb (String.length (trim s)) 0
     | _ => true
     end.

Definition bad_request : Response :=
  res_status_json 400
    (JObj [("msg", JStr "Message is required and must be a non-empty string")]).

(** The handler behind the [auth] middleware. [req_body] is the parsed
    JSON body, [req_user] what the middleware left in [req.user],
    [timestamp] the value of [new Date().toISOString()]. *)
Definition post_chat (req_body : list (string * jsval)) (req_user : jsval)
    (timestamp : string) : Response :=
  let message := field "message" req_body in
  let userId := field "userId" req_body in
  if rejected message then bad_request
  else
    match message with
    | JStr s =>
        let userMessage := toLowerCase (trim s) in
        let user := js_or userId req_user in
        res_json (JObj [("message", JStr (respond userMessage));
                        ("timestamp", JStr timestamp);
                        ("user", user)])
    | _ => bad_request
    end.

(** The reply carried by a response, [undefined] when it has none. *)
Definition reply_of (r : Response) : jsval := js_get_opt (body r) "message".

End Chat.

(* ===================================================================== *)
(** * Credential store and issuer (backend/routes/auth.js) *)
(* ===================================================================== *)

Module Auth.

(** ** Collaborators *)

(** bcryptjs: [bcrypt.hash(s, salt)] and [bcrypt.compare(s, hash)]. *)
Class Bcrypt : Type := {
  bcrypt_hash : string -> string -> string;
  bcrypt_compare : string -> string -> bool
}.

(** The contract of the hashing primitive that [login] relies on: a
    secret verifies against every hash derived from it. *)
Definition bcrypt_verifies (B : Bcrypt) : Prop :=
  forall s salt, bcrypt_compare s (bcrypt_hash s salt) = true.

(** Identities ([_id]) are numbered in creation order. *)
Definition ObjectId : Type := N.

(** The payload of a session token: [{ id, iat, exp }], times in whole
    seconds since the epoch. *)
Record Claims : Type := mkClaims {
  c_id : ObjectId;
  c_iat : Z;
  c_exp : Z
}.

(** jsonwebtoken: the compact serialization of a payload signed with a
    key, the payload of a token, and the signature check of a token
    against a key. *)
Class Jwt : Type := {
  jwt_encode : Claims -> string -> string;
  jwt_decode : string -> option Claims;
  jwt_signed_by : string -> string -> bool
}.

(** Decoding returns the payload that was signed. *)
Definition jwt_decodes (J : Jwt) : Prop :=
  forall c k, jwt_decode (jwt_encode c k) = Some c.

(** A signature verifies under the key that made it and under no
    other. *)
Definition jwt_binds_key (J : Jwt) : Prop :=
  forall c k k', jwt_signed_by (jwt_encode c k) k' = bool_decide (k = k').

(** [expiresIn: "7d"] in seconds. *)
Definition seven_days : Z := 7 * 24 * 60 * 60.

(** What jsonwebtoken throws when it is given no key to sign with. *)
Definition secret_required : string :=
  "secretOrPrivateKey must have a value".

(** [jwt.sign(payload, secret, { expiresIn: "7d" })] at clock [now]:
    the library refuses a falsy key with an exception ([None]);
    otherwise it stamps [iat] and sets [exp = iat + 7d]. [secret] is
    the value of [process.env.JWT_SECRET]; the library only tests its
    truthiness, so the empty string also stands for a variable that is
    not set. *)
Definition jwt_sign {J : Jwt} (id : ObjectId) (secret : string) (now : Z)
    : option string :=
  if truthy_str secret
  then Some (jwt_encode (mkClaims id now (now + seven_days)) secret)
  else None.

(** ** The User collection *)

(** Modelled from the spec: models/User.js is missing from the sources.
    A record has the identity, name, email, secret hash and interests of
    section 3, the fields [register] passes to [User.create]. *)
Record User : Type := mkUser {
  u_id : ObjectId;
  u_name : option string;
  u_email : option string;
  u_password : string;
  u_interests : list string
}.

(** The document handed to [User.create]. *)
Record NewUser : Type := mkNewUser {
  n_name : option string;
  n_email : option string;
  n_password : string;
  n_interests : list string
}.

Record Db : Type := mkDb {
  users : list User;
  next_id : ObjectId
}.

Definition empty_db : Db := mkDb [] 0%N.

(** models/User.js is not among the sources: the schema is a parameter.
    [validate doc] is [None] when the schema accepts the document and
    the message of the validation error otherwise. *)
Class UserSchema : Type := {
  validate : NewUser -> option string
}.

(** [User.findOne({ email })]: the first record with that email. *)
Definition findOne (email : option string) (us : list User) : option User :=
  List.find (fun u => bool_decide (u_email u = email)) us.

(** Modelled from the spec: models/User.js is missing from the sources.
    [User.create(doc)] validates the document against the schema and
    inserts it under the unique index that section 3 gives the email;
    the message of the error is on the left. *)
Definition User_create {M : UserSchema} (doc : NewUser) (db : Db)
    : string + Db :=
  match validate doc with
  | Some msg => inl msg
  | None =>
      match findOne (n_email doc) (users db) with
      | Some _ => inl "E11000 duplicate key error collection: users"
      | None =>
          inr (mkDb (users db ++ [mkUser (next_id db) (n_name doc)
                                    (n_email doc) (n_password doc)
                                    (n_interests doc)])%list
                    (next_id db + 1)%N)
      end
  end.

(** ** Requests *)

(** A field of a request body is a string or is absent. *)
Record RegisterBody : Type := mkRegisterBody {
  r_name : option string;
  r_email : option string;
  r_password : option string;
  r_interests : list string
}.

Record LoginBody : Type := mkLoginBody {
  l_email : option string;
  l_password : option string
}.

Definition js_of_opt (o : option string) : jsval :=
  match o with
  | Some s => JStr s
  | None => JUndefined
  end.

Definition msg (s : string) : jsval := JObj [("msg", JStr s)].

(** What bcryptjs throws when the secret is not a string. *)
Definition illegal_arguments : string :=
  "Illegal arguments: undefined, string".

Definition user_already_exists : string := "User already exists".
Definition user_registered : string := "User registered successfully".
Definition user_not_found : string := "User not found".
Definition invalid_credentials : string := "Invalid credentials".

(** ** [POST /register]

    [salt] is the value of [bcrypt.genSalt(10)] for this request. An
    exception anywhere in the [try] block becomes a 500 with the
    exception's message, and the store is left as it was. *)
Definition register {B : Bcrypt} {M : UserSchema} (salt : string) (db : Db)
    (b : RegisterBody) : Response * Db :=
  match findOne (r_email b) (users db) with
  | Some _ => (res_status_json 400 (msg user_already_exists), db)
  | None =>
      match r_password b with
      | None => (res_status_json 500 (msg illegal_arguments), db)
      | Some password =>
          let hash := bcrypt_hash password salt in
          match User_create
                  (mkNewUser (r_name b) (r_email b) hash (r_interests b))
                  db with
          | inl err => (res_status_json 500 (msg err), db)
          | inr db' => (res_json (msg user_registered), db')
          end
      end
  end.

(** The projection [{ id, name, email }] returned by [login]. *)
Definition projection (u : User) : jsval :=
  JObj [("id", JNum (Z.of_N (u_id u)));
        ("name", js_of_opt (u_name u));
        ("email", js_of_opt (u_email u))].

(** ** [POST /login]

    [secret] is [process.env.JWT_SECRET], [now] the server clock in
    whole seconds. An exception anywhere in the [try] block becomes a
    500 with the exception's message. *)
Definition login {B : Bcrypt} {J : Jwt} (secret : string) (now : Z) (db : Db)
    (b : LoginBody) : Response :=
  match findOne (l_email b) (users db) with
  | None => res_status_json 400 (msg user_not_found)
  | Some user =>
      match l_password b with
      | None => res_status_json 500 (msg illegal_arguments)
      | Some password =>
          let isMatch := bcrypt_compare password (u_password user) in
          if negb isMatch then res_status_json 400 (msg invalid_credentials)
          else
            match jwt_sign (u_id user) secret now with
            | None => res_status_json 500 (msg secret_required)
            | Some token =>
                res_json (JObj [("token", JStr token);
                                ("user", projection user)])
            end
      end
  end.

(** The document [register] hands to [User.create] for a request that
    carries [password], and the record a successful creation appends. *)
Definition document {B : Bcrypt} (salt : string) (b : RegisterBody)
    (password : string) : NewUser :=
  mkNewUser (r_name b) (r_email b) (bcrypt_hash password salt)
            (r_interests b).

Definition created {B : Bcrypt} (salt : string) (db : Db)
    (b : RegisterBody) (password : string) : User :=
  mkUser (next_id db) (r_name b) (r_email b)
         (bcrypt_hash password salt) (r_interests b).

(** A run of registration requests, each with its salt. *)
Definition register_all {B : Bcrypt} {M : UserSchema}
    (reqs : list (string * RegisterBody)) (db : Db) : Db :=
  List.fold_left (fun d req => snd (register (fst req) d (snd req))) reqs db.

(** A user is registered with email [e] and secret [s] when the record
    [findOne] returns for [e] stores a hash derived from [s]. *)
Definition registered {B : Bcrypt} (db : Db) (e s : string) (u : User) : Prop :=
  findOne (Some e) (users db) = Some u
  /\ exists salt, u_password u = bcrypt_hash s salt.

(** The number of records with a given email. *)
Definition count_email (email : option string) (us : list User) : nat :=
  List.length (List.filter (fun u => bool_decide (u_email u = email)) us).

(** ** The schema as the specification describes it *)

(** A required string path: present and not empty. *)
Definition required (o : option string) : bool :=
  match o with
  | Some s => truthy_str s
  | None => false
  end.

(** Modelled from the spec: models/User.js is missing from the sources.
    Section 4.1 asks for the email and the secret to be present and
    non-empty; what the store holds for the secret is its hash. *)
Definition spec_schema : UserSchema :=
  {| validate := fun doc =>
       if negb (required (n_email doc))
       then Some "User validation failed: email: Path `email` is required."
       else if negb (truthy_str (n_password doc))
       then Some "User validation failed: password: Path `password` is required."
       else None |}.

End Auth.

(* ===================================================================== *)
(** * Session Guard *)
(* ===================================================================== *)

Module Guard.
Import Auth.

Inductive Outcome : Type :=
  | MissingToken
  | InvalidToken
  | ExpiredToken
  | Authenticated (id : ObjectId).

(** Modelled from the spec: middleware/auth.js is missing from the
    sources. [authenticate] follows section 4.2: it fails with
    MissingToken if no token is attached, with InvalidToken if
    signature verification fails or the token is malformed, with
    ExpiredToken if the current time is past [expires_at], and
    otherwise resolves the caller's identity. [header] is the value of
    the [x-auth-token] request header. *)
Definition authenticate {J : Jwt} (secret : string) (now : Z)
    (header : option string) : Outcome :=
  match header with
  | None => MissingToken
  | Some token =>
      match jwt_decode token with
      | None => InvalidToken
      | Some claims =>
          if negb (jwt_signed_by token secret) then InvalidToken
          else if (c_exp claims <? now)%Z then ExpiredToken
          else Authenticated (c_id claims)
      end
  end.

(** Every token failure is a 401 (section 6). *)
Definition status_of (o : Outcome) : Z :=
  match o with
  | Authenticated _ => 200
  | _ => 401
  end.

End Guard.

(* ===================================================================== *)
(** * Client Session Manager
      (context/AuthContext.jsx, services/api.js, utils/helpers.js) *)
(* ===================================================================== *)

Module Client.

(** [STORAGE_KEYS] and [ROUTES.LOGIN] of utils/constants.js. *)
Definition AUTH_TOKEN : string := "token".
Definition USER_DATA : string := "user".
Definition LOGIN_PATH : string := "/login".
Definition X_AUTH_TOKEN : string := "x-auth-token".

(** ** Browser built-ins and jwt-decode *)

(** What [initializeAuth] reads of a decoded payload: the [exp] claim, a
    number of seconds, or no such claim. *)
Record Decoded : Type := mkDecoded {
  d_exp : option Z
}.

(** [None] stands for a thrown exception ([jwtDecode], [JSON_parse]) or
    for the result [undefined] ([JSON_stringify]); [ToString] is the
    coercion [localStorage.setItem] applies to the value it is given.
    [quota_exceeded ls k v] tells whether the browser refuses to store
    [v] under [k] in a storage that holds [ls]: [setItem] then throws a
    QuotaExceededError whose message is [quota_message k].
    [type_error_message v k] is the message of the TypeError the engine
    raises when property [k] of [v], [null] or [undefined], is read.
    The texts of both messages differ from engine to engine. *)
Class Runtime : Type := {
  jwtDecode : string -> option Decoded;
  JSON_parse : string -> option jsval;
  JSON_stringify : jsval -> option string;
  ToString : jsval -> string;
  quota_exceeded : gmap string string -> string -> string -> bool;
  quota_message : string -> string;
  type_error_message : jsval -> string -> string
}.

(** ** State *)

(** An axios request configuration. *)
Record Config : Type := mkConfig {
  method : string;
  url : string;
  headers : gmap string string;
  data : jsval
}.

(** What the network answers to a request: a response with a status and
    a body, or nothing at all. *)
Inductive Reply : Type :=
  | HttpReply (code : Z) (payload : jsval)
  | NoReply.

(** What a [catch] block of the session manager can receive: an axios
    error with or without a response, or an exception raised locally. *)
Inductive Failure : Type :=
  | HttpError (code : Z) (payload : jsval)
  | NetworkError
  | Thrown (message : string).

(** The effects an operation has on the world outside React state, in
    the order in which they happen. *)
Inductive Effect : Type :=
  | SetItem (key value : string)
  | RemoveItem (key : string)
  | HttpRequest (config : Config)
  | AssignHref (href : string).

(** [storage] is [localStorage]; [user], [loading], [error] are the
    three [useState] cells of [AuthProvider]; [pathname] is
    [window.location.pathname]; [pending] is the navigation started by
    an assignment to [window.location.href] that the browser has not
    carried out yet; [trace] records the effects performed so far. *)
Record State : Type := mkState {
  storage : gmap string string;
  user : jsval;
  loading : bool;
  error : jsval;
  pathname : string;
  pending : option string;
  trace : list Effect
}.

Definition isAuthenticated (st : State) : bool := truthy (user st).

Definition setUser (v : jsval) (st : State) : State :=
  mkState (storage st) v (loading st) (error st) (pathname st)
          (pending st) (trace st).

Definition setLoading (b : bool) (st : State) : State :=
  mkState (storage st) (user st) b (error st) (pathname st)
          (pending st) (trace st).

Definition setError (e : jsval) (st : State) : State :=
  mkState (storage st) (user st) (loading st) e (pathname st)
          (pending st) (trace st).

Definition getItem (k : string) (st : State) : option string :=
  storage st !! k.

(** [localStorage.setItem(k, v)]: [None] when the browser refuses the
    write and throws; nothing is stored then. *)
Definition setItem {R : Runtime} (k v : string) (st : State)
    : option State :=
  if quota_exceeded (storage st) k v then None
  else
    Some (mkState (<[k := v]> (storage st)) (user st) (loading st)
                  (error st) (pathname st) (pending st)
                  (trace st ++ [SetItem k v])%list).

Definition removeItem (k : string) (st : State) : State :=
  mkState (delete k (storage st)) (user st) (loading st) (error st)
          (pathname st) (pending st) (trace st ++ [RemoveItem k])%list.

Definition send (config : Config) (st : State) : State :=
  mkState (storage st) (user st) (loading st) (error st) (pathname st)
          (pending st) (trace st ++ [HttpRequest config])%list.

(** [window.location.href = href] *)
Definition assignHref (href : string) (st : State) : State :=
  mkState (storage st) (user st) (loading st) (error st) (pathname st)
          (Some href) (trace st ++ [AssignHref href])%list.

(** ** utils/helpers.js *)

(** [formatErrorMessage(error)] *)
Definition formatErrorMessage (err : Failure) : jsval :=
  match err with
  | HttpError _ payload =>
      js_or (js_get_opt payload "msg")
        (js_or (js_get_opt payload "message") (JStr "Server error occurred"))
  | NetworkError => JStr "Network error. Please check your connection."
  | Thrown message =>
      js_or (JStr message) (JStr "An unexpected error occurred")
  end.

(** ** services/api.js *)

(** The request interceptor: attach the stored token, if any. *)
Definition request_interceptor (ls : gmap string string) (config : Config)
    : Config :=
  match ls !! AUTH_TOKEN with
  | Some token =>
      if truthy_str token
      then mkConfig (method config) (url config)
                    (<[X_AUTH_TOKEN := token]> (headers config))
                    (data config)
      else config
  | None => config
  end.

(** [error.response?.status === 401] *)
Definition is_unauthorized (err : Failure) : bool :=
  match err with
  | HttpError code _ => (code =? 401)%Z
  | _ => false
  end.

(** The error branch of the response interceptor, up to the rejection
    it ends with. *)
Definition response_rejected (err : Failure) (st : State) : State :=
  if is_unauthorized err then
    let st := removeItem AUTH_TOKEN st in
    let st := removeItem USER_DATA st in
    if negb (String.eqb (pathname st) LOGIN_PATH)
    then assignHref LOGIN_PATH st
    else st
  else st.

(** axios settles a reply: statuses 200 to 299 resolve with the
    response body, everything else is rejected. *)
Definition settle (reply : Reply) : Failure + jsval :=
  match reply with
  | HttpReply code payload =>
      if ((200 <=? code) && (code <? 300))%Z then inr payload
      else inl (HttpError code payload)
  | NoReply => inl NetworkError
  end.

(** One call through the [api] instance: the request interceptor, the
    exchange, the response interceptor. The result is [response.data]
    on the right, the rejection on the left. *)
Definition api_call (config : Config) (reply : Reply) (st : State)
    : State * (Failure + jsval) :=
  let st := send (request_interceptor (storage st) config) st in
  match settle reply with
  | inr payload => (st, inr payload)
  | inl err => (response_rejected err st, inl err)
  end.

Definition json_headers : gmap string string :=
  {[ "Content-Type" := "application/json" ]}.

Definition api_post (path : string) (payload : jsval) : Config :=
  mkConfig "post" path json_headers payload.

(** ** context/AuthContext.jsx *)

(** [decoded.exp < Date.now() / 1000], with [now_ms] the value of
    [Date.now()]; the comparison with a missing claim is false. *)
Definition expired (d : Decoded) (now_ms : Z) : bool :=
  match d_exp d with
  | Some e => (e * 1000 <? now_ms)%Z
  | None => false
  end.

Definition clear_session (st : State) : State :=
  let st := removeItem AUTH_TOKEN st in
  let st := removeItem USER_DATA st in
  setUser JNull st.

(** [initializeAuth], run by the mount effect of [AuthProvider]. *)
Definition initializeAuth {R : Runtime} (now_ms : Z) (st : State) : State :=
  let token := getItem AUTH_TOKEN st in
  let userData := getItem USER_DATA st in
  let st :=
    match token, userData with
    | Some t, Some ud =>
        if truthy_str t && truthy_str ud then
          match jwtDecode t with
          | Some decoded =>
              if expired decoded now_ms then clear_session st
              else
                match JSON_parse ud with
                | Some v => setUser v st
                | None => clear_session st
                end
          | None => clear_session st
          end
        else st
    | _, _ => st
    end in
  setLoading false st.

Record Result : Type := mkResult {
  success : bool;
  message : jsval
}.

(** The [catch] block shared by [login] and [register]. *)
Definition failed (err : Failure) (st : State) : State * Result :=
  let errorMessage := formatErrorMessage err in
  let st := setError errorMessage st in
  let st := setLoading false st in
  (st, mkResult false errorMessage).

Definition credentials (email password : string) : jsval :=
  JObj [("email", JStr email); ("password", JStr password)].

(** What [setItem] stores for [JSON.stringify(v)]. *)
Definition stringified {R : Runtime} (v : jsval) : string :=
  match JSON_stringify v with
  | Some s => s
  | None => "undefined"
  end.

(** The TypeError of reading property [k] of [v], and the
    QuotaExceededError of a refused write under [k]. *)
Definition type_error {R : Runtime} (v : jsval) (k : string) : Failure :=
  Thrown (type_error_message v k).

Definition quota_error {R : Runtime} (k : string) : Failure :=
  Thrown (quota_message k).

(** [login(email, password)], with the reply of the network to the
    request it sends. Every exception of the [try] block ends in the
    [catch] block, which undoes nothing. *)
Definition login {R : Runtime} (email password : string) (reply : Reply)
    (st : State) : State * Result :=
  let st := setError JNull st in
  let st := setLoading true st in
  match api_call (api_post "/auth/login" (credentials email password))
                 reply st with
  | (st, inl err) => failed err st
  | (st, inr response) =>
      match js_get response "token" with
      | None => failed (type_error response "token") st
      | Some token =>
          match setItem AUTH_TOKEN (ToString token) st with
          | None => failed (quota_error AUTH_TOKEN) st
          | Some st =>
              match js_get response "user" with
              | None => failed (type_error response "user") st
              | Some u =>
                  match setItem USER_DATA (stringified u) st with
                  | None => failed (quota_error USER_DATA) st
                  | Some st =>
                      let st := setUser u st in
                      let st := setLoading false st in
                      (st, mkResult true JUndefined)
                  end
              end
          end
      end
  end.

Definition registration (name email password : string)
    (interests : list string) : jsval :=
  JObj [("name", JStr name); ("email", JStr email);
        ("password", JStr password);
        ("interests", JArr (List.map JStr interests))].

(** [register(name, email, password, interests)] *)
Definition register (name email password : string)
    (interests : list string) (reply : Reply) (st : State)
    : State * Result :=
  let st := setError JNull st in
  let st := setLoading true st in
  match api_call (api_post "/auth/register"
                    (registration name email password interests))
                 reply st with
  | (st, inl err) => failed err st
  | (st, inr _) =>
      let st := setLoading false st in
      (st, mkResult true JUndefined)
  end.

(** [logout()] *)
Definition logout (st : State) : State :=
  let st := removeItem AUTH_TOKEN st in
  let st := removeItem USER_DATA st in
  let st := setUser JNull st in
  setError JNull st.

(** [clearError()] *)
Definition clearError (st : State) : State := setError JNull st.

(** ** The page *)

(** A freshly loaded document at [path]: the initial values of the
    [useState] cells, the storage the browser kept. *)
Definition mount (ls : gmap string string) (path : string)
    (tr : list Effect) : State :=
  mkState ls JNull true JNull path None tr.

(** Client startup: the provider mounts and its effect runs
    [initializeAuth]. *)
Definition startup {R : Runtime} (now_ms : Z) (ls : gmap string string)
    (path : string) (tr : list Effect) : State :=
  initializeAuth now_ms (mount ls path tr).

(** The browser carries out a pending navigation: the document at the
    new location is loaded and the application starts again. *)
Definition navigate {R : Runtime} (now_ms : Z) (st : State) : State :=
  match pending st with
  | Some href => startup now_ms (storage st) href (trace st)
  | None => st
  end.

(** The operations of the session manager. [User_request] is any other
    call made through the [api] instance (schemes, chat). *)
Inductive Op : Type :=
  | Initialize
  | Login (email password : string) (reply : Reply)
  | Register (name email password : string) (interests : list string)
      (reply : Reply)
  | Logout
  | ClearError
  | User_request (config : Config) (reply : Reply).

(** The body of one operation, at clock [now_ms]. *)
Definition perform {R : Runtime} (now_ms : Z) (op : Op) (st : State)
    : State :=
  match op with
  | Initialize => initializeAuth now_ms st
  | Login email password reply => fst (login email password reply st)
  | Register name email password interests reply =>
      fst (register name email password interests reply st)
  | Logout => logout st
  | ClearError => clearError st
  | User_request config reply => fst (api_call config reply st)
  end.

(** One operation followed by the navigation it may have started. *)
Definition run {R : Runtime} (now_ms : Z) (op : Op) (st : State) : State :=
  navigate now_ms (perform now_ms op st).

(** A reply that the response interceptor treats as a rejection of the
    token. *)
Definition unauthorized (reply : Reply) : bool :=
  match settle reply with
  | inl err => is_unauthorized err
  | inr _ => false
  end.

(** A run of calls through the [api] instance, each with its reply. *)
Definition exchange_all {R : Runtime} (now_ms : Z)
    (calls : list (Config * Reply)) (st : State) : State :=
  List.fold_left
    (fun s call => run now_ms (User_request (fst call) (snd call)) s)
    calls st.

(** The reply an operation receives, if it makes a request. *)
Definition reply_of (op : Op) : option Reply :=
  match op with
  | Login _ _ reply => Some reply
  | Register _ _ _ _ reply => Some reply
  | User_request _ reply => Some reply
  | _ => None
  end.

(** ** Reading the trace *)

Definition storage_effect (e : Effect) : bool :=
  match e with
  | SetItem _ _ => true
  | RemoveItem _ => true
  | _ => false
  end.

Definition storage_effects (tr : list Effect) : list Effect :=
  List.filter storage_effect tr.

Fixpoint requests (tr : list Effect) : list Config :=
  match tr with
  | [] => []
  | HttpRequest c :: tr' => c :: requests tr'
  | _ :: tr' => requests tr'
  end.

(** The effect of one storage effect on [localStorage]. *)
Definition apply_effect (ls : gmap string string) (e : Effect)
    : gmap string string :=
  match e with
  | SetItem k v => <[k := v]> ls
  | RemoveItem k => delete k ls
  | _ => ls
  end.

(** The three shapes in which the two persisted values are touched
    together: not at all, both written, both removed. *)
Definition written (v w : string) : list Effect :=
  [SetItem AUTH_TOKEN v; SetItem USER_DATA w].

Definition removed : list Effect :=
  [RemoveItem AUTH_TOKEN; RemoveItem USER_DATA].

Inductive Paired : list Effect -> Prop :=
  | paired_none : Paired []
  | paired_written v w : Paired (written v w)
  | paired_removed : Paired removed.

(** The token written without the projection. *)
Definition token_alone (v : string) : list Effect := [SetItem AUTH_TOKEN v].

(** The shapes in which the operations do touch the two values: the
    three paired ones, and the token alone. *)
Inductive Touched : list Effect -> Prop :=
  | touched_paired d : Paired d -> Touched d
  | touched_token_alone v : Touched (token_alone v).

(** What the body of an operation has done between [st] and [st']: its
    storage effects [d], their faithful reflection in [localStorage],
    and whether a navigation to the login page is under way. *)
Record Delta (st st' : State) (d : list Effect) : Prop := mkDelta {
  delta_trace :
    storage_effects (trace st')
    = (storage_effects (trace st) ++ d)%list;
  delta_storage :
    storage st' = List.fold_left apply_effect d (storage st);
  delta_pending :
    pending st' = None
    \/ (pending st' = Some LOGIN_PATH /\ d = removed)
}.

(** The two persisted values are both there or both missing. *)
Definition both_or_neither (ls : gmap string string) : Prop :=
  is_Some (ls !! AUTH_TOKEN) <-> is_Some (ls !! USER_DATA).

(** A run of operations, each at its clock. *)
Definition run_all {R : Runtime} (steps : list (Z * Op)) (st : State)
    : State :=
  List.fold_left (fun s step => run (fst step) (snd step) s) steps st.

(** A stored value counts as present when the code's own test, its
    truthiness, sees it. *)
Definition present (o : option string) : bool :=
  match o with
  | Some s => truthy_str s
  | None => false
  end.

End Client.

(* ===================================================================== *)
(** * Reference instances of the collaborators *)
(* ===================================================================== *)

(** Executable stand-ins for bcryptjs, jsonwebtoken, jwt-decode and the
    JSON built-ins. They are transparent where the real ones are
    cryptographic, and satisfy the same contracts; the handlers are run
    against them on concrete requests. *)
Module Reference.
Import Auth Client.

(** A hash that keeps the secret in front of the salt. *)
Definition bcrypt : Bcrypt :=
  {| bcrypt_hash := fun s salt => s ++ "$" ++ salt;
     bcrypt_compare := fun s hash => String.prefix (s ++ "$") hash |}.

(** Self-delimiting binary numerals, least significant bit first. *)
Fixpoint enc_pos (p : positive) : string :=
  match p with
  | xH => "."
  | xO q => String "0" (enc_pos q)
  | xI q => String "1" (enc_pos q)
  end.

Fixpoint dec_pos (s : string) : option (positive * string) :=
  match s with
  | EmptyString => None
  | String c r =>
      if Ascii.eqb c "." then Some (xH, r)
      else if Ascii.eqb c "0" then
        match dec_pos r with
        | Some (q, r') => Some (xO q, r')
        | None => None
        end
      else if Ascii.eqb c "1" then
        match dec_pos r with
        | Some (q, r') => Some (xI q, r')
        | None => None
        end
      else None
  end.

Definition enc_Z (z : Z) : string :=
  match z with
  | Z0 => "z"
  | Zpos p => String "+" (enc_pos p)
  | Zneg p => String "-" (enc_pos p)
  end.

Definition dec_Z (s : string) : option (Z * string) :=
  match s with
  | EmptyString => None
  | String c r =>
      if Ascii.eqb c "z" then Some (Z0, r)
      else if Ascii.eqb c "+" then
        match dec_pos r with
        | Some (p, r') => Some (Zpos p, r')
        | None => None
        end
      else if Ascii.eqb c "-" then
        match dec_pos r with
        | Some (p, r') => Some (Zneg p, r')
        | None => None
        end
      else None
  end.

(** A token is its three claims followed by the signing key. *)
Definition parse (t : string) : option (Claims * string) :=
  match dec_Z t with
  | Some (id, r1) =>
      match dec_Z r1 with
      | Some (iat, r2) =>
          match dec_Z r2 with
          | Some (exp, key) => Some (mkClaims (Z.to_N id) iat exp, key)
          | None => None
          end
      | None => None
      end
  | None => None
  end.

Definition jwt : Jwt :=
  {| jwt_encode := fun c k =>
       enc_Z (Z.of_N (c_id c)) ++ enc_Z (c_iat c) ++ enc_Z (c_exp c) ++ k;
     jwt_decode := fun t => option_map fst (parse t);
     jwt_signed_by := fun t k =>
       match parse t with
       | Some (_, key) => String.eqb key k
       | None => false
       end |}.

(** A quote-free rendering of values. *)
Fixpoint render (v : jsval) : string :=
  match v with
  | JUndefined => "undefined"
  | JNull => "null"
  | JBool true => "true"
  | JBool false => "false"
  | JNum n => enc_Z n
  | JStr s => s
  | JArr xs =>
      "[" ++ (fix items (l : list jsval) : string :=
                match l with
                | [] => ""
                | x :: r => render x ++ "," ++ items r
                end) xs ++ "]"
  | JObj fs =>
      "{" ++ (fix members (l : list (string * jsval)) : string :=
                match l with
                | [] => ""
                | (k, x) :: r => k ++ ":" ++ render x ++ "," ++ members r
                end) fs ++ "}"
  end.

Definition alice : Auth.User :=
  mkUser 0%N (Some "Alice") (Some "a@x.com") ("secret1" ++ "$" ++ "salt") [].

Definition alice_projection : jsval := Auth.projection alice.

(** The runtime reads tokens of the reference codec and parses back the
    rendering of the one projection the examples store. Its storage
    never refuses a write. *)
Definition runtime : Runtime :=
  {| jwtDecode := fun t =>
       option_map (fun c => mkDecoded (Some (c_exp c)))
                  (jwt_decode (Jwt := jwt) t);
     JSON_parse := fun s =>
       if String.eqb s (render alice_projection) then Some alice_projection
       else if String.eqb s "null" then Some JNull
       else None;
     JSON_stringify := fun v =>
       match v with
       | JUndefined => None
       | _ => Some (render v)
       end;
     ToString := render;
     quota_exceeded := fun _ _ _ => false;
     quota_message := fun k =>
       "Setting the value of '" ++ k ++ "' exceeded the quota.";
     type_error_message := fun v k =>
       "Cannot read properties of " ++ render v
       ++ " (reading '" ++ k ++ "')" |}.

(** The characters a storage holds, keys and values together. *)
Definition size (ls : gmap string string) : nat :=
  map_fold (fun k v n => (String.length k + String.length v + n)%nat)
           0%nat ls.

(** The same runtime in a browser whose storage holds at most [quota]
    characters. *)
Definition browser (quota : nat) : Runtime :=
  {| jwtDecode := jwtDecode (Runtime := runtime);
     JSON_parse := JSON_parse (Runtime := runtime);
     JSON_stringify := JSON_stringify (Runtime := runtime);
     ToString := ToString (Runtime := runtime);
     quota_exceeded := fun ls k v => (quota <? size (<[k := v]> ls))%nat;
     quota_message := quota_message (Runtime := runtime);
     type_error_message := type_error_message (Runtime := runtime) |}.

(** The schema of the specification, and a server secret. *)
Definition schema : UserSchema := spec_schema.
Definition secret : string := "server-secret".

(** Alice's registration and login requests. *)
Definition alice_registers : RegisterBody :=
  mkRegisterBody (Some "Alice") (Some "a@x.com") (Some "secret1") [].

Definition alice_logs_in : LoginBody :=
  mkLoginBody (Some "a@x.com") (Some "secret1").

(** The store after Alice registered. *)
Definition db1 : Db :=
  snd (Auth.register (B := bcrypt) (M := schema) "salt" empty_db
         alice_registers).

(** A token for Alice issued at second 1000, and the storage of a
    client that holds it with her projection. *)
Definition alice_token : string :=
  jwt_encode (Jwt := jwt) (mkClaims 0%N 1000 (1000 + seven_days)) secret.

Definition alice_storage : gmap string string :=
  <[USER_DATA := render alice_projection]>
    (<[AUTH_TOKEN := alice_token]> ∅).

(** A registration request with an empty secret. *)
Definition empty_secret : RegisterBody :=
  mkRegisterBody (Some "Alice") (Some "a@x.com") (Some "") [].

(** A client on the login page whose session is Alice's, and a chat
    call that the backend answers with a 401. *)
Definition on_login_page : State :=
  mkState alice_storage alice_projection false JNull LOGIN_PATH None [].

Definition chat_call : Config :=
  api_post "/chat" (JObj [("message", JStr "hi"); ("userId", JNull)]).

Definition rejection : Reply :=
  HttpReply 401 (Auth.msg "Token is not valid").

Definition on_chat_page : State :=
  mkState alice_storage alice_projection false JNull "/chat" None [].

(** A storage that a draft kept by another page has nearly filled, in a
    browser that holds a hundred characters: there is room for Alice's
    token, but not for her projection as well. *)
Definition cramped : Runtime := browser 100.

Definition nearly_full : gmap string string :=
  <["draft" := "Dear Sir or Madam, I am writing to ask.."]> ∅.

(** A storage that holds the token alone. *)
Definition orphan_token : gmap string string :=
  <[AUTH_TOKEN := alice_token]> ∅.

(** The body of a successful login answer. *)
Definition login_answer : jsval :=
  JObj [("token", JStr alice_token); ("user", alice_projection)].

End Reference.

(* ===================================================================== *)
(** * Validation and formatting helpers (utils/helpers.js) *)
(* ===================================================================== *)

Module Helpers.

(** ** Patterns *)

(** The patterns the helpers use are anchored sequences of literal
    characters and of character classes repeated one or more times. *)
Inductive Item : Type :=
  | Lit (c : ascii)
  | Plus (class : ascii -> bool).

(** [pattern.test(s)] for [/^...$/]: a repeated class takes one character
    and then either takes more or hands over to the rest of the
    pattern. *)
Fixpoint test (pattern : list Item) : string -> bool :=
  match pattern with
  | [] => fun s =>
      match s with
      | EmptyString => true
      | String _ _ => false
      end
  | Lit c :: rest => fun s =>
      match s with
      | EmptyString => false
      | String a s' => Ascii.eqb a c && test rest s'
      end
  | Plus class :: rest =>
      fix more (s : string) : bool :=
        match s with
        | EmptyString => false
        | String a s' => class a && (more s' || test rest s')
        end
  end.

(** The class [[^\s@]]. *)
Definition not_space_at (c : ascii) : bool :=
  negb (is_ws c) && negb (Ascii.eqb c "@").

(** ** [VALIDATION_RULES] of utils/constants.js *)

Definition PASSWORD_MIN_LENGTH : nat := 6.
Definition PASSWORD_MAX_LENGTH : nat := 50.
Definition NAME_MIN_LENGTH : nat := 2.
Definition NAME_MAX_LENGTH : nat := 50.

(** [/^[^\s@]+@[^\s@]+\.[^\s@]+$/] *)
Definition EMAIL_REGEX : list Item :=
  [Plus not_space_at; Lit "@"; Plus not_space_at; Lit ".";
   Plus not_space_at].

(** ** The helpers *)

(** [isValidEmail(email)] *)
Definition isValidEmail (email : jsval) : bool :=
  if negb (truthy email) || negb (String.eqb (typeof email) "string")
  then false
  else
    match email with
    | JStr s => test EMAIL_REGEX (trim s)
    | _ => false
    end.

(** The result [{ isValid, message }] of a validator. *)
Record Validation : Type := mkValidation {
  isValid : bool;
  message : string
}.

(** A number inside a template literal. *)
Definition show (n : nat) : string :=
  NilEmpty.string_of_uint (Nat.to_uint n).

(** [validatePassword(password)] *)
Definition validatePassword (password : jsval) : Validation :=
  if negb (truthy password) || negb (String.eqb (typeof password) "string")
  then mkValidation false "Password is required"
  else
    match password with
    | JStr s =>
        if (String.length s <? PASSWORD_MIN_LENGTH)%nat then
          mkValidation false
            ("Password must be at least " ++ show PASSWORD_MIN_LENGTH
             ++ " characters")
        else if (PASSWORD_MAX_LENGTH <? String.length s)%nat then
          mkValidation false
            ("Password must not exceed " ++ show PASSWORD_MAX_LENGTH
             ++ " characters")
        else mkValidation true ""
    | _ => mkValidation false "Password is required"
    end.

(** [validateName(name)] *)
Definition validateName (name : jsval) : Validation :=
  if negb (truthy name) || negb (String.eqb (typeof name) "string")
  then mkValidation false "Name is required"
  else
    match name with
    | JStr s =>
        let trimmedName := trim s in
        if (String.length trimmedName <? NAME_MIN_LENGTH)%nat then
          mkValidation false
            ("Name must be at least " ++ show NAME_MIN_LENGTH
             ++ " characters")
        else if (NAME_MAX_LENGTH <? String.length trimmedName)%nat then
          mkValidation false
            ("Name must not exceed " ++ show NAME_MAX_LENGTH
             ++ " characters")
        else mkValidation true ""
    | _ => mkValidation false "Name is required"
    end.

(** [s.split(c)] for a one-character separator: the pieces between the
    separators, at least one piece. *)
Fixpoint split (c : ascii) (s : string) : list string :=
  match s with
  | EmptyString => [EmptyString]
  | String a s' =>
      if Ascii.eqb a c then EmptyString :: split c s'
      else
        match split c s' with
        | piece :: pieces => String a piece :: pieces
        | [] => [String a EmptyString]
        end
  end.

(** [parseInterests(interestsString)] *)
Definition parseInterests (interestsString : jsval) : list string :=
  if negb (truthy interestsString)
     || negb (String.eqb (typeof interestsString) "string")
  then []
  else
    match interestsString with
    | JStr s =>
        List.filter (fun interest => (0 <? String.length interest)%nat)
          (List.map trim (split "," s))
    | _ => []
    end.

(** [text.substring(0, end)]: a negative end counts as zero. *)
Definition substring_to (finish : Z) (text : string) : string :=
  String.substring 0 (Z.to_nat finish) text.

(** [truncateText(text, maxLength, suffix)]; the default suffix is
    ["..."]. *)
Definition truncateText (text : jsval) (maxLength : Z) (suffix : string)
    : string :=
  if negb (truthy text) || negb (String.eqb (typeof text) "string")
  then ""
  else
    match text with
    | JStr s =>
        if (Z.of_nat (String.length s) <=? maxLength)%Z then s
        else
          substring_to (maxLength - Z.of_nat (String.length suffix)) s
          ++ suffix
    | _ => ""
    end.

Definition default_suffix : string := "...".

End Helpers.

(* ===================================================================== *)
(** * JSON on the wire *)
(* ===================================================================== *)

Module Wire.
Import Auth Client.

(** [JSON.parse(JSON.stringify(v))]: a property whose value is
    [undefined] is left out of its object, an [undefined] element of an
    array becomes [null]. *)
Fixpoint to_json (v : jsval) : jsval :=
  match v with
  | JArr xs =>
      JArr ((fix items (l : list jsval) : list jsval :=
               match l with
               | [] => []
               | x :: r =>
                   match to_json x with
                   | JUndefined => JNull :: items r
                   | y => y :: items r
                   end
               end) xs)
  | JObj fs =>
      JObj ((fix members (l : list (string * jsval))
               : list (string * jsval) :=
               match l with
               | [] => []
               | (k, x) :: r =>
                   match to_json x with
                   | JUndefined => members r
                   | y => (k, y) :: members r
                   end
               end) fs)
  | _ => v
  end.

(** [req.body] as [express.json()] leaves it for the data of a request. *)
Definition request_body (config : Config) : list (string * jsval) :=
  match to_json (data config) with
  | JObj fs => fs
  | _ => []
  end.

(** The reply the client receives for a response of the server. *)
Definition deliver (r : Response) : Reply :=
  HttpReply (status r) (to_json (body r)).

(** A field of a body as the handlers of routes/auth.js are modelled:
    a string, or absent. A field that holds any other value is outside
    the bodies [Auth.register] and [Auth.login] are defined on
    ([None]). *)
Definition as_string (v : jsval) : option (option string) :=
  match v with
  | JUndefined => Some None
  | JStr s => Some (Some s)
  | _ => None
  end.

Fixpoint as_strings (vs : list jsval) : option (list string) :=
  match vs with
  | [] => Some []
  | JStr s :: r =>
      match as_strings r with
      | Some l => Some (s :: l)
      | None => None
      end
  | _ :: _ => None
  end.

(** [const { name, email, password, interests } = req.body], for a body
    whose fields are strings or absent and whose interests are an array
    of strings or absent. *)
Definition register_body (fs : list (string * jsval))
    : option RegisterBody :=
  match as_string (field "name" fs), as_string (field "email" fs),
        as_string (field "password" fs),
        match field "interests" fs with
        | JUndefined => Some []
        | JArr vs => as_strings vs
        | _ => None
        end with
  | Some name, Some email, Some password, Some interests =>
      Some (mkRegisterBody name email password interests)
  | _, _, _, _ => None
  end.

(** [const { email, password } = req.body] *)
Definition login_body (fs : list (string * jsval)) : option LoginBody :=
  match as_string (field "email" fs), as_string (field "password" fs) with
  | Some email, Some password => Some (mkLoginBody email password)
  | _, _ => None
  end.

End Wire.

(* ===================================================================== *)
(** * Pages and components
      (pages/Login.jsx, pages/Register.jsx, pages/Chat.jsx,
       components/ProtectedRoute.jsx, components/Layout.jsx) *)
(* ===================================================================== *)

Module Pages.
Import Client Helpers.

(** [ROUTES] of utils/constants.js. *)
Definition ROUTES_LOGIN : string := LOGIN_PATH.
Definition ROUTES_SCHEMES : string := "/schemes".

(** [navigate(path)] of react-router: the location changes, the document
    stays. *)
Definition router_navigate (path : string) (st : State) : State :=
  mkState (storage st) (user st) (loading st) (error st) path (pending st)
          (trace st).

(** ** components/ProtectedRoute.jsx *)

Inductive View : Type :=
  | Spinner
  | Navigate (to : string)
  | Children.

Definition ProtectedRoute (st : State) : View :=
  if loading st then Spinner
  else if negb (isAuthenticated st) then Navigate ROUTES_LOGIN
  else Children.

(** ** components/Layout.jsx *)

Definition handleLogout (st : State) : State :=
  router_navigate ROUTES_LOGIN (logout st).

(** ** Form validation *)

(** The [errors] object of a [validateForm]: a key is set or is not. *)
Record Errors : Type := mkErrors {
  errors_name : option string;
  errors_email : option string;
  errors_password : option string
}.

(** [Object.keys(errors).length === 0] *)
Definition no_errors (errors : Errors) : bool :=
  match errors_name errors, errors_email errors, errors_password errors with
  | None, None, None => true
  | _, _, _ => false
  end.

Definition email_errors (email : string) : option string :=
  if negb (truthy_str email) then Some "Email is required"
  else if negb (isValidEmail (JStr email))
  then Some "Please enter a valid email address"
  else None.

Definition password_errors (password : string) : option string :=
  if negb (truthy_str password) then Some "Password is required"
  else
    let passwordValidation := validatePassword (JStr password) in
    if negb (isValid passwordValidation)
    then Some (Helpers.message passwordValidation)
    else None.

Definition name_errors (name : string) : option string :=
  if negb (truthy_str name) then Some "Name is required"
  else
    let nameValidation := validateName (JStr name) in
    if negb (isValid nameValidation)
    then Some (Helpers.message nameValidation)
    else None.

(** ** pages/Login.jsx *)

Record LoginForm : Type := mkLoginForm {
  login_email : string;
  login_password : string
}.

(** The local state of a form page after [handleSubmit]: the error
    banner, the success banner, the field errors, and the route of a
    redirect scheduled with [setTimeout]. *)
Record Page : Type := mkPage {
  page_error : jsval;
  page_success : string;
  validationErrors : Errors;
  scheduled : option string
}.

Definition Login_validateForm (formData : LoginForm) : Errors :=
  mkErrors None (email_errors (login_email formData))
           (password_errors (login_password formData)).

(** [handleSubmit] of the login page, with the reply of the network to
    the request it may send. *)
Definition Login_handleSubmit {R : Runtime} (formData : LoginForm)
    (reply : Reply) (st : State) : State * Page :=
  let errors := Login_validateForm formData in
  if negb (no_errors errors) then (st, mkPage (JStr "") "" errors None)
  else
    match Client.login (login_email formData) (login_password formData)
            reply st with
    | (st, result) =>
        if success result
        then (router_navigate ROUTES_SCHEMES st,
              mkPage (JStr "") "" errors None)
        else (st,
              mkPage (js_or (Client.message result)
                        (JStr "Login failed. Please try again."))
                     "" errors None)
    end.

(** ** pages/Register.jsx *)

Record RegisterForm : Type := mkRegisterForm {
  form_name : string;
  form_email : string;
  form_password : string;
  form_interests : string
}.

Definition REGISTER_SUCCESS : string :=
  "Registration successful! Redirecting to login...".

Definition Register_validateForm (formData : RegisterForm) : Errors :=
  mkErrors (name_errors (form_name formData))
           (email_errors (form_email formData))
           (password_errors (form_password formData)).

(** [handleSubmit] of the registration page. *)
Definition Register_handleSubmit (formData : RegisterForm) (reply : Reply)
    (st : State) : State * Page :=
  let errors := Register_validateForm formData in
  if negb (no_errors errors) then (st, mkPage (JStr "") "" errors None)
  else
    let interestsArray := parseInterests (JStr (form_interests formData)) in
    match Client.register (trim (form_name formData))
            (trim (form_email formData)) (form_password formData)
            interestsArray reply st with
    | (st, result) =>
        if success result
        then (st, mkPage (JStr "") REGISTER_SUCCESS errors
                         (Some ROUTES_LOGIN))
        else (st,
              mkPage (js_or (Client.message result)
                        (JStr "Registration failed. Please try again."))
                     "" errors None)
    end.

(** ** pages/Chat.jsx *)







End Pages.

(* ===================================================================== *)
(** * The completion proxy (the second routes/chat.js) *)
(* ===================================================================== *)

Module Proxy.
Import Client.

(** [v[i]]: a [TypeError] on [null] and [undefined], the element at
    [i] of an array, the character at [i] of a string, the property
    whose name is the decimal numeral of [i] of an object, [undefined]
    out of range and on numbers and booleans. *)
Definition js_index (v : jsval) (i : nat) : option jsval :=
  match v with
  | JUndefined => None
  | JNull => None
  | JArr xs => Some (List.nth i xs JUndefined)
  | JObj fs => Some (field (Helpers.show i) fs)
  | JStr s =>
      Some match String.get i s with
           | Some c => JStr (String c EmptyString)
           | None => JUndefined
           end
  | _ => Some JUndefined
  end.

(** [data.choices[0].message.content]; [None] when the chain throws. *)
Definition first_content (payload : jsval) : option jsval :=
  match js_get payload "choices" with
  | Some choices =>
      match js_index choices 0 with
      | Some choice =>
          match js_get choice "message" with
          | Some message => js_get message "content"
          | None => None
          end
      | None => None
      end
  | None => None
  end.

(** The body posted to the completion API. *)
Definition completion_request (message : jsval) : jsval :=
  JObj [("model", JStr "gpt-4o-mini");
        ("messages", JArr [JObj [("role", JStr "user");
                                 ("content", message)]]);
        ("max_tokens", JNum 800)].

Definition ai_error (detail : jsval) : Response :=
  res_status_json 500 (JObj [("msg", JStr "AI error"); ("error", detail)]).

(** [POST /api/chat] of the proxy: the answer, and the bodies posted
    upstream. [upstream] is what the completion API replies,
    [err_message] the [message] of the error the [catch] block receives
    when there is one. *)
Definition post_chat (req_body : list (string * jsval)) (upstream : Reply)
    (err_message : string) : Response * list jsval :=
  let message := field "message" req_body in
  if negb (truthy message)
  then (res_status_json 400 (JObj [("msg", JStr "Message is required")]), [])
  else
    let posted := [completion_request message] in
    match settle upstream with
    | inr payload =>
        match first_content payload with
        | Some reply => (res_json (JObj [("reply", reply)]), posted)
        | None => (ai_error (JStr err_message), posted)
        end
    | inl (HttpError _ payload) =>
        (ai_error (js_or payload (JStr err_message)), posted)
    | inl _ => (ai_error (JStr err_message), posted)
    end.

End Proxy.

(* ===================================================================== *)
(** * Vocabulary for the properties *)
(* ===================================================================== *)

Module Vocabulary.
Import Auth Client Helpers Pages.

(** Every character of a string satisfies a test. *)
Fixpoint all (class : ascii -> bool) (s : string) : bool :=
  match s with
  | EmptyString => true
  | String c s' => class c && all class s'
  end.

(** The number of occurrences of a character. *)
Fixpoint count_char (c : ascii) (s : string) : nat :=
  match s with
  | EmptyString => 0%nat
  | String a s' => ((if Ascii.eqb a c then 1 else 0) + count_char c s')%nat
  end.


(** What the login page shows when the attempt made from [st] ended
    with [err]: the location and the user are as they were, nothing is
    loading, and the message of [err] is in the context and in the
    banner of the page. *)
Definition Login_failed (st : State) (out : State * Page) (err : Failure)
    : Prop :=
  pathname (fst out) = pathname st
  /\ user (fst out) = user st
  /\ loading (fst out) = false
  /\ error (fst out) = formatErrorMessage err
  /\ page_error (snd out) = formatErrorMessage err.

(** An interest as [parseInterests] returns them: not empty, without a
    comma, and without blanks at either end. *)
Definition clean (interest : string) : Prop :=
  interest <> ""
  /\ count_char "," interest = 0%nat
  /\ trim interest = interest.

(** The store keeps emails and identities apart: no two records share an
    email or an identity, and every identity is below the next one to be
    given. *)
Record Consistent (db : Db) : Prop := mkConsistent {
  emails_differ : NoDup (List.map u_email (users db));
  ids_differ : NoDup (List.map u_id (users db));
  ids_below : Forall (fun u => (u_id u < next_id db)%N) (users db)
}.

End Vocabulary.

(* ===================================================================== *)
(** * Forms and pages for the examples *)
(* ===================================================================== *)

Module Fixtures.
Import Auth Client Reference Pages.

(** The registration form as Alice fills it in, with stray blanks. *)
Definition alice_form : RegisterForm :=
  mkRegisterForm "  Alice " "a@x.com " "secret1"
                 "health, jobs ,, education".

(** Her login form, the email typed with blanks around it. *)
Definition alice_login_form : LoginForm :=
  mkLoginForm " a@x.com " "secret1".

(** A freshly loaded login page of a browser with an empty storage. *)
Definition fresh_page : State := mount ∅ LOGIN_PATH [].

(** A browser that keeps a preference of its own beside the session. *)
Definition themed_page : State :=
  mount (<["theme" := "dark"]> ∅) LOGIN_PATH [].





(** Two registration requests for the same email. *)
Definition two_requests : list (string * RegisterBody) :=
  [("salt", alice_registers); ("pepper", alice_registers)].

End Fixtures.

(* ===================================================================== *)
(** * Properties of the string primitives *)
(* ===================================================================== *)

Module JsStringFacts.

Lemma is_ws_lower_char (c : ascii) : is_ws (lower_char c) = is_ws c.
Proof. destruct c as [[] [] [] [] [] [] [] []]; reflexivity. Qed.

Lemma trimStart_toLowerCase (s : string) :
  trimStart (toLowerCase s) = toLowerCase (trimStart s).
Proof.
  induction s as [|c s IH]; simpl; [reflexivity|].
  rewrite is_ws_lower_char. destruct (is_ws c); [exact IH | reflexivity].
Qed.

Lemma trimEnd_toLowerCase (s : string) :
  trimEnd (toLowerCase s) = toLowerCase (trimEnd s).
Proof.
  induction s as [|c s IH]; simpl; [reflexivity|].
  rewrite IH, is_ws_lower_char.
  destruct (trimEnd s); simpl; [destruct (is_ws c)|]; reflexivity.
Qed.

(** Trimming and lowercasing commute. *)
Lemma trim_toLowerCase (s : string) :
  trim (toLowerCase s) = toLowerCase (trim s).
Proof.
  unfold trim. now rewrite trimStart_toLowerCase, trimEnd_toLowerCase.
Qed.

Lemma toLowerCase_empty (s : string) : toLowerCase s = "" -> s = "".
Proof. destruct s; [reflexivity | discriminate]. Qed.

Lemma length_zero (s : string) : Nat.eqb (String.length s) 0 = negb (truthy_str s).
Proof. destruct s; reflexivity. Qed.

Lemma truthy_str_true (s : string) : truthy_str s = true <-> s <> "".
Proof. destruct s; simpl; split; congruence. Qed.

End JsStringFacts.

(* ===================================================================== *)
(** * The chat endpoint *)
(* ===================================================================== *)

Module ChatFacts.
Import Chat JsStringFacts.

Lemma respond_nonempty (m : string) : respond m <> "".
Proof.
  unfold respond.
  destruct (is_scheme m); [discriminate|].
  destruct (is_scholarship m); [discriminate|].
  destruct (is_job m); [discriminate|].
  destruct (is_education m); [discriminate|].
  destruct (is_greeting m); [discriminate|].
  destruct (is_help m); discriminate.
Qed.

Lemma rejected_string (s : string) :
  rejected (JStr s) = negb (truthy_str (trim s)).
Proof.
  unfold rejected; simpl. rewrite length_zero.
  destruct s as [|c s]; [reflexivity|]. reflexivity.
Qed.

Lemma rejected_other (v : jsval) :
  (forall s, v <> JStr s) -> rejected v = true.
Proof.
  intros Hv. destruct v; try reflexivity.
  - unfold rejected; simpl. destruct b; reflexivity.
  - unfold rejected; simpl. now rewrite orb_true_r.
  - now contradiction (Hv s).
Qed.

(** An accepted message is answered with status 200 and the reply of
    the keyword chain on the trimmed, lowercased text. *)
Lemma post_chat_accepts (req_body : list (string * jsval))
    (req_user : jsval) (ts s : string) :
  field "message" req_body = JStr s ->
  trim s <> "" ->
  post_chat req_body req_user ts =
    res_json (JObj [("message", JStr (respond (toLowerCase (trim s))));
                    ("timestamp", JStr ts);
                    ("user", js_or (field "userId" req_body) req_user)]).
Proof.
  intros Hm Ht. unfold post_chat. rewrite Hm, rejected_string.
  apply truthy_str_true in Ht. now rewrite Ht.
Qed.

Lemma post_chat_rejects (req_body : list (string * jsval))
    (req_user : jsval) (ts : string) :
  rejected (field "message" req_body) = true ->
  post_chat req_body req_user ts = bad_request.
Proof. intros Hr. unfold post_chat. now rewrite Hr. Qed.

(** C9. For a chat request that passed the authentication middleware:
    a message that is a string and is not empty after trimming is
    answered with status 200 and a non-empty reply; the reply depends on
    the message only through its lowercase form, so keyword matching is
    case-insensitive; a message in which none of the six keyword tests
    succeeds gets the default reply; a message that is missing, is not a
    string, or is blank is rejected with status 400. *)
Theorem chat_endpoint (req_body : list (string * jsval)) (req_user : jsval)
    (ts : string) :
  let r := post_chat req_body req_user ts in
  (forall s, field "message" req_body = JStr s -> trim s <> "" ->
     status r = 200
     /\ reply_of r = JStr (respond (toLowerCase (trim s)))
     /\ respond (toLowerCase (trim s)) <> "")
  /\ (forall s req_body' req_user' ts' s',
        field "message" req_body = JStr s ->
        field "message" req_body' = JStr s' ->
        toLowerCase s = toLowerCase s' ->
        reply_of (post_chat req_body' req_user' ts') = reply_of r)
  /\ (forall s, field "message" req_body = JStr s -> trim s <> "" ->
        let m := toLowerCase (trim s) in
        is_scheme m = false -> is_scholarship m = false ->
        is_job m = false -> is_education m = false ->
        is_greeting m = false -> is_help m = false ->
        reply_of r = JStr default_reply)
  /\ ((forall s, field "message" req_body = JStr s -> trim s = "") ->
        status r = 400 /\ r = bad_request).
Proof.
  cbv zeta. repeat split.
  - now rewrite (post_chat_accepts _ _ _ s).
  - now rewrite (post_chat_accepts _ _ _ s).
  - apply respond_nonempty.
  - intros s b' u' ts' s' Hm Hm' Hlow.
    assert (Htrim : toLowerCase (trim s) = toLowerCase (trim s'))
      by now rewrite <- !trim_toLowerCase, Hlow.
    destruct (truthy_str (trim s)) eqn:Hs.
    + assert (Hs' : trim s' <> "").
      { intros E. apply truthy_str_true in Hs. apply Hs.
        apply toLowerCase_empty. now rewrite Htrim, E. }
      apply truthy_str_true in Hs.
      rewrite (post_chat_accepts req_body _ _ s) by assumption.
      rewrite (post_chat_accepts b' _ _ s') by assumption.
      unfold reply_of; simpl. now rewrite Htrim.
    + assert (Hs' : truthy_str (trim s') = false).
      { destruct (trim s') eqn:E; [reflexivity|].
        destruct (trim s) eqn:E'; [|discriminate]. discriminate. }
      rewrite !post_chat_rejects; [reflexivity | |].
      * now rewrite Hm, rejected_string, Hs.
      * now rewrite Hm', rejected_string, Hs'.
  - intros s Hm Ht H1 H2 H3 H4 H5 H6.
    rewrite (post_chat_accepts _ _ _ s) by assumption.
    unfold reply_of, respond; simpl. now rewrite H1, H2, H3, H4, H5, H6.
  - rewrite post_chat_rejects; [reflexivity|].
    destruct (field "message" req_body) eqn:Hm;
      try (apply rejected_other; intros ?; discriminate).
    rewrite rejected_string, (H s eq_refl). reflexivity.
  - apply post_chat_rejects.
    destruct (field "message" req_body) eqn:Hm;
      try (apply rejected_other; intros ?; discriminate).
    rewrite rejected_string, (H s eq_refl). reflexivity.
Qed.

End ChatFacts.

(* ===================================================================== *)
(** * Registration and login *)
(* ===================================================================== *)

Module AuthFacts.
Import Auth.

Section Store.

Lemma findOne_email (e : option string) (us : list User) (u : User) :
  findOne e us = Some u -> u_email u = e.
Proof.
  unfold findOne. intros Hf. apply List.find_some in Hf as [_ Hf].
  now apply bool_decide_eq_true in Hf.
Qed.

Lemma findOne_app (e : option string) (us vs : list User) :
  findOne e (us ++ vs) =
    match findOne e us with
    | Some u => Some u
    | None => findOne e vs
    end.
Proof.
  unfold findOne. induction us as [|u us IH]; simpl; [reflexivity|].
  destruct (bool_decide (u_email u = e)); [reflexivity | exact IH].
Qed.

Lemma findOne_None_count (e : option string) (us : list User) :
  findOne e us = None -> count_email e us = 0%nat.
Proof.
  unfold findOne, count_email.
  induction us as [|u us IH]; simpl; [reflexivity|].
  destruct (bool_decide (u_email u = e)); [discriminate | exact IH].
Qed.

Lemma count_email_app (e : option string) (us vs : list User) :
  count_email e (us ++ vs) = (count_email e us + count_email e vs)%nat.
Proof.
  unfold count_email. now rewrite List.filter_app, List.length_app.
Qed.

End Store.

Section Register.
Context {B : Bcrypt} {M : UserSchema}.

(** A request with a known email is answered 400 and changes nothing. *)
Lemma register_duplicate (salt : string) (db : Db) (b : RegisterBody)
    (u : User) :
  findOne (r_email b) (users db) = Some u ->
  register salt db b = (res_status_json 400 (msg user_already_exists), db).
Proof. intros Hf. unfold register. now rewrite Hf. Qed.

(** A fresh email, a secret and a document the schema accepts: the
    record is appended and the answer is the success message. *)
Lemma register_fresh (salt : string) (db : Db) (b : RegisterBody)
    (password : string) :
  findOne (r_email b) (users db) = None ->
  r_password b = Some password ->
  validate (document salt b password) = None ->
  register salt db b =
    (res_json (msg user_registered),
     mkDb (users db ++ [created salt db b password]) (next_id db + 1)%N).
Proof.
  intros Hf Hp Hv. unfold register, User_create.
  rewrite Hf, Hp. unfold document in Hv. simpl. now rewrite Hv, Hf.
Qed.

(** Whatever is not a success leaves the store as it was. *)
Lemma register_inv (salt : string) (db : Db) (b : RegisterBody) :
  (exists password,
      findOne (r_email b) (users db) = None
      /\ r_password b = Some password
      /\ validate (document salt b password) = None
      /\ register salt db b =
           (res_json (msg user_registered),
            mkDb (users db ++ [created salt db b password])
                 (next_id db + 1)%N))
  \/ (status (fst (register salt db b)) <> 200
      /\ snd (register salt db b) = db).
Proof.
  destruct (findOne (r_email b) (users db)) as [u|] eqn:Hf.
  { right. rewrite (register_duplicate _ _ _ u Hf). simpl. split; [lia | reflexivity]. }
  destruct (r_password b) as [password|] eqn:Hp.
  2:{ right. unfold register. rewrite Hf, Hp. simpl. split; [lia | reflexivity]. }
  destruct (validate (document salt b password)) as [err|] eqn:Hv.
  { right. unfold register, User_create. rewrite Hf, Hp.
    unfold document in Hv. simpl. rewrite Hv. simpl.
    split; [lia | reflexivity]. }
  left. exists password. repeat split; try assumption.
  now apply register_fresh.
Qed.

(** Registration never changes what [findOne] returns for an email
    that is already there. *)
Lemma register_keeps (salt : string) (db : Db) (b : RegisterBody)
    (e : option string) (u : User) :
  findOne e (users db) = Some u ->
  findOne e (users (snd (register salt db b))) = Some u.
Proof.
  intros Hf. destruct (register_inv salt db b) as [(p & _ & _ & _ & ->) | [_ ->]];
    [|exact Hf].
  simpl. now rewrite findOne_app, Hf.
Qed.

Lemma register_all_keeps (reqs : list (string * RegisterBody)) (db : Db)
    (e : option string) (u : User) :
  findOne e (users db) = Some u ->
  findOne e (users (register_all reqs db)) = Some u.
Proof.
  revert db. induction reqs as [|[salt b] reqs IH]; intros db Hf;
    [exact Hf|].
  simpl. apply IH. now apply register_keeps.
Qed.

(** C2. Registering twice with the same email, from a store in which
    that email is not yet taken: the first request (carrying a secret,
    and a document the schema accepts) succeeds, the second fails with
    400 "User already exists" and leaves the store exactly as the
    first one made it, and exactly one record with that email exists
    afterwards. More generally, any registration whose email is
    already in the store is rejected that way, without creating or
    changing a record. *)
Theorem register_twice (salt1 salt2 : string) (db : Db)
    (b1 b2 : RegisterBody) (password : string) :
  findOne (r_email b1) (users db) = None ->
  r_password b1 = Some password ->
  validate (document salt1 b1 password) = None ->
  r_email b2 = r_email b1 ->
  let first := register salt1 db b1 in
  let second := register salt2 (snd first) b2 in
  fst first = res_json (msg user_registered)
  /\ users (snd first) = (users db ++ [created salt1 db b1 password])%list
  /\ fst second = res_status_json 400 (msg user_already_exists)
  /\ snd second = snd first
  /\ count_email (r_email b1) (users (snd second)) = 1%nat
  /\ (forall salt db' b u,
        findOne (r_email b) (users db') = Some u ->
        register salt db' b =
          (res_status_json 400 (msg user_already_exists), db')).
Proof.
  intros Hf Hp Hv He. cbv zeta.
  rewrite (register_fresh salt1 db b1 password Hf Hp Hv). simpl.
  assert (Hnew : findOne (r_email b2)
                   (users db ++ [created salt1 db b1 password])
                 = Some (created salt1 db b1 password)).
  { rewrite findOne_app, He, Hf. unfold findOne; simpl.
    now rewrite bool_decide_eq_true_2. }
  rewrite (register_duplicate salt2 (mkDb _ _) b2 _ Hnew). simpl.
  repeat split.
  - rewrite count_email_app, (findOne_None_count _ _ Hf).
    unfold count_email; simpl. now rewrite bool_decide_eq_true_2.
  - intros salt db' b u Hu. now apply (register_duplicate salt db' b u).
Qed.

(** A request without a secret is refused by the hashing primitive. *)
Lemma register_no_secret (salt : string) (db : Db) (b : RegisterBody) :
  findOne (r_email b) (users db) = None ->
  r_password b = None ->
  register salt db b = (res_status_json 500 (msg illegal_arguments), db).
Proof. intros Hf Hp. unfold register. now rewrite Hf, Hp. Qed.

(** A document the schema refuses is reported with the schema's message. *)
Lemma register_refused (salt : string) (db : Db) (b : RegisterBody)
    (password err : string) :
  findOne (r_email b) (users db) = None ->
  r_password b = Some password ->
  validate (document salt b password) = Some err ->
  register salt db b = (res_status_json 500 (msg err), db).
Proof.
  intros Hf Hp Hv. unfold register, User_create. rewrite Hf, Hp.
  unfold document in Hv. simpl. now rewrite Hv.
Qed.

(** C8, as amended. The handler makes no presence check of its own.
    A request without a secret creates no record and is answered with an
    error status: 500 from the hashing primitive, unless the email is
    already taken. So is every request whose document the schema
    refuses, with the schema's message; under a schema that requires the
    email, that covers a missing or empty email. A request whose secret
    is the empty string is hashed and stored like any other. A
    successful registration answers with the success message alone,
    without a token. *)
Theorem register_presence (salt : string) (db : Db) (b : RegisterBody) :
  let r := register salt db b in
  (r_password b = None ->
     snd r = db
     /\ status (fst r) <> 200
     /\ (findOne (r_email b) (users db) = None ->
         fst r = res_status_json 500 (msg illegal_arguments)))
  /\ (forall password err,
        r_password b = Some password ->
        validate (document salt b password) = Some err ->
        snd r = db
        /\ status (fst r) <> 200
        /\ (findOne (r_email b) (users db) = None ->
            fst r = res_status_json 500 (msg err)))
  /\ (required (r_email b) = false ->
      let r' := register (M := spec_schema) salt db b in
      snd r' = db /\ status (fst r') <> 200)
  /\ (r_password b = Some "" ->
      findOne (r_email b) (users db) = None ->
      validate (document salt b "") = None ->
      r = (res_json (msg user_registered),
           mkDb (users db ++ [created salt db b ""]) (next_id db + 1)%N))
  /\ (status (fst r) = 200 ->
      fst r = res_json (msg user_registered)
      /\ body_has "token" (fst r) = false).
Proof.
  cbv zeta. split; [|split; [|split; [|split]]].
  - intros Hp. destruct (findOne (r_email b) (users db)) as [u|] eqn:Hf.
    + rewrite (register_duplicate salt db b u Hf). simpl.
      split; [reflexivity|]. split; [lia | discriminate].
    + rewrite (register_no_secret salt db b Hf Hp). simpl.
      split; [reflexivity|]. split; [lia | reflexivity].
  - intros password err Hp Hv.
    destruct (findOne (r_email b) (users db)) as [u|] eqn:Hf.
    + rewrite (register_duplicate salt db b u Hf). simpl.
      split; [reflexivity|]. split; [lia | discriminate].
    + rewrite (register_refused salt db b password err Hf Hp Hv). simpl.
      split; [reflexivity|]. split; [lia | reflexivity].
  - intros He. unfold register, User_create; simpl.
    destruct (findOne (r_email b) (users db)); simpl;
      [split; [reflexivity | lia]|].
    destruct (r_password b); simpl; [|split; [reflexivity | lia]].
    rewrite He. simpl. split; [reflexivity | lia].
  - intros Hp Hf Hv. now apply register_fresh.
  - intros Hs.
    destruct (register_inv salt db b) as [(p & _ & _ & _ & ->) | [Hn _]];
      [split; reflexivity | contradiction].
Qed.

End Register.

Section Login.
Context {B : Bcrypt} {M : UserSchema} {J : Jwt}.

(** The successful answer of [login] for the record [u]. *)
Lemma login_registered (secret : string) (now : Z) (db : Db)
    (e s : string) (u : User) :
  bcrypt_verifies B ->
  registered db e s u ->
  secret <> "" ->
  login secret now db (mkLoginBody (Some e) (Some s)) =
    res_json (JObj [("token",
                     JStr (jwt_encode
                             (mkClaims (u_id u) now (now + seven_days))
                             secret));
                    ("user", JObj [("id", JNum (Z.of_N (u_id u)));
                                   ("name", js_of_opt (u_name u));
                                   ("email", JStr e)])]).
Proof.
  intros HB [Hf [salt Hh]] Hk.
  apply JsStringFacts.truthy_str_true in Hk.
  unfold login, jwt_sign; simpl. rewrite Hf, Hh, HB, Hk. simpl.
  unfold projection. now rewrite (findOne_email _ _ _ Hf).
Qed.

(** Without a key to sign with, the same login ends in the [catch]
    block. *)
Lemma login_without_key (now : Z) (db : Db) (e s : string) (u : User) :
  bcrypt_verifies B ->
  registered db e s u ->
  login "" now db (mkLoginBody (Some e) (Some s))
  = res_status_json 500 (msg secret_required).
Proof.
  intros HB [Hf [salt Hh]].
  unfold login, jwt_sign; simpl. now rewrite Hf, Hh, HB.
Qed.

(** A successful registration registers its email and secret. *)
Lemma register_registers (salt : string) (db : Db) (b : RegisterBody)
    (e s : string) :
  r_email b = Some e ->
  r_password b = Some s ->
  status (fst (register salt db b)) = 200 ->
  registered (snd (register salt db b)) e s (created salt db b s).
Proof.
  intros He Hp Hs.
  destruct (register_inv salt db b) as [(p & Hf & Hp' & _ & ->) | [Hn _]];
    [|contradiction].
  assert (p = s) as -> by congruence.
  split; [|now exists salt]. simpl.
  rewrite findOne_app, <- He, Hf. unfold findOne; simpl.
  now rewrite bool_decide_eq_true_2.
Qed.

(** Later registrations do not unregister anyone. *)
Lemma register_all_registered (reqs : list (string * RegisterBody))
    (db : Db) (e s : string) (u : User) :
  registered db e s u -> registered (register_all reqs db) e s u.
Proof.
  intros [Hf Hh]. split; [|exact Hh]. now apply register_all_keeps.
Qed.

(** C1. A user who registered with email [e] and secret [s] can log
    in with them, also after any number of later registrations: on a
    server that has a signing key, the answer has status 200 and
    carries a token whose decoded subject is the identity given at
    registration and whose expiry is exactly seven days after its
    issue time, the clock of the request, with a projection made of
    that identity, the name and the email, and of nothing else: the
    stored hash is not part of it. On a server whose [JWT_SECRET] is
    empty or not set, the token library refuses to sign and the answer
    is a 500 with the library's message. *)
Theorem login_after_registration (secret : string) (now : Z)
    (salt : string) (db : Db) (name : option string) (e s : string)
    (interests : list string) (later : list (string * RegisterBody)) :
  bcrypt_verifies B ->
  jwt_decodes J ->
  let b := mkRegisterBody name (Some e) (Some s) interests in
  status (fst (register salt db b)) = 200 ->
  let db' := register_all later (snd (register salt db b)) in
  let r := login secret now db' (mkLoginBody (Some e) (Some s)) in
  (secret <> "" ->
   exists token claims projected,
     status r = 200
     /\ body r = JObj [("token", JStr token); ("user", JObj projected)]
     /\ jwt_decode token = Some claims
     /\ token = jwt_encode claims secret
     /\ c_id claims = next_id db
     /\ c_iat claims = now
     /\ c_exp claims = c_iat claims + 7 * 24 * 60 * 60
     /\ projected = [("id", JNum (Z.of_N (next_id db)));
                     ("name", js_of_opt name);
                     ("email", JStr e)]
     /\ has_key "password" projected = false)
  /\ (secret = "" ->
      r = res_status_json 500 (msg secret_required)
      /\ body_has "token" r = false).
Proof.
  intros HB HJ b Hs db' r.
  pose proof (register_registers salt db b e s eq_refl eq_refl Hs) as Hreg.
  apply (register_all_registered later) in Hreg. fold db' in Hreg.
  subst r. split.
  - intros Hk. rewrite (login_registered secret now db' e s _ HB Hreg Hk).
    eexists _, _, _. simpl.
    split; [reflexivity|]. split; [reflexivity|].
    split; [apply HJ|]. repeat split.
  - intros ->. rewrite (login_without_key now db' e s _ HB Hreg).
    split; reflexivity.
Qed.

(** C3. [login] answers 400 "User not found" when no record has the
    given email, and 400 "Invalid credentials" when one has but the
    given secret does not verify against its stored hash; the two
    messages differ; and no answer other than the successful one
    carries a token. *)
Theorem login_failures (secret : string) (now : Z) (db : Db)
    (b : LoginBody) :
  let r := login secret now db b in
  (findOne (l_email b) (users db) = None ->
     r = res_status_json 400 (msg user_not_found))
  /\ (forall u password,
        findOne (l_email b) (users db) = Some u ->
        l_password b = Some password ->
        bcrypt_compare password (u_password u) = false ->
        r = res_status_json 400 (msg invalid_credentials))
  /\ user_not_found <> invalid_credentials
  /\ (status r <> 200 -> body_has "token" r = false)
  /\ (body_has "token" r = true ->
        exists u password,
          findOne (l_email b) (users db) = Some u
          /\ l_password b = Some password
          /\ bcrypt_compare password (u_password u) = true).
Proof.
  cbv zeta. unfold login.
  destruct (findOne (l_email b) (users db)) as [u|] eqn:Hf.
  2:{ repeat split; try discriminate; reflexivity. }
  destruct (l_password b) as [password|] eqn:Hp.
  2:{ repeat split; try discriminate; reflexivity. }
  destruct (bcrypt_compare password (u_password u)) eqn:Hc; simpl.
  - destruct (jwt_sign (u_id u) secret now) as [token|]; simpl.
    + repeat split; try discriminate.
      * intros u' p' Hu' Hp' Hc'. congruence.
      * intros Hs. now contradiction Hs.
      * intros _. now exists u, password.
    + repeat split; try discriminate.
      intros u' p' Hu' Hp' Hc'. congruence.
  - repeat split; try discriminate.
Qed.

End Login.

End AuthFacts.

(* ===================================================================== *)
(** * The Session Guard *)
(* ===================================================================== *)

Module GuardFacts.
Import Auth Guard.

Section Guard.
Context {J : Jwt}.

Lemma authenticate_bad_signature (secret : string) (now : Z)
    (token : string) :
  jwt_signed_by token secret = false ->
  authenticate secret now (Some token) = InvalidToken.
Proof.
  intros Hs. unfold authenticate. rewrite Hs.
  now destruct (jwt_decode token).
Qed.

Lemma authenticate_expired (secret : string) (now : Z) (token : string)
    (claims : Claims) :
  jwt_decode token = Some claims ->
  jwt_signed_by token secret = true ->
  c_exp claims < now ->
  authenticate secret now (Some token) = ExpiredToken.
Proof.
  intros Hd Hs He. unfold authenticate. rewrite Hd, Hs. simpl.
  now apply Z.ltb_lt in He as ->.
Qed.

(** C4. The guard rejects a request without a token as MissingToken;
    a token whose signature does not verify under the server's key, as
    is the case for every token signed with another key, as
    InvalidToken, whatever its expiry, hence never as ExpiredToken; and
    a token with a valid signature whose expiry is in the past as
    ExpiredToken. All three are answered 401. *)
Theorem guard_rejections (secret : string) (now : Z) :
  jwt_decodes J ->
  jwt_binds_key J ->
  authenticate secret now None = MissingToken
  /\ (forall token,
        jwt_signed_by token secret = false ->
        authenticate secret now (Some token) = InvalidToken)
  /\ (forall claims key,
        key <> secret ->
        authenticate secret now (Some (jwt_encode claims key))
          = InvalidToken
        /\ authenticate secret now (Some (jwt_encode claims key))
          <> ExpiredToken)
  /\ (forall token claims,
        jwt_decode token = Some claims ->
        jwt_signed_by token secret = true ->
        c_exp claims < now ->
        authenticate secret now (Some token) = ExpiredToken)
  /\ (forall claims,
        c_exp claims < now ->
        authenticate secret now (Some (jwt_encode claims secret))
          = ExpiredToken)
  /\ status_of MissingToken = 401
  /\ status_of InvalidToken = 401
  /\ status_of ExpiredToken = 401.
Proof.
  intros Hd Hk. split; [reflexivity|].
  split; [intros token; apply authenticate_bad_signature|].
  split; [|split; [|split]].
  - intros claims key Hne.
    rewrite authenticate_bad_signature;
      [split; [reflexivity | discriminate]|].
    rewrite Hk. now apply bool_decide_eq_false_2.
  - intros token claims. apply authenticate_expired.
  - intros claims He. apply (authenticate_expired _ _ _ claims);
      [apply Hd | | exact He].
    rewrite Hk. now apply bool_decide_eq_true_2.
  - repeat split.
Qed.

End Guard.

End GuardFacts.

(* ===================================================================== *)
(** * The client session manager *)
(* ===================================================================== *)

Module ClientFacts.
Import Client JsStringFacts.

Lemma keys_differ : AUTH_TOKEN <> USER_DATA.
Proof. discriminate. Qed.

Lemma cleared_token (ls : gmap string string) :
  delete USER_DATA (delete AUTH_TOKEN ls) !! AUTH_TOKEN = None.
Proof.
  rewrite lookup_delete_ne by (intros E; now apply keys_differ).
  apply lookup_delete_eq.
Qed.

Lemma cleared_user (ls : gmap string string) :
  delete USER_DATA (delete AUTH_TOKEN ls) !! USER_DATA = None.
Proof. apply lookup_delete_eq. Qed.

Lemma storage_effects_app (tr tr' : list Effect) :
  storage_effects (tr ++ tr') = (storage_effects tr ++ storage_effects tr')%list.
Proof. apply List.filter_app. Qed.

Lemma requests_app (tr tr' : list Effect) :
  requests (tr ++ tr') = (requests tr ++ requests tr')%list.
Proof.
  induction tr as [|e tr IH]; simpl; [reflexivity|].
  destruct e; simpl; now rewrite ?IH.
Qed.

Section Manager.
Context {R : Runtime}.

(** ** [initializeAuth] *)

(** With one of the two values out of sight, [initializeAuth] only
    clears the loading flag. *)
Lemma initializeAuth_idle (now_ms : Z) (st : State) :
  present (storage st !! AUTH_TOKEN) && present (storage st !! USER_DATA)
    = false ->
  initializeAuth now_ms st = setLoading false st.
Proof.
  unfold initializeAuth, getItem, present.
  destruct (storage st !! AUTH_TOKEN) as [t|];
    destruct (storage st !! USER_DATA) as [ud|]; simpl; try reflexivity.
  now intros ->.
Qed.

Lemma initializeAuth_both (now_ms : Z) (st : State) (t ud : string) :
  storage st !! AUTH_TOKEN = Some t ->
  storage st !! USER_DATA = Some ud ->
  t <> "" -> ud <> "" ->
  initializeAuth now_ms st =
    setLoading false
      match jwtDecode t with
      | Some decoded =>
          if expired decoded now_ms then clear_session st
          else match JSON_parse ud with
               | Some v => setUser v st
               | None => clear_session st
               end
      | None => clear_session st
      end.
Proof.
  intros Ht Hu Hnt Hnu. unfold initializeAuth, getItem. rewrite Ht, Hu.
  apply truthy_str_true in Hnt, Hnu. now rewrite Hnt, Hnu.
Qed.

(** C5. At startup, with a persisted token and a persisted user
    projection: when the expiry embedded in the token is in the
    future, the session is restored from the cached projection, the
    state is Authenticated, storage is untouched and no request is
    sent; when the expiry is in the past, both persisted values are
    removed and the state is Anonymous. *)
Theorem initialize_restores_or_clears (now_ms : Z)
    (ls : gmap string string) (path : string) (tr : list Effect)
    (t ud : string) (decoded : Decoded) (e : Z) :
  ls !! AUTH_TOKEN = Some t ->
  ls !! USER_DATA = Some ud ->
  t <> "" -> ud <> "" ->
  jwtDecode t = Some decoded ->
  d_exp decoded = Some e ->
  let st := startup now_ms ls path tr in
  (forall fields,
     now_ms < e * 1000 ->
     JSON_parse ud = Some (JObj fields) ->
     user st = JObj fields
     /\ isAuthenticated st = true
     /\ loading st = false
     /\ storage st = ls
     /\ trace st = tr)
  /\ (e * 1000 < now_ms ->
      user st = JNull
      /\ isAuthenticated st = false
      /\ loading st = false
      /\ storage st = delete USER_DATA (delete AUTH_TOKEN ls)
      /\ storage st !! AUTH_TOKEN = None
      /\ storage st !! USER_DATA = None
      /\ requests (trace st) = requests tr).
Proof.
  intros Ht Hu Hnt Hnu Hd He st. subst st. unfold startup.
  rewrite (initializeAuth_both now_ms _ t ud) by assumption.
  rewrite Hd. unfold expired. rewrite He. split.
  - intros fields Hlt Hp.
    assert ((e * 1000 <? now_ms)%Z = false) as -> by (apply Z.ltb_ge; lia).
    rewrite Hp. repeat split.
  - intros Hlt. apply Z.ltb_lt in Hlt as ->. simpl.
    repeat split; [apply cleared_token | apply cleared_user |].
    now rewrite !requests_app, !app_nil_r.
Qed.

(** ** The request interceptor *)

Lemma request_interceptor_attaches (ls : gmap string string)
    (config : Config) (t : string) :
  ls !! AUTH_TOKEN = Some t -> t <> "" ->
  headers (request_interceptor ls config) !! X_AUTH_TOKEN = Some t.
Proof.
  intros Ht Hn. unfold request_interceptor. rewrite Ht.
  apply truthy_str_true in Hn as ->. simpl. apply lookup_insert_eq.
Qed.

(** A call whose reply is not a 401 sends one request and touches
    nothing else. *)
Lemma run_request_quiet (now_ms : Z) (config : Config) (reply : Reply)
    (st : State) :
  pending st = None ->
  unauthorized reply = false ->
  run now_ms (User_request config reply) st =
    send (request_interceptor (storage st) config) st.
Proof.
  intros Hp Hu. unfold run, perform, api_call, unauthorized in *.
  destruct (settle reply) as [err|payload]; simpl.
  - unfold response_rejected. rewrite Hu. unfold navigate; simpl.
    now rewrite Hp.
  - unfold navigate; simpl. now rewrite Hp.
Qed.

Lemma exchange_all_attaches (now_ms : Z) (calls : list (Config * Reply))
    (st : State) (t : string) :
  pending st = None ->
  storage st !! AUTH_TOKEN = Some t -> t <> "" ->
  Forall (fun call => unauthorized (snd call) = false) calls ->
  Forall (fun c => headers c !! X_AUTH_TOKEN = Some t)
         (requests (trace st)) ->
  let st' := exchange_all now_ms calls st in
  Forall (fun c => headers c !! X_AUTH_TOKEN = Some t)
         (requests (trace st'))
  /\ storage st' = storage st
  /\ List.length (requests (trace st'))
     = (List.length (requests (trace st)) + List.length calls)%nat.
Proof.
  revert st. induction calls as [|[config reply] calls IH];
    intros st Hp Ht Hn Hq Hsent; simpl.
  { repeat split; [exact Hsent | lia]. }
  apply Forall_cons in Hq as [Hq Hqs]. simpl in Hq.
  rewrite (run_request_quiet now_ms config reply st Hp Hq).
  destruct (IH (send (request_interceptor (storage st) config) st))
    as (H1 & H2 & H3); try assumption.
  - simpl. rewrite requests_app. apply Forall_app. split; [exact Hsent|].
    simpl. apply Forall_cons. split; [|apply Forall_nil; exact I].
    now apply request_interceptor_attaches.
  - repeat split; [exact H1 | exact H2 |].
    rewrite H3. simpl. rewrite requests_app, List.length_app. simpl. lia.
Qed.

(** C10. At startup, when exactly one of the two persisted values is
    present, the state is Anonymous and storage is left as it was: no
    storage effect happens and the orphan stays. When the orphan is
    the token, the request interceptor attaches it to every request
    sent afterwards, for as long as no reply is a 401. *)
Theorem orphan_value_is_kept (now_ms : Z) (ls : gmap string string)
    (path : string) :
  present (ls !! AUTH_TOKEN) <> present (ls !! USER_DATA) ->
  let st := startup now_ms ls path [] in
  isAuthenticated st = false
  /\ storage st = ls
  /\ trace st = []
  /\ (forall t,
        ls !! AUTH_TOKEN = Some t -> t <> "" ->
        (forall config,
           headers (request_interceptor (storage st) config)
             !! X_AUTH_TOKEN = Some t)
        /\ (forall later calls,
              Forall (fun call => unauthorized (snd call) = false) calls ->
              let st' := exchange_all later calls st in
              Forall (fun c => headers c !! X_AUTH_TOKEN = Some t)
                     (requests (trace st'))
              /\ List.length (requests (trace st')) = List.length calls)).
Proof.
  intros Hone st. subst st. unfold startup.
  rewrite initializeAuth_idle.
  2:{ simpl. destruct (present (ls !! AUTH_TOKEN)),
        (present (ls !! USER_DATA)); try reflexivity.
      now contradiction Hone. }
  simpl. split; [reflexivity|]. split; [reflexivity|].
  split; [reflexivity|]. intros t Ht Hn. split.
  - intros config. now apply request_interceptor_attaches.
  - intros later calls Hq.
    destruct (exchange_all_attaches later calls
                (mkState ls JNull false JNull path None []) t)
      as (H1 & _ & H3); try assumption; try reflexivity.
    + apply Forall_nil. exact I.
    + split; [exact H1 | exact H3].
Qed.

(** ** Storage effects of the operations *)

Ltac delta :=
  constructor; simpl;
  [ rewrite ?storage_effects_app; simpl;
    rewrite <- ?app_assoc, ?app_nil_r; reflexivity
  | reflexivity
  | auto ].

Ltac side := intros; first [discriminate | reflexivity | congruence].

Lemma js_get_defined (v : jsval) (k k' : string) (x : jsval) :
  js_get v k = Some x -> exists y, js_get v k' = Some y.
Proof. destruct v; simpl; intros; try discriminate; eauto. Qed.

(** The three ways a call through [api] can end. *)
Lemma api_call_cases (config : Config) (reply : Reply) (st : State) :
  let sent := send (request_interceptor (storage st) config) st in
  (exists payload,
      settle reply = inr payload
      /\ api_call config reply st = (sent, inr payload))
  \/ (exists err,
         settle reply = inl err /\ is_unauthorized err = false
         /\ api_call config reply st = (sent, inl err))
  \/ (exists err,
         settle reply = inl err /\ is_unauthorized err = true
         /\ api_call config reply st =
              (let cleared :=
                 removeItem USER_DATA (removeItem AUTH_TOKEN sent) in
               if negb (String.eqb (pathname st) LOGIN_PATH)
               then assignHref LOGIN_PATH cleared else cleared,
               inl err)).
Proof.
  cbv zeta. unfold api_call.
  destruct (settle reply) as [err|payload] eqn:Hs.
  - destruct (is_unauthorized err) eqn:Hu.
    + right; right. exists err.
      split; [reflexivity|]. split; [exact Hu|].
      unfold response_rejected. now rewrite Hu.
    + right; left. exists err.
      split; [reflexivity|]. split; [exact Hu|].
      unfold response_rejected. now rewrite Hu.
  - left. now exists payload.
Qed.

Lemma initializeAuth_delta (now_ms : Z) (st : State) :
  pending st = None ->
  exists d, Paired d /\ Delta st (initializeAuth now_ms st) d.
Proof.
  intros Hp. unfold initializeAuth, getItem.
  destruct (storage st !! AUTH_TOKEN) as [t|];
    [|exists []; split; [constructor | delta]].
  destruct (storage st !! USER_DATA) as [ud|];
    [|exists []; split; [constructor | delta]].
  destruct (truthy_str t && truthy_str ud);
    [|exists []; split; [constructor | delta]].
  destruct (jwtDecode t) as [decoded|];
    [|exists removed; split; [constructor | delta]].
  destruct (expired decoded now_ms);
    [exists removed; split; [constructor | delta]|].
  destruct (JSON_parse ud) as [v|];
    [exists []; split; [constructor | delta]
    |exists removed; split; [constructor | delta]].
Qed.

Lemma api_call_delta (config : Config) (reply : Reply) (st : State) :
  pending st = None ->
  exists d, Paired d /\ Delta st (fst (api_call config reply st)) d
            /\ (unauthorized reply = true -> d = removed)
            /\ (unauthorized reply = false -> d = []).
Proof.
  intros Hp. unfold unauthorized.
  destruct (api_call_cases config reply st)
    as [(payload & Hs & ->) | [(err & Hs & Hu & ->) | (err & Hs & Hu & ->)]];
    rewrite Hs, ?Hu.
  - exists []. split; [constructor|]. split; [delta|]. split; side.
  - exists []. split; [constructor|]. split; [delta|]. split; side.
  - exists removed. split; [constructor|]. split; [|split; side].
    destruct (negb (pathname st =? LOGIN_PATH)); delta.
Qed.

(** What [login] writes for a reply that carries a token and a user:
    nothing when the browser refuses the first write, the token alone
    when it refuses the second, and both otherwise. *)
Lemma login_delta (email password : string) (reply : Reply) (st : State) :
  pending st = None ->
  exists d, Touched d /\ Delta st (fst (login email password reply st)) d
            /\ (unauthorized reply = true -> d = removed)
            /\ (forall payload token u,
                  settle reply = inr payload ->
                  js_get payload "token" = Some token ->
                  js_get payload "user" = Some u ->
                  let v := ToString token in
                  let w := stringified u in
                  d = if quota_exceeded (storage st) AUTH_TOKEN v then []
                      else if quota_exceeded
                                (<[AUTH_TOKEN := v]> (storage st))
                                USER_DATA w
                           then token_alone v
                           else written v w)
            /\ ((forall ls w, quota_exceeded ls USER_DATA w = false) ->
                Paired d).
Proof.
  intros Hp. unfold login, unauthorized.
  set (st1 := setLoading true (setError JNull st)).
  destruct (api_call_cases
              (api_post "/auth/login" (credentials email password))
              reply st1)
    as [(payload & Hs & ->) | [(err & Hs & Hu & ->) | (err & Hs & Hu & ->)]];
    rewrite Hs, ?Hu.
  - destruct (js_get payload "token") as [token|] eqn:Ht.
    + destruct (js_get_defined payload "token" "user" token Ht) as [u Hu].
      unfold setItem at 1. cbn [storage send st1 setLoading setError].
      destruct (quota_exceeded (storage st) AUTH_TOKEN (ToString token))
        eqn:Q1.
      { exists []. split; [do 2 constructor|]. split; [delta|].
        split; [side|]. split; [|intros _; constructor].
        intros payload' token' u' [= <-]. rewrite Ht, Hu.
        intros [= <-] [= <-]. cbv zeta. now rewrite Q1. }
      rewrite Hu. unfold setItem. cbn [storage].
      destruct (quota_exceeded
                  (<[AUTH_TOKEN := ToString token]> (storage st)) USER_DATA
                  (stringified u)) eqn:Q2.
      { exists (token_alone (ToString token)).
        split; [apply touched_token_alone|]. split; [delta|].
        split; [side|]. split.
        - intros payload' token' u' [= <-]. rewrite Ht, Hu.
          intros [= <-] [= <-]. cbv zeta. now rewrite Q1, Q2.
        - intros Hq. now rewrite Hq in Q2. }
      exists (written (ToString token) (stringified u)).
      split; [do 2 constructor|]. split; [delta|]. split; [side|].
      split; [|intros _; constructor].
      intros payload' token' u' [= <-]. rewrite Ht, Hu.
      intros [= <-] [= <-]. cbv zeta. now rewrite Q1, Q2.
    + exists []. split; [do 2 constructor|]. split; [delta|].
      split; [side|]. split; [|intros _; constructor].
      intros payload' token' u' [= <-]. now rewrite Ht.
  - exists []. split; [do 2 constructor|]. split; [delta|].
    split; [side|]. split; [side | intros _; constructor].
  - exists removed. split; [do 2 constructor|].
    split; [|split; [side | split; [side | intros _; constructor]]].
    subst st1. simpl.
    destruct (negb (pathname st =? LOGIN_PATH)); delta.
Qed.

Lemma register_delta (name email password : string)
    (interests : list string) (reply : Reply) (st : State) :
  pending st = None ->
  exists d, Paired d
            /\ Delta st
                 (fst (register name email password interests reply st)) d
            /\ (unauthorized reply = true -> d = removed).
Proof.
  intros Hp. unfold register, unauthorized.
  set (st1 := setLoading true (setError JNull st)).
  destruct (api_call_cases
              (api_post "/auth/register"
                 (registration name email password interests))
              reply st1)
    as [(payload & Hs & ->) | [(err & Hs & Hu & ->) | (err & Hs & Hu & ->)]];
    rewrite Hs, ?Hu.
  - exists []. split; [constructor|]. split; [delta | side].
  - exists []. split; [constructor|]. split; [delta | side].
  - exists removed. split; [constructor|]. split; [|side].
    subst st1. simpl.
    destruct (negb (pathname st =? LOGIN_PATH)); delta.
Qed.

Lemma perform_delta (now_ms : Z) (op : Op) (st : State) :
  pending st = None ->
  exists d, Touched d /\ Delta st (perform now_ms op st) d
            /\ (forall reply, reply_of op = Some reply ->
                  unauthorized reply = true -> d = removed)
            /\ ((forall email password reply,
                    op <> Login email password reply) -> Paired d)
            /\ ((forall ls w, quota_exceeded ls USER_DATA w = false) ->
                Paired d).
Proof.
  intros Hp. destruct op; simpl.
  - destruct (initializeAuth_delta now_ms st Hp) as (d & H1 & H2).
    exists d. split; [now constructor|]. split; [exact H2|].
    split; [side | now split].
  - destruct (login_delta email password reply st Hp)
      as (d & H1 & H2 & H3 & _ & H5).
    exists d. split; [exact H1|]. split; [exact H2|].
    split; [now intros ? [= <-]|]. split; [|exact H5].
    intros Hl. now contradiction (Hl email password reply).
  - destruct (register_delta name email password interests reply st Hp)
      as (d & H1 & H2 & H3).
    exists d. split; [now constructor|]. split; [exact H2|].
    split; [now intros ? [= <-] | now split].
  - exists removed. split; [do 2 constructor|]. split; [delta|].
    split; [side | split; intros _; constructor].
  - exists []. split; [do 2 constructor|]. split; [delta|].
    split; [side | split; intros _; constructor].
  - destruct (api_call_delta config reply st Hp) as (d & H1 & H2 & H3 & _).
    exists d. split; [now constructor|]. split; [exact H2|].
    split; [now intros ? [= <-] | now split].
Qed.

(** The page load that follows a rejection finds nothing to restore. *)
Lemma navigate_cleared (now_ms : Z) (st : State) (href : string) :
  pending st = Some href ->
  storage st !! AUTH_TOKEN = None ->
  navigate now_ms st =
    mkState (storage st) JNull false JNull href None (trace st).
Proof.
  intros Hp Ht. unfold navigate, startup. rewrite Hp.
  rewrite initializeAuth_idle; [reflexivity|].
  simpl. now rewrite Ht.
Qed.

Lemma navigate_none (now_ms : Z) (st : State) :
  pending st = None -> navigate now_ms st = st.
Proof. intros Hp. unfold navigate. now rewrite Hp. Qed.

Lemma run_delta (now_ms : Z) (op : Op) (st : State) :
  pending st = None ->
  exists d, Touched d
            /\ storage_effects (trace (run now_ms op st))
               = (storage_effects (trace st) ++ d)%list
            /\ storage (run now_ms op st)
               = List.fold_left apply_effect d (storage st)
            /\ pending (run now_ms op st) = None
            /\ (forall reply, reply_of op = Some reply ->
                  unauthorized reply = true -> d = removed)
            /\ ((forall email password reply,
                    op <> Login email password reply) -> Paired d)
            /\ ((forall ls w, quota_exceeded ls USER_DATA w = false) ->
                Paired d).
Proof.
  intros Hp. destruct (perform_delta now_ms op st Hp)
    as (d & Hd & [H1 H2 H3] & H4 & H5 & H6).
  exists d. unfold run. split; [exact Hd|].
  destruct H3 as [Hn | [Hl ->]].
  - rewrite navigate_none by exact Hn. now repeat split.
  - rewrite (navigate_cleared _ _ LOGIN_PATH Hl).
    + simpl. now repeat split.
    + rewrite H2. simpl. apply cleared_token.
Qed.

(** What a login whose reply carries a token and a user writes. *)
Lemma login_writes (now_ms : Z) (email password : string)
    (reply : Reply) (st : State) (payload token u : jsval) :
  pending st = None ->
  settle reply = inr payload ->
  js_get payload "token" = Some token ->
  js_get payload "user" = Some u ->
  let st' := run now_ms (Login email password reply) st in
  let v := ToString token in
  let w := stringified u in
  let d := if quota_exceeded (storage st) AUTH_TOKEN v then []
           else if quota_exceeded (<[AUTH_TOKEN := v]> (storage st))
                     USER_DATA w
                then token_alone v
                else written v w in
  storage_effects (trace st') = (storage_effects (trace st) ++ d)%list
  /\ storage st' = List.fold_left apply_effect d (storage st).
Proof.
  intros Hp Hs Ht Hu. cbv zeta.
  destruct (login_delta email password reply st Hp)
    as (d & _ & [H1 H2 H3] & _ & Hw & _).
  specialize (Hw payload token u Hs Ht Hu). cbv zeta in Hw.
  rewrite <- Hw. unfold run, perform.
  rewrite navigate_none; [now split|].
  destruct H3 as [Hn | [_ Hd]]; [exact Hn|].
  rewrite Hd in Hw.
  destruct (quota_exceeded (storage st) AUTH_TOKEN (ToString token));
    [discriminate|].
  destruct (quota_exceeded _ USER_DATA (stringified u)); discriminate.
Qed.

Lemma logout_removes_both (now_ms : Z) (st : State) :
  pending st = None ->
  storage_effects (trace (run now_ms Logout st))
  = (storage_effects (trace st) ++ removed)%list.
Proof.
  intros Hp. unfold run, perform. rewrite navigate_none by exact Hp.
  simpl. rewrite !storage_effects_app. simpl.
  now rewrite <- app_assoc.
Qed.

Lemma expiry_removes_both (now_ms : Z) (st : State) (t ud : string)
    (decoded : Decoded) :
  pending st = None ->
  storage st !! AUTH_TOKEN = Some t ->
  storage st !! USER_DATA = Some ud ->
  t <> "" -> ud <> "" ->
  jwtDecode t = Some decoded ->
  expired decoded now_ms = true ->
  storage_effects (trace (run now_ms Initialize st))
  = (storage_effects (trace st) ++ removed)%list.
Proof.
  intros Hp Ht Hu Hnt Hnu Hd He. unfold run, perform.
  rewrite (initializeAuth_both now_ms st t ud) by assumption.
  rewrite Hd, He. rewrite navigate_none by exact Hp.
  simpl. rewrite !storage_effects_app. simpl.
  now rewrite <- app_assoc.
Qed.

(** Each of the three shapes keeps the two values both there or both
    missing. *)
Lemma paired_both_or_neither (d : list Effect) (ls : gmap string string) :
  Paired d ->
  both_or_neither ls ->
  both_or_neither (List.fold_left apply_effect d ls).
Proof.
  intros Hd Hb. destruct Hd as [|v w|]; simpl; [exact Hb | |].
  - unfold both_or_neither.
    rewrite lookup_insert_ne by (intros E; now apply keys_differ).
    rewrite !lookup_insert_eq. split; eauto.
  - unfold both_or_neither. rewrite cleared_token, cleared_user.
    split; intros [x Hx]; discriminate.
Qed.

Lemma run_both_or_neither (now_ms : Z) (op : Op) (st : State) :
  (forall ls w, quota_exceeded ls USER_DATA w = false) ->
  pending st = None ->
  both_or_neither (storage st) ->
  pending (run now_ms op st) = None
  /\ both_or_neither (storage (run now_ms op st)).
Proof.
  intros Hq Hp Hb.
  destruct (run_delta now_ms op st Hp)
    as (d & _ & _ & H2 & H3 & _ & _ & Hd).
  split; [exact H3|]. rewrite H2. apply paired_both_or_neither; auto.
Qed.

(** In a browser that never refuses to store the projection, no run of
    the session manager leads from a storage that holds both values or
    neither to one that holds exactly one. *)
Lemma run_all_both_or_neither (steps : list (Z * Op)) (st : State) :
  (forall ls w, quota_exceeded ls USER_DATA w = false) ->
  pending st = None ->
  both_or_neither (storage st) ->
  both_or_neither (storage (run_all steps st)).
Proof.
  intros Hq. revert st.
  induction steps as [|[now_ms op] steps IH]; intros st Hp Hb; [exact Hb|].
  simpl. destruct (run_both_or_neither now_ms op st Hq Hp Hb) as [Hp' Hb'].
  now apply IH.
Qed.

(** C6. The defect behind the claim. [login] writes the token and then
    the projection inside one [try] block whose [catch] block undoes
    nothing: when the browser takes the first write and refuses the
    second, the token is persisted without the projection. From a
    storage that holds neither value the login leaves one that holds
    exactly one; the only storage effect is the write of the token;
    the state stays as Anonymous as it was and shows the browser's
    error. *)
Theorem login_writes_token_alone (now_ms : Z) (email password : string)
    (reply : Reply) (st : State) (payload token u : jsval) :
  pending st = None ->
  settle reply = inr payload ->
  js_get payload "token" = Some token ->
  js_get payload "user" = Some u ->
  quota_exceeded (storage st) AUTH_TOKEN (ToString token) = false ->
  quota_exceeded (<[AUTH_TOKEN := ToString token]> (storage st)) USER_DATA
    (stringified u) = true ->
  let st' := run now_ms (Login email password reply) st in
  storage_effects (trace st')
  = (storage_effects (trace st) ++ token_alone (ToString token))%list
  /\ storage st' = <[AUTH_TOKEN := ToString token]> (storage st)
  /\ storage st' !! AUTH_TOKEN = Some (ToString token)
  /\ storage st' !! USER_DATA = storage st !! USER_DATA
  /\ (storage st !! AUTH_TOKEN = None ->
      storage st !! USER_DATA = None ->
      both_or_neither (storage st) /\ ~ both_or_neither (storage st'))
  /\ user st' = user st
  /\ error st' = formatErrorMessage (quota_error USER_DATA)
  /\ loading st' = false.
Proof.
  intros Hp Hs Ht Hu Q1 Q2. cbv zeta.
  destruct (login_writes now_ms email password reply st payload token u
              Hp Hs Ht Hu) as [H1 H2].
  cbv zeta in H1, H2. rewrite Q1, Q2 in H1, H2. simpl in H2.
  split; [exact H1|]. split; [exact H2|]. rewrite H2.
  split; [apply lookup_insert_eq|].
  split; [apply lookup_insert_ne; apply keys_differ|].
  split.
  { intros Hn1 Hn2. unfold both_or_neither. split.
    - rewrite Hn1, Hn2. split; intros [x Hx]; discriminate.
    - rewrite lookup_insert_eq, lookup_insert_ne by apply keys_differ.
      rewrite Hn2. intros [H _].
      destruct (H (ex_intro _ _ eq_refl)) as [x Hx]. discriminate. }
  unfold run, perform, login, api_call. rewrite Hs.
  cbn [fst snd]. rewrite Ht. unfold setItem.
  cbn [storage send setLoading setError]. rewrite Q1. cbn iota beta.
  rewrite Hu. cbn [storage]. rewrite Q2.
  unfold failed. cbn [fst]. rewrite navigate_none by exact Hp.
  simpl. split; [reflexivity|]. split; reflexivity.
Qed.

(** X22. What the operations of the session manager do to the two
    persisted values. The storage effects of an operation are none at
    all, or the token and then the projection written, or the token
    and then the projection removed, or the token written alone, and
    [localStorage] changes accordingly. The token is written alone only
    by a login, and only in a browser that refuses to store the
    projection; in every other case a storage that holds both values or
    neither still does afterwards. A login whose reply carries a token
    and a user writes both when the browser takes both writes; logout,
    an expiry detected by [initializeAuth] and a 401 reply to any
    request remove both. *)
Theorem storage_effects_of_operations (now_ms : Z) (op : Op)
    (st : State) :
  pending st = None ->
  let st' := run now_ms op st in
  let before := storage_effects (trace st) in
  let after := storage_effects (trace st') in
  (exists d,
      Touched d
      /\ after = (before ++ d)%list
      /\ storage st' = List.fold_left apply_effect d (storage st)
      /\ ((forall email password reply, op <> Login email password reply)
          \/ (forall ls w, quota_exceeded ls USER_DATA w = false) ->
          Paired d
          /\ (both_or_neither (storage st) ->
              both_or_neither (storage st'))))
  /\ (forall email password reply payload token u,
        op = Login email password reply ->
        settle reply = inr payload ->
        js_get payload "token" = Some token ->
        js_get payload "user" = Some u ->
        quota_exceeded (storage st) AUTH_TOKEN (ToString token) = false ->
        quota_exceeded (<[AUTH_TOKEN := ToString token]> (storage st))
          USER_DATA (stringified u) = false ->
        after = (before ++ written (ToString token) (stringified u))%list)
  /\ (op = Logout -> after = (before ++ removed)%list)
  /\ (forall t ud decoded,
        op = Initialize ->
        storage st !! AUTH_TOKEN = Some t ->
        storage st !! USER_DATA = Some ud ->
        t <> "" -> ud <> "" ->
        jwtDecode t = Some decoded ->
        expired decoded now_ms = true ->
        after = (before ++ removed)%list)
  /\ (forall reply,
        reply_of op = Some reply ->
        unauthorized reply = true ->
        after = (before ++ removed)%list)
  /\ pending st' = None.
Proof.
  intros Hp. cbv zeta.
  destruct (run_delta now_ms op st Hp)
    as (d & Hd & H1 & H2 & H3 & H4 & H5 & H6).
  split.
  { exists d. split; [exact Hd|]. split; [exact H1|]. split; [exact H2|].
    intros Hc.
    assert (Paired d) as Hpd by (destruct Hc; auto).
    split; [exact Hpd|]. intros Hb. rewrite H2.
    now apply paired_both_or_neither. }
  split.
  { intros email password reply payload token u -> Hs Ht Hu Q1 Q2.
    destruct (login_writes now_ms email password reply st payload token u
                Hp Hs Ht Hu) as [Hw _].
    cbv zeta in Hw. now rewrite Q1, Q2 in Hw. }
  split; [intros ->; now apply logout_removes_both|].
  split; [intros ? ? ? ->; now apply expiry_removes_both|].
  split; [|exact H3].
  intros reply Hr Hu. now rewrite H1, (H4 reply Hr Hu).
Qed.

(** ** Rejection by the backend *)

(** The body of an operation whose request is answered 401. *)
Lemma perform_unauthorized (now_ms : Z) (op : Op) (reply : Reply)
    (st : State) :
  reply_of op = Some reply ->
  unauthorized reply = true ->
  let st' := perform now_ms op st in
  storage st' = delete USER_DATA (delete AUTH_TOKEN (storage st))
  /\ user st' = user st
  /\ pathname st' = pathname st
  /\ pending st' =
       if negb (String.eqb (pathname st) LOGIN_PATH)
       then Some LOGIN_PATH else pending st.
Proof.
  intros Hr Hu. unfold unauthorized in Hu.
  destruct op; simpl in Hr; try discriminate;
    injection Hr as ->; simpl.
  - unfold login.
    set (st1 := setLoading true (setError JNull st)).
    destruct (api_call_cases
                (api_post "/auth/login" (credentials email password))
                reply st1)
      as [(p & Hs & ->) | [(err & Hs & Hn & ->) | (err & Hs & Hn & ->)]];
      rewrite Hs in Hu; try congruence.
    subst st1; simpl.
    destruct (negb (pathname st =? LOGIN_PATH)); now repeat split.
  - unfold register.
    set (st1 := setLoading true (setError JNull st)).
    destruct (api_call_cases
                (api_post "/auth/register"
                   (registration name email password interests))
                reply st1)
      as [(p & Hs & ->) | [(err & Hs & Hn & ->) | (err & Hs & Hn & ->)]];
      rewrite Hs in Hu; try congruence.
    subst st1; simpl.
    destruct (negb (pathname st =? LOGIN_PATH)); now repeat split.
  - destruct (api_call_cases config reply st)
      as [(p & Hs & ->) | [(err & Hs & Hn & ->) | (err & Hs & Hn & ->)]];
      rewrite Hs in Hu; try congruence.
    simpl.
    destruct (negb (pathname st =? LOGIN_PATH)); now repeat split.
Qed.

(** C7, as amended. Whatever operation made the request, a reply
    with status 401 removes both the persisted token and the persisted
    projection, so that any later startup finds neither and is
    Anonymous. When the page is not at the login path, the
    interceptor also sends the browser there, and the page that loads
    has no active session. When the page is already at the login
    path, the interceptor leaves the session held in memory as it
    was. *)
Theorem unauthorized_reply_clears_storage (now_ms : Z) (op : Op)
    (reply : Reply) (st : State) :
  pending st = None ->
  reply_of op = Some reply ->
  unauthorized reply = true ->
  let st' := run now_ms op st in
  storage st' !! AUTH_TOKEN = None
  /\ storage st' !! USER_DATA = None
  /\ (forall later path tr,
        let st'' := startup later (storage st') path tr in
        getItem AUTH_TOKEN st'' = None
        /\ getItem USER_DATA st'' = None
        /\ storage st'' = storage st'
        /\ isAuthenticated st'' = false)
  /\ (pathname st <> LOGIN_PATH ->
        pathname st' = LOGIN_PATH
        /\ user st' = JNull
        /\ isAuthenticated st' = false)
  /\ (pathname st = LOGIN_PATH ->
        pathname st' = LOGIN_PATH
        /\ user st' = user st).
Proof.
  intros Hp Hr Hu. cbv zeta.
  destruct (perform_unauthorized now_ms op reply st Hr Hu)
    as (Hs & Huser & Hpath & Hpend).
  assert (Htok : storage (perform now_ms op st) !! AUTH_TOKEN = None)
    by (rewrite Hs; apply cleared_token).
  assert (Hud : storage (perform now_ms op st) !! USER_DATA = None)
    by (rewrite Hs; apply cleared_user).
  assert (Hst : storage (run now_ms op st) = storage (perform now_ms op st)).
  { unfold run. destruct (pending (perform now_ms op st)) as [href|] eqn:E.
    - now rewrite (navigate_cleared _ _ href E Htok).
    - now rewrite navigate_none. }
  rewrite Hst. split; [exact Htok|]. split; [exact Hud|]. split.
  - intros later path tr. unfold startup.
    rewrite initializeAuth_idle by (simpl; now rewrite Htok).
    unfold getItem; simpl. now repeat split.
  - split.
    + intros Hne. apply String.eqb_neq in Hne. rewrite Hne in Hpend.
      simpl in Hpend. unfold run.
      rewrite (navigate_cleared _ _ LOGIN_PATH Hpend Htok). now repeat split.
    + intros He. rewrite He, String.eqb_refl in Hpend. simpl in Hpend.
      unfold run. rewrite navigate_none by congruence.
      split; [congruence | exact Huser].
Qed.

End Manager.

End ClientFacts.

(* ===================================================================== *)
(** * The reference instances meet their contracts *)
(* ===================================================================== *)

Module ReferenceFacts.
Import Auth Reference.

Lemma bcrypt_verifies_reference : bcrypt_verifies bcrypt.
Proof.
  intros s salt. simpl. induction s as [|c s IH]; simpl.
  - now destruct salt.
  - destruct (ascii_dec c c) as [_|Hne]; [exact IH | now contradiction Hne].
Qed.

Lemma dec_enc_pos (p : positive) (r : string) :
  dec_pos (enc_pos p ++ r) = Some (p, r).
Proof. induction p as [p IH|p IH|]; simpl; now rewrite ?IH. Qed.

Lemma dec_enc_Z (z : Z) (r : string) : dec_Z (enc_Z z ++ r) = Some (z, r).
Proof. destruct z; simpl; now rewrite ?dec_enc_pos. Qed.

Lemma parse_encode (c : Claims) (k : string) :
  parse (jwt_encode (Jwt := jwt) c k) = Some (c, k).
Proof.
  destruct c as [id iat exp]. unfold parse; simpl.
  rewrite !dec_enc_Z. now rewrite N2Z.id.
Qed.

Lemma jwt_decodes_reference : jwt_decodes jwt.
Proof.
  intros c k. change (option_map fst (parse (jwt_encode (Jwt := jwt) c k)) = Some c).
  now rewrite parse_encode.
Qed.

Lemma jwt_binds_key_reference : jwt_binds_key jwt.
Proof.
  intros c k k'.
  change (match parse (jwt_encode (Jwt := jwt) c k) with
          | Some (_, key) => String.eqb key k'
          | None => false
          end = bool_decide (k = k')).
  rewrite parse_encode.
  destruct (String.eqb_spec k k') as [->|Hne].
  - now rewrite bool_decide_eq_true_2.
  - now rewrite bool_decide_eq_false_2.
Qed.

End ReferenceFacts.

(* ===================================================================== *)
(** * The handlers on concrete requests *)
(* ===================================================================== *)

Module Examples.
Import Auth Guard Client Reference ReferenceFacts.

(** Alice registers on the empty store and logs in at second 1000. *)
Lemma login_after_registration_witness :
  let r := Auth.login (B := bcrypt) (J := jwt) secret 1000 db1
             alice_logs_in in
  status r = 200
  /\ js_get_opt (body r) "user" = alice_projection
  /\ exists token claims,
       js_get_opt (body r) "token" = JStr token
       /\ jwt_decode (Jwt := jwt) token = Some claims
       /\ c_id claims = 0%N
       /\ c_exp claims = c_iat claims + 604800.
Proof.
  destruct (AuthFacts.login_after_registration
              (B := bcrypt) (M := schema) (J := jwt)
              secret 1000 "salt" empty_db (Some "Alice") "a@x.com"
              "secret1" [] []
              bcrypt_verifies_reference jwt_decodes_reference eq_refl)
    as [H _].
  destruct (H ltac:(discriminate))
    as (token & claims & projected & H1 & H2 & H3 & H4 & H5 & H6 & H7 & H8 & H9).
  unfold register_all in H1, H2; cbn [List.fold_left] in H1, H2.
  cbv zeta. unfold db1, alice_registers, alice_logs_in.
  split; [exact H1|]. rewrite H2. split.
  - rewrite H8. reflexivity.
  - exists token, claims. repeat split; assumption.
Defined.

(** Alice registers twice. *)
Lemma register_twice_witness :
  fst (Auth.register (B := bcrypt) (M := schema) "salt" empty_db
         alice_registers)
    = res_json (msg user_registered)
  /\ Auth.register (B := bcrypt) (M := schema) "pepper" db1 alice_registers
     = (res_status_json 400 (msg user_already_exists), db1)
  /\ count_email (Some "a@x.com") (users db1) = 1%nat.
Proof.
  destruct (AuthFacts.register_twice (B := bcrypt) (M := schema)
              "salt" "pepper" empty_db alice_registers alice_registers
              "secret1" eq_refl eq_refl eq_refl eq_refl)
    as (H1 & _ & _ & _ & H5 & H6).
  split; [exact H1|]. split; [|exact H5].
  apply (H6 "pepper" db1 alice_registers alice). reflexivity.
Defined.

(** A wrong secret and an unknown email. *)
Lemma login_failures_witness :
  Auth.login (B := bcrypt) (J := jwt) secret 1000 db1
    (mkLoginBody (Some "a@x.com") (Some "wrong"))
    = res_status_json 400 (msg invalid_credentials)
  /\ Auth.login (B := bcrypt) (J := jwt) secret 1000 db1
       (mkLoginBody (Some "nobody@x.com") (Some "secret1"))
     = res_status_json 400 (msg user_not_found).
Proof.
  split.
  - destruct (AuthFacts.login_failures (B := bcrypt) (J := jwt) secret 1000
                db1 (mkLoginBody (Some "a@x.com") (Some "wrong")))
      as (_ & H2 & _).
    apply (H2 alice "wrong"); reflexivity.
  - destruct (AuthFacts.login_failures (B := bcrypt) (J := jwt) secret 1000
                db1 (mkLoginBody (Some "nobody@x.com") (Some "secret1")))
      as (H1 & _).
    apply H1. reflexivity.
Defined.

(** Alice's token, a token for her made with another key, and no token,
    three weeks after Alice's token was issued. *)
Lemma guard_rejections_witness :
  authenticate (J := jwt) secret 2000000 None = MissingToken
  /\ authenticate (J := jwt) secret 2000000
       (Some (jwt_encode (Jwt := jwt)
                (mkClaims 0%N 1999000 (1999000 + seven_days))
                "another-secret"))
     = InvalidToken
  /\ authenticate (J := jwt) secret 2000000 (Some alice_token)
     = ExpiredToken.
Proof.
  destruct (GuardFacts.guard_rejections (J := jwt) secret 2000000
              jwt_decodes_reference jwt_binds_key_reference)
    as (H1 & _ & H2 & _ & H3 & _).
  split; [exact H1|]. split.
  - apply (H2 (mkClaims 0%N 1999000 (1999000 + seven_days))
              "another-secret").
    discriminate.
  - apply (H3 (mkClaims 0%N 1000 (1000 + seven_days))). reflexivity.
Defined.

(** Alice's client starts one day, and then three weeks, after her
    token was issued. *)
Lemma initialize_restores_or_clears_witness :
  isAuthenticated (startup (R := runtime) 86400000 alice_storage "/" [])
    = true
  /\ storage (startup (R := runtime) 2000000000 alice_storage "/" [])
       !! AUTH_TOKEN = None.
Proof.
  split.
  - destruct (ClientFacts.initialize_restores_or_clears (R := runtime)
                86400000 alice_storage "/" [] alice_token
                (render alice_projection)
                (mkDecoded (Some 605800)) 605800
                eq_refl eq_refl ltac:(discriminate) ltac:(discriminate)
                eq_refl eq_refl)
      as [H1 _].
    apply (H1 [("id", JNum 0); ("name", JStr "Alice");
               ("email", JStr "a@x.com")]); reflexivity.
  - destruct (ClientFacts.initialize_restores_or_clears (R := runtime)
                2000000000 alice_storage "/" [] alice_token
                (render alice_projection)
                (mkDecoded (Some 605800)) 605800
                eq_refl eq_refl ltac:(discriminate) ltac:(discriminate)
                eq_refl eq_refl)
      as [_ H2].
    apply H2. reflexivity.
Defined.

(** Alice logs in from the browser whose storage is nearly full. *)
Lemma login_writes_token_alone_witness :
  let st := mount nearly_full LOGIN_PATH [] in
  let st' := run (R := cramped) 0
               (Login "a@x.com" "secret1" (HttpReply 200 login_answer)) st in
  both_or_neither (storage st)
  /\ storage st' !! AUTH_TOKEN = Some alice_token
  /\ storage st' !! USER_DATA = None
  /\ ~ both_or_neither (storage st')
  /\ isAuthenticated st' = false.
Proof.
  assert (quota_exceeded (Runtime := cramped) nearly_full AUTH_TOKEN
            alice_token = false) as Q1 by (vm_compute; reflexivity).
  assert (quota_exceeded (Runtime := cramped)
            (<[AUTH_TOKEN := alice_token]> nearly_full) USER_DATA
            (render alice_projection) = true) as Q2
    by (vm_compute; reflexivity).
  destruct (ClientFacts.login_writes_token_alone (R := cramped) 0
              "a@x.com" "secret1" (HttpReply 200 login_answer)
              (mount nearly_full LOGIN_PATH []) login_answer
              (JStr alice_token) alice_projection
              eq_refl eq_refl eq_refl eq_refl Q1 Q2)
    as (_ & _ & H3 & H4 & H5 & H6 & _).
  destruct (H5 eq_refl eq_refl) as [Hb Hn].
  cbv zeta. split; [exact Hb|]. split; [exact H3|].
  split; [rewrite H4; reflexivity|]. split; [exact Hn|].
  unfold isAuthenticated. rewrite H6. reflexivity.
Defined.

(** A chat call answered 401 while Alice is on the chat page. *)
Lemma unauthorized_reply_clears_storage_witness :
  let st' := run (R := runtime) 0 (User_request chat_call rejection)
               on_chat_page in
  storage st' !! AUTH_TOKEN = None
  /\ storage st' !! USER_DATA = None
  /\ isAuthenticated st' = false.
Proof.
  destruct (ClientFacts.unauthorized_reply_clears_storage (R := runtime) 0
              (User_request chat_call rejection) rejection on_chat_page
              eq_refl eq_refl eq_refl)
    as (H1 & H2 & _ & H4 & _).
  cbv zeta. split; [exact H1|]. split; [exact H2|].
  apply H4. discriminate.
Defined.

(** Against C7 as stated. The same call answered 401 while Alice is on
    the login page: both persisted values are removed, but the session
    in memory is still hers, so the active session is not cleared. *)
Lemma session_survives_on_login_page :
  let st' := run (R := runtime) 0 (User_request chat_call rejection)
               on_login_page in
  unauthorized rejection = true
  /\ storage st' !! AUTH_TOKEN = None
  /\ storage st' !! USER_DATA = None
  /\ user st' = alice_projection
  /\ isAuthenticated st' = true
  /\ ~ (isAuthenticated st' = false).
Proof. cbv zeta. repeat split. discriminate. Qed.

(** Against C8 as stated. A registration with an empty secret on the
    empty store, under the schema of the specification: it is not
    rejected, and a record is created. *)
Lemma register_accepts_empty_secret :
  let r := Auth.register (B := bcrypt) (M := schema) "salt" empty_db
             empty_secret in
  r_password empty_secret = Some ""
  /\ r = (res_json (msg user_registered),
          mkDb [mkUser 0%N (Some "Alice") (Some "a@x.com")
                  (bcrypt_hash (Bcrypt := bcrypt) "" "salt") []] 1%N)
  /\ ~ (status (fst r) <> 200 /\ snd r = empty_db).
Proof.
  cbv zeta. split; [reflexivity|]. split; [reflexivity|].
  intros [H _]. now apply H.
Qed.

(** A request without a secret, one without an email, and one with an
    empty secret. *)
Lemma register_presence_witness :
  snd (Auth.register (B := bcrypt) (M := schema) "salt" empty_db
         (mkRegisterBody (Some "Alice") (Some "a@x.com") None []))
    = empty_db
  /\ snd (Auth.register (B := bcrypt) (M := spec_schema) "salt" empty_db
            (mkRegisterBody (Some "Alice") None (Some "secret1") []))
     = empty_db
  /\ List.length
       (users (snd (Auth.register (B := bcrypt) (M := schema) "salt"
                      empty_db empty_secret))) = 1%nat.
Proof.
  split; [|split].
  - destruct (AuthFacts.register_presence (B := bcrypt) (M := schema)
                "salt" empty_db
                (mkRegisterBody (Some "Alice") (Some "a@x.com") None []))
      as (H & _).
    now destruct (H eq_refl).
  - destruct (AuthFacts.register_presence (B := bcrypt) (M := schema)
                "salt" empty_db
                (mkRegisterBody (Some "Alice") None (Some "secret1") []))
      as (_ & _ & H & _).
    now destruct (H eq_refl).
  - destruct (AuthFacts.register_presence (B := bcrypt) (M := schema)
                "salt" empty_db empty_secret)
      as (_ & _ & _ & H & _).
    now rewrite (H eq_refl eq_refl eq_refl).
Defined.

(** A question about jobs, in capitals and padded with blanks. *)
Lemma chat_endpoint_witness :
  let r := Chat.post_chat [("message", JStr "  Any JOBS?  ")] JNull
             "2024-01-01T00:00:00.000Z" in
  status r = 200 /\ Chat.reply_of r = JStr Chat.job_reply.
Proof.
  destruct (ChatFacts.chat_endpoint [("message", JStr "  Any JOBS?  ")]
              JNull "2024-01-01T00:00:00.000Z") as (H & _).
  destruct (H "  Any JOBS?  " eq_refl ltac:(discriminate))
    as (H1 & H2 & _).
  cbv zeta. split; [exact H1 | exact H2].
Defined.

(** A client that holds a token and no projection. *)
Lemma orphan_value_is_kept_witness :
  let st := startup (R := runtime) 0 orphan_token "/" [] in
  isAuthenticated st = false
  /\ storage st = orphan_token
  /\ headers (request_interceptor (storage st) chat_call) !! X_AUTH_TOKEN
     = Some alice_token.
Proof.
  destruct (ClientFacts.orphan_value_is_kept (R := runtime) 0 orphan_token
              "/" ltac:(discriminate)) as (H1 & H2 & _ & H4).
  cbv zeta. split; [exact H1|]. split; [exact H2|].
  destruct (H4 alice_token eq_refl ltac:(discriminate)) as [H _].
  apply H.
Defined.

End Examples.

(* ===================================================================== *)
(** * Trimming *)
(* ===================================================================== *)

Module TrimFacts.
Import Vocabulary.

Lemma trimStart_clean (s : string) :
  match trimStart s with
  | EmptyString => True
  | String c _ => is_ws c = false
  end.
Proof.
  induction s as [|c s IH]; simpl; [exact I|].
  destruct (is_ws c) eqn:E; [exact IH | exact E].
Qed.

Lemma trimStart_fixed (c : ascii) (s : string) :
  is_ws c = false -> trimStart (String c s) = String c s.
Proof. intros E. simpl. now rewrite E. Qed.

Lemma trimEnd_head (c : ascii) (s : string) :
  is_ws c = false -> exists r, trimEnd (String c s) = String c r.
Proof.
  intros E. simpl. destruct (trimEnd s); rewrite ?E; eauto.
Qed.

Lemma trimEnd_idempotent (s : string) : trimEnd (trimEnd s) = trimEnd s.
Proof.
  induction s as [|c s IH]; simpl; [reflexivity|].
  destruct (trimEnd s) as [|d r] eqn:E.
  - destruct (is_ws c) eqn:Ec; simpl; [reflexivity | now rewrite Ec].
  - change (trimEnd (String c (String d r))) with
      (match trimEnd (String d r) with
       | EmptyString => if is_ws c then EmptyString else String c EmptyString
       | String d' r' => String c (String d' r')
       end).
    now rewrite IH.
Qed.

(** Trimming twice is trimming once. *)
Lemma trim_idempotent (s : string) : trim (trim s) = trim s.
Proof.
  unfold trim. pose proof (trimStart_clean s) as H.
  destruct (trimStart s) as [|c t]; [reflexivity|].
  destruct (trimEnd_head c t H) as [r Hr]. rewrite Hr.
  rewrite (trimStart_fixed c r H), <- Hr. apply trimEnd_idempotent.
Qed.

Lemma trimStart_length (s : string) :
  (String.length (trimStart s) <= String.length s)%nat.
Proof.
  induction s as [|c s IH]; simpl; [lia|].
  destruct (is_ws c); simpl; lia.
Qed.

Lemma trimEnd_length (s : string) :
  (String.length (trimEnd s) <= String.length s)%nat.
Proof.
  induction s as [|c s IH]; simpl; [lia|].
  destruct (trimEnd s); [destruct (is_ws c)|]; simpl in *; lia.
Qed.

Lemma trim_length (s : string) :
  (String.length (trim s) <= String.length s)%nat.
Proof.
  unfold trim. pose proof (trimEnd_length (trimStart s)).
  pose proof (trimStart_length s). lia.
Qed.

(** A string without blanks is its own trim. *)
Lemma trimEnd_no_ws (s : string) :
  all (fun c => negb (is_ws c)) s = true -> trimEnd s = s.
Proof.
  induction s as [|c s IH]; simpl; [reflexivity|].
  intros H. apply andb_prop in H as [Hc Hs]. rewrite (IH Hs).
  apply negb_true_iff in Hc. destruct s; [now rewrite Hc | reflexivity].
Qed.

Lemma trim_no_ws (s : string) :
  all (fun c => negb (is_ws c)) s = true -> trim s = s.
Proof.
  intros H. unfold trim.
  assert (trimStart s = s) as ->.
  { destruct s as [|c s]; [reflexivity|]. simpl in *.
    apply andb_prop in H as [Hc _]. apply negb_true_iff in Hc.
    now rewrite Hc. }
  now apply trimEnd_no_ws.
Qed.

End TrimFacts.

(* ===================================================================== *)
(** * The helpers *)
(* ===================================================================== *)

Module HelpersFacts.
Import Helpers Vocabulary TrimFacts JsStringFacts.

(** ** Patterns *)

Lemma append_cons (c : ascii) (s t : string) :
  String c s ++ t = String c (s ++ t).
Proof. reflexivity. Qed.

Lemma append_nil (s : string) : "" ++ s = s.
Proof. reflexivity. Qed.


Lemma length_append (a b : string) :
  String.length (a ++ b) = (String.length a + String.length b)%nat.
Proof. induction a as [|c a IH]; simpl; [reflexivity | now rewrite IH]. Qed.



Lemma count_char_none (class : ascii -> bool) (c : ascii) (s : string) :
  class c = false -> all class s = true -> count_char c s = 0%nat.
Proof.
  intros Hc. induction s as [|a s IH]; simpl; [reflexivity|].
  intros H. apply andb_prop in H as [Ha Hs]. rewrite (IH Hs).
  destruct (Ascii.eqb_spec a c) as [->|_]; [congruence | reflexivity].
Qed.



(** ** [isValidEmail] *)

Lemma isValidEmail_string (s : string) :
  isValidEmail (JStr s) = test EMAIL_REGEX (trim s).
Proof.
  unfold isValidEmail. simpl. destruct s; [reflexivity|]. reflexivity.
Qed.




(** ** [validatePassword] and [validateName] *)

Lemma validatePassword_valid (password : jsval) :
  isValid (validatePassword password) = true <->
  exists s, password = JStr s
            /\ (6 <= String.length s <= 50)%nat.
Proof.
  destruct password as [| |b|n|s|xs|fs];
    try (split; [|intros (s & E & _); discriminate]);
    try (unfold validatePassword; simpl; try destruct b;
         try destruct (negb (Z.eqb n 0)); discriminate).
  unfold validatePassword. simpl.
  destruct s as [|c s]; simpl.
  { split; [discriminate | intros (s & [= <-] & H); simpl in H; lia]. }
  unfold PASSWORD_MIN_LENGTH, PASSWORD_MAX_LENGTH.
  destruct (Nat.ltb_spec (S (String.length s)) 6); simpl.
  { split; [discriminate | intros (s' & [= <-] & H'); simpl in H'; lia]. }
  destruct (Nat.ltb_spec 50 (S (String.length s))); simpl.
  { split; [discriminate | intros (s' & [= <-] & H'); simpl in H'; lia]. }
  split; [|reflexivity]. intros _. eexists. split; [reflexivity|]. simpl. lia.
Qed.

Lemma validateName_valid (name : jsval) :
  isValid (validateName name) = true <->
  exists s, name = JStr s
            /\ (2 <= String.length (trim s) <= 50)%nat.
Proof.
  destruct name as [| |b|n|s|xs|fs];
    try (split; [|intros (s & E & _); discriminate]);
    try (unfold validateName; simpl; try destruct b;
         try destruct (negb (Z.eqb n 0)); discriminate).
  unfold validateName. simpl.
  destruct s as [|c s]; simpl.
  { split; [discriminate | intros (s & [= <-] & H); simpl in H; lia]. }
  unfold NAME_MIN_LENGTH, NAME_MAX_LENGTH.
  destruct (Nat.ltb_spec (String.length (trim (String c s))) 2); simpl.
  { split; [discriminate | intros (s' & [= <-] & H'); lia]. }
  destruct (Nat.ltb_spec 50 (String.length (trim (String c s)))); simpl.
  { split; [discriminate | intros (s' & [= <-] & H'); lia]. }
  split; [|reflexivity]. intros _. eexists. split; [reflexivity|]. lia.
Qed.

(** X21. The two validators decide by length alone: a password is
    valid exactly when it is a string of 6 to 50 characters, blanks
    included, and a name exactly when it is a string whose trimmed form
    has 2 to 50 characters. The message of a verdict is empty exactly
    when the verdict is valid. *)
Theorem validators_decide_by_length (password name : jsval) :
  (isValid (validatePassword password) = true <->
   exists s, password = JStr s /\ (6 <= String.length s <= 50)%nat)
  /\ (isValid (validateName name) = true <->
      exists s, name = JStr s /\ (2 <= String.length (trim s) <= 50)%nat)
  /\ (Helpers.message (validatePassword password) = "" <->
      isValid (validatePassword password) = true)
  /\ (Helpers.message (validateName name) = "" <->
      isValid (validateName name) = true).
Proof.
  split; [apply validatePassword_valid|].
  split; [apply validateName_valid|].
  split.
  - unfold validatePassword.
    destruct (negb (truthy password)
              || negb (String.eqb (typeof password) "string"));
      [split; discriminate|].
    destruct password; try (split; discriminate).
    destruct (String.length s <? PASSWORD_MIN_LENGTH)%nat;
      [split; discriminate|].
    destruct (PASSWORD_MAX_LENGTH <? String.length s)%nat;
      [split; discriminate|].
    now split.
  - unfold validateName.
    destruct (negb (truthy name)
              || negb (String.eqb (typeof name) "string"));
      [split; discriminate|].
    destruct name; try (split; discriminate).
    cbv zeta.
    destruct (String.length (trim s) <? NAME_MIN_LENGTH)%nat;
      [split; discriminate|].
    destruct (NAME_MAX_LENGTH <? String.length (trim s))%nat;
      [split; discriminate|].
    now split.
Qed.

End HelpersFacts.

(* ===================================================================== *)
(** * Interests, truncation and error messages *)
(* ===================================================================== *)

Module FormatFacts.
Import Helpers Vocabulary TrimFacts JsStringFacts HelpersFacts Client.

(** ** [split] *)

Lemma split_no_separator (c : ascii) (s : string) :
  Forall (fun piece => count_char c piece = 0%nat) (split c s).
Proof.
  induction s as [|a s IH]; simpl.
  - apply Forall_cons. split; [reflexivity | apply Forall_nil; exact I].
  - destruct (Ascii.eqb a c) eqn:E.
    + apply Forall_cons. split; [reflexivity | exact IH].
    + destruct (split c s) as [|piece pieces].
      * apply Forall_cons. simpl. rewrite E.
        split; [reflexivity | apply Forall_nil; exact I].
      * apply Forall_cons in IH as [H1 H2]. apply Forall_cons.
        simpl. rewrite E, H1. split; [reflexivity | exact H2].
Qed.

Lemma split_whole (c : ascii) (s : string) :
  count_char c s = 0%nat -> split c s = [s].
Proof.
  induction s as [|a s IH]; simpl; [reflexivity|].
  destruct (Ascii.eqb a c); [discriminate|]. intros H.
  now rewrite (IH H).
Qed.

Lemma split_at_separator (c : ascii) (a rest : string) :
  count_char c a = 0%nat ->
  split c (a ++ String c rest) = a :: split c rest.
Proof.
  induction a as [|x a IH]; simpl.
  - intros _. now rewrite Ascii.eqb_refl.
  - destruct (Ascii.eqb x c); [discriminate|]. intros H.
    now rewrite (IH H).
Qed.

Lemma split_after_padding (c : ascii) (pad s : string) :
  count_char c pad = 0%nat ->
  split c (pad ++ s) =
    match split c s with
    | piece :: pieces => (pad ++ piece) :: pieces
    | [] => [pad]
    end.
Proof.
  induction pad as [|x pad IH]; simpl.
  - intros _. rewrite append_nil.
    destruct (split c s) eqn:E; [|now rewrite append_nil].
    destruct s; simpl in E; [discriminate|].
    destruct (Ascii.eqb a c); [discriminate|].
    destruct (split c s); discriminate.
  - destruct (Ascii.eqb x c); [discriminate|]. intros H.
    rewrite (IH H). now destruct (split c s).
Qed.

(** ** Trimming and counting *)

Lemma count_char_trimStart (c : ascii) (s : string) :
  (count_char c (trimStart s) <= count_char c s)%nat.
Proof.
  induction s as [|a s IH]; simpl; [lia|].
  destruct (is_ws a); simpl; lia.
Qed.

Lemma count_char_trimEnd (c : ascii) (s : string) :
  (count_char c (trimEnd s) <= count_char c s)%nat.
Proof.
  induction s as [|a s IH]; simpl; [lia|].
  destruct (trimEnd s); [destruct (is_ws a)|]; simpl in *; lia.
Qed.

Lemma count_char_trim (c : ascii) (s : string) :
  count_char c s = 0%nat -> count_char c (trim s) = 0%nat.
Proof.
  intros H. unfold trim.
  pose proof (count_char_trimEnd c (trimStart s)).
  pose proof (count_char_trimStart c s). lia.
Qed.

Lemma trimStart_padding (pad s : string) :
  all is_ws pad = true -> trimStart (pad ++ s) = trimStart s.
Proof.
  induction pad as [|x pad IH]; simpl; [reflexivity|].
  intros H. apply andb_prop in H as [-> H]. now apply IH.
Qed.

Lemma padding_no_comma (pad : string) :
  all is_ws pad = true -> count_char "," pad = 0%nat.
Proof.
  intros H. apply (count_char_none is_ws); [reflexivity | exact H].
Qed.

(** ** [parseInterests] *)

Lemma kept_are_clean (pieces : list string) :
  Forall (fun piece => count_char "," piece = 0%nat) pieces ->
  Forall clean
    (List.filter (fun interest => (0 <? String.length interest)%nat)
       (List.map trim pieces)).
Proof.
  induction pieces as [|p pieces IH]; intros H; simpl.
  - apply Forall_nil. exact I.
  - apply Forall_cons in H as [Hp H].
    destruct (trim p) as [|a r] eqn:E; simpl; [now apply IH|].
    apply Forall_cons. split; [|now apply IH].
    rewrite <- E. repeat split.
    + rewrite E. discriminate.
    + now apply count_char_trim.
    + apply trim_idempotent.
Qed.

Lemma split_concat (pad : string) (x : string) (xs : list string) :
  all is_ws pad = true ->
  Forall clean (x :: xs) ->
  split "," (String.concat ("," ++ pad) (x :: xs))
  = x :: List.map (fun y => pad ++ y) xs.
Proof.
  intros Hpad. revert x. induction xs as [|y xs IH]; intros x H.
  - apply Forall_cons in H as [(_ & Hx & _) _]. simpl.
    now apply split_whole.
  - apply Forall_cons in H as [(_ & Hx & _) H].
    change (String.concat ("," ++ pad) (x :: y :: xs))
      with (x ++ String "," (pad ++ String.concat ("," ++ pad) (y :: xs))).
    rewrite (split_at_separator "," x _ Hx).
    rewrite (split_after_padding "," pad _ (padding_no_comma pad Hpad)).
    now rewrite (IH y H).
Qed.

Lemma kept_unchanged (pad : string) (xs : list string) :
  all is_ws pad = true ->
  Forall clean xs ->
  List.filter (fun interest => (0 <? String.length interest)%nat)
    (List.map trim (List.map (fun y => pad ++ y) xs)) = xs.
Proof.
  intros Hpad. induction xs as [|x xs IH]; intros H; [reflexivity|].
  apply Forall_cons in H as [(Hne & _ & Ht) H]. simpl.
  assert (trim (pad ++ x) = x) as ->.
  { unfold trim. rewrite (trimStart_padding pad x Hpad). exact Ht. }
  destruct x; [congruence|]. simpl. now rewrite (IH H).
Qed.

Lemma parseInterests_string (s : string) :
  s <> "" ->
  parseInterests (JStr s)
  = List.filter (fun interest => (0 <? String.length interest)%nat)
      (List.map trim (split "," s)).
Proof. intros H. now destruct s. Qed.

Lemma parseInterests_clean (interestsString : jsval) :
  Forall clean (parseInterests interestsString).
Proof.
  unfold parseInterests.
  destruct (negb (truthy interestsString)
            || negb (String.eqb (typeof interestsString) "string"));
    [apply Forall_nil; exact I|].
  destruct interestsString; try (apply Forall_nil; exact I).
  apply kept_are_clean, split_no_separator.
Qed.

(** X2. What [parseInterests] returns is a list of interests that are
    not empty, contain no comma and have no blank at either end; and it
    reads back every such list from its comma-separated text, whatever
    blanks follow the commas. A value that is not a non-empty string
    gives the empty list. *)
Theorem parseInterests_reads_back (interestsString : jsval) :
  Forall clean (parseInterests interestsString)
  /\ (forall pad interests,
        all is_ws pad = true ->
        Forall clean interests ->
        parseInterests (JStr (String.concat ("," ++ pad) interests))
        = interests)
  /\ ((forall s, interestsString = JStr s -> s = "") ->
      parseInterests interestsString = []).
Proof.
  split; [|split].
  - apply parseInterests_clean.
  - intros pad interests Hpad H. destruct interests as [|x xs]; [reflexivity|].
    pose proof H as H'. apply Forall_cons in H' as [(Hx & _ & Ht) Hxs].
    rewrite parseInterests_string.
    2:{ destruct x as [|c x]; [congruence|]. now destruct xs. }
    rewrite (split_concat pad x xs Hpad H).
    simpl List.map. rewrite Ht. simpl List.filter.
    destruct x as [|c x]; [congruence|]. simpl.
    now rewrite (kept_unchanged pad xs Hpad Hxs).
  - intros H. unfold parseInterests.
    destruct interestsString; simpl; rewrite ?orb_true_r; try reflexivity.
    now rewrite (H s eq_refl).
Qed.

(** ** [truncateText] *)

Lemma length_substring (n : nat) (s : string) :
  String.length (String.substring 0 n s) = Nat.min n (String.length s).
Proof.
  revert s. induction n as [|n IH]; intros s.
  - now destruct s.
  - destruct s as [|c s]; simpl; [reflexivity | now rewrite IH].
Qed.

(** X3. [truncateText] returns a text that fits unchanged; a longer
    text is cut so that, with the suffix, it is exactly [maxLength]
    long, provided the suffix itself fits. When the suffix is longer
    than [maxLength] the result is the bare suffix, which exceeds
    [maxLength]. Anything but a non-empty string gives the empty
    string. *)
Theorem truncateText_length (s : string) (maxLength : Z) (suffix : string) :
  s <> "" ->
  let r := truncateText (JStr s) maxLength suffix in
  (Z.of_nat (String.length s) <= maxLength -> r = s)
  /\ (maxLength < Z.of_nat (String.length s) ->
      Z.of_nat (String.length suffix) <= maxLength ->
      Z.of_nat (String.length r) = maxLength
      /\ exists kept, r = kept ++ suffix /\ String.prefix kept s = true)
  /\ (maxLength < Z.of_nat (String.length s) ->
      maxLength < Z.of_nat (String.length suffix) ->
      r = suffix /\ maxLength < Z.of_nat (String.length r))
  /\ (forall v, (forall s', v = JStr s' -> s' = "") ->
      truncateText v maxLength suffix = "").
Proof.
  intros Hs. cbv zeta. unfold truncateText. simpl.
  apply truthy_str_true in Hs. rewrite Hs. simpl.
  split; [|split; [|split]].
  - intros H. apply Z.leb_le in H. now rewrite H.
  - intros H Hfit. apply Z.leb_gt in H as H'. rewrite H'.
    unfold substring_to. split.
    + rewrite length_append, length_substring. lia.
    + eexists. split; [reflexivity|].
      apply String.prefix_correct. rewrite length_substring.
      set (n := Z.to_nat (maxLength - Z.of_nat (String.length suffix))).
      assert (Hn : (n <= String.length s)%nat) by lia.
      now rewrite Nat.min_l by exact Hn.
  - intros H Hlong. apply Z.leb_gt in H as H'. rewrite H'.
    unfold substring_to.
    replace (Z.to_nat (maxLength - Z.of_nat (String.length suffix)))
      with 0%nat by lia.
    assert (String.substring 0 0 s = "") as -> by now destruct s.
    split; [reflexivity | exact Hlong].
  - intros v Hv.
    destruct v; simpl; rewrite ?orb_true_r; try reflexivity.
    now rewrite (Hv s0 eq_refl).
Qed.

(** ** [formatErrorMessage] *)

Lemma js_or_truthy (a b : jsval) :
  truthy b = true -> truthy (js_or a b) = true.
Proof. intros Hb. unfold js_or. now destruct (truthy a) eqn:E. Qed.

Lemma formatErrorMessage_truthy (err : Failure) :
  truthy (formatErrorMessage err) = true.
Proof. destruct err; simpl; repeat apply js_or_truthy; reflexivity. Qed.


End FormatFacts.

(* ===================================================================== *)
(** * The session as a state machine *)
(* ===================================================================== *)

Module SessionFacts.
Import Client Pages ClientFacts JsStringFacts.

Section Session.
Context {R : Runtime}.

(** ** Startup *)

(** The four ways [initializeAuth] can end at mount. *)
Lemma startup_cases (now_ms : Z) (ls : gmap string string) (path : string)
    (tr : list Effect) :
  (exists t ud decoded v,
      ls !! AUTH_TOKEN = Some t /\ ls !! USER_DATA = Some ud
      /\ t <> "" /\ ud <> ""
      /\ jwtDecode t = Some decoded /\ expired decoded now_ms = false
      /\ JSON_parse ud = Some v
      /\ startup now_ms ls path tr = mkState ls v false JNull path None tr)
  \/ (exists t ud,
         ls !! AUTH_TOKEN = Some t /\ ls !! USER_DATA = Some ud
         /\ t <> "" /\ ud <> ""
         /\ (jwtDecode t = None
             \/ (exists decoded,
                    jwtDecode t = Some decoded
                    /\ (expired decoded now_ms = true
                        \/ JSON_parse ud = None)))
         /\ startup now_ms ls path tr =
              mkState (delete USER_DATA (delete AUTH_TOKEN ls)) JNull false
                      JNull path None
                      (tr ++ [RemoveItem AUTH_TOKEN]
                          ++ [RemoveItem USER_DATA])%list)
  \/ (present (ls !! AUTH_TOKEN) && present (ls !! USER_DATA) = false
      /\ startup now_ms ls path tr = mkState ls JNull false JNull path None tr).
Proof.
  unfold startup.
  destruct (present (ls !! AUTH_TOKEN) && present (ls !! USER_DATA)) eqn:Hp.
  2:{ right; right. split; [reflexivity|].
      now rewrite initializeAuth_idle. }
  apply andb_prop in Hp as [Ht Hu]. unfold present in Ht, Hu.
  destruct (ls !! AUTH_TOKEN) as [t|] eqn:Et; [|discriminate].
  destruct (ls !! USER_DATA) as [ud|] eqn:Eu; [|discriminate].
  apply truthy_str_true in Ht, Hu.
  rewrite (initializeAuth_both now_ms _ t ud) by assumption.
  destruct (jwtDecode t) as [decoded|] eqn:Ed.
  2:{ right; left. exists t, ud. repeat split; try assumption; [now left|].
      unfold clear_session, removeItem, mount; simpl.
      now rewrite <- app_assoc. }
  destruct (expired decoded now_ms) eqn:Ee.
  { right; left. exists t, ud. repeat split; try assumption.
    - right. exists decoded. split; [exact Ed | now left].
    - unfold clear_session, removeItem, mount; simpl.
      now rewrite <- app_assoc. }
  destruct (JSON_parse ud) as [v|] eqn:Ep.
  - left. exists t, ud, decoded, v. now repeat split.
  - right; left. exists t, ud. repeat split; try assumption.
    + right. exists decoded. split; [exact Ed | now right].
    + unfold clear_session, removeItem, mount; simpl.
      now rewrite <- app_assoc.
Qed.

(** X5. At startup a protected route shows its content exactly when
    both persisted values are present, the token decodes and is not
    expired, and the stored projection parses to a truthy value. In
    every other case it redirects to the login page; it never stays on
    the loading spinner. Storage is then either untouched or without
    both values. *)
Theorem protected_content_at_startup (now_ms : Z) (ls : gmap string string)
    (path : string) (tr : list Effect) :
  let st := startup now_ms ls path tr in
  (ProtectedRoute st = Children <->
   exists t ud decoded v,
     ls !! AUTH_TOKEN = Some t /\ ls !! USER_DATA = Some ud
     /\ t <> "" /\ ud <> ""
     /\ jwtDecode t = Some decoded /\ expired decoded now_ms = false
     /\ JSON_parse ud = Some v /\ truthy v = true)
  /\ (ProtectedRoute st = Children \/ ProtectedRoute st = Navigate ROUTES_LOGIN)
  /\ (storage st = ls \/ storage st = delete USER_DATA (delete AUTH_TOKEN ls)).
Proof.
  cbv zeta.
  destruct (startup_cases now_ms ls path tr)
    as [(t & ud & d & v & Ht & Hu & Hnt & Hnu & Hd & He & Hp & ->)
       | [(t & ud & Ht & Hu & Hnt & Hnu & Hbad & ->) | [Hidle ->]]];
    unfold ProtectedRoute, isAuthenticated; simpl.
  - split; [|split; [|now left]].
    + split.
      * intros H. exists t, ud, d, v. repeat split; try assumption.
        now destruct (truthy v).
      * intros (t' & ud' & d' & v' & Ht' & Hu' & _ & _ & Hd' & _ & Hp' & Hv).
        assert (t' = t) as -> by congruence.
        assert (ud' = ud) as -> by congruence.
        assert (v' = v) as -> by congruence. now rewrite Hv.
    + destruct (truthy v); [now left | now right].
  - split; [|split; [now right | now right]].
    split; [discriminate|].
    intros (t' & ud' & d' & v' & Ht' & Hu' & _ & _ & Hd' & He' & Hp' & _).
    assert (t' = t) as -> by congruence.
    assert (ud' = ud) as -> by congruence.
    destruct Hbad as [Hn | (d0 & Hd0 & [Hx | Hx])]; congruence.
  - split; [|split; [now right | now left]].
    split; [discriminate|].
    intros (t' & ud' & d' & v' & Ht' & Hu' & Hnt & Hnu & _).
    rewrite Ht', Hu' in Hidle. simpl in Hidle.
    apply truthy_str_true in Hnt, Hnu. now rewrite Hnt, Hnu in Hidle.
Qed.

(** X6. Running [initializeAuth] again at the same clock changes
    nothing; and a session that can be restored at some time can be
    restored, to the same user, at any earlier time. *)
Theorem initializeAuth_settles (now_ms : Z) (ls : gmap string string)
    (path : string) (tr : list Effect) :
  initializeAuth now_ms (startup now_ms ls path tr)
    = startup now_ms ls path tr
  /\ (forall earlier,
        earlier <= now_ms ->
        isAuthenticated (startup now_ms ls path tr) = true ->
        startup earlier ls path tr = startup now_ms ls path tr).
Proof.
  destruct (startup_cases now_ms ls path tr)
    as [(t & ud & d & v & Ht & Hu & Hnt & Hnu & Hd & He & Hp & E)
       | [(t & ud & Ht & Hu & Hnt & Hnu & Hbad & E) | [Hidle E]]];
    rewrite E.
  - split.
    + rewrite (initializeAuth_both now_ms _ t ud) by assumption.
      now rewrite Hd, He, Hp.
    + intros earlier Hle _. unfold startup.
      rewrite (initializeAuth_both earlier _ t ud) by assumption.
      rewrite Hd, Hp.
      assert (expired d earlier = false) as ->; [|reflexivity].
      unfold expired in *. destruct (d_exp d) as [e|]; [|reflexivity].
      apply Z.ltb_ge in He. apply Z.ltb_ge. lia.
  - split; [|discriminate].
    rewrite initializeAuth_idle; [reflexivity|].
    simpl. now rewrite cleared_token.
  - split; [|discriminate].
    now rewrite initializeAuth_idle.
Qed.

(** ** What the operations leave alone *)

Lemma touched_frame (d : list Effect) (ls : gmap string string)
    (k : string) :
  Touched d -> k <> AUTH_TOKEN -> k <> USER_DATA ->
  List.fold_left apply_effect d ls !! k = ls !! k.
Proof.
  intros Hd H1 H2. destruct Hd as [d [|v w|]|v]; simpl; [reflexivity | | |].
  - now rewrite !lookup_insert_ne by congruence.
  - now rewrite !lookup_delete_ne by congruence.
  - now rewrite lookup_insert_ne by congruence.
Qed.

(** X7. No run of operations of the session manager changes any key
    of [localStorage] other than the two it owns. *)
Theorem other_keys_untouched (steps : list (Z * Op)) (st : State)
    (k : string) :
  pending st = None ->
  k <> AUTH_TOKEN -> k <> USER_DATA ->
  storage (run_all steps st) !! k = storage st !! k.
Proof.
  intros Hp H1 H2. revert st Hp.
  induction steps as [|[now_ms op] steps IH]; intros st Hp; [reflexivity|].
  simpl. destruct (run_delta now_ms op st Hp) as (d & Hd & _ & Hs & Hp' & _).
  rewrite (IH _ Hp'), Hs. now apply touched_frame.
Qed.

(** The body of an operation other than a login whose reply, if any, is
    not a 401. *)
Lemma perform_quiet (now_ms : Z) (op : Op) (st : State) :
  (forall reply, reply_of op = Some reply -> unauthorized reply = false) ->
  (forall email password reply, op <> Login email password reply) ->
  op <> Initialize ->
  let st' := perform now_ms op st in
  pending st' = pending st
  /\ (user st' = user st \/ user st' = JNull)
  /\ (storage st' = storage st
      \/ storage st' = delete USER_DATA (delete AUTH_TOKEN (storage st))).
Proof.
  intros Hq Hl Hi. destruct op; simpl.
  - congruence.
  - now contradiction (Hl email password reply).
  - specialize (Hq reply eq_refl). unfold unauthorized in Hq.
    unfold register.
    destruct (api_call_cases
                (api_post "/auth/register"
                   (registration name email password interests))
                reply (setLoading true (setError JNull st)))
      as [(p & Hs & ->) | [(err & Hs & Hn & ->) | (err & Hs & Hn & ->)]];
      rewrite Hs in Hq; try congruence; simpl; now repeat split; left.
  - repeat split; now right.
  - repeat split; now left.
  - specialize (Hq reply eq_refl). unfold unauthorized in Hq.
    destruct (api_call_cases config reply st)
      as [(p & Hs & ->) | [(err & Hs & Hn & ->) | (err & Hs & Hn & ->)]];
      rewrite Hs in Hq; try congruence; simpl; now repeat split; left.
Qed.

(** What an operation other than a login leaves behind. *)
Lemma run_without_login (now_ms : Z) (op : Op) (st : State) :
  pending st = None ->
  (forall email password reply, op <> Login email password reply) ->
  op <> Initialize ->
  let st' := run now_ms op st in
  (user st' = user st \/ user st' = JNull)
  /\ (storage st' = storage st
      \/ storage st' = delete USER_DATA (delete AUTH_TOKEN (storage st))).
Proof.
  intros Hp Hl Hi. cbv zeta.
  destruct (reply_of op) as [reply|] eqn:Hr.
  - destruct (unauthorized reply) eqn:Hu.
    + destruct (perform_unauthorized now_ms op reply st Hr Hu)
        as (Hs & Huser & Hpath & Hpend).
      assert (Htok : storage (perform now_ms op st) !! AUTH_TOKEN = None)
        by (rewrite Hs; apply cleared_token).
      unfold run.
      destruct (pending (perform now_ms op st)) as [href|] eqn:E.
      * rewrite (navigate_cleared _ _ href E Htok). simpl.
        split; [now right | now right].
      * rewrite navigate_none by exact E. split; [now left | now right].
    + destruct (perform_quiet now_ms op st) as (H1 & H2 & H3);
        try assumption.
      { intros r Hr'. congruence. }
      unfold run. rewrite navigate_none by congruence. now split.
  - destruct (perform_quiet now_ms op st) as (H1 & H2 & H3);
      try assumption.
    { intros r Hr'. congruence. }
    unfold run. rewrite navigate_none by congruence. now split.
Qed.

Lemma initializeAuth_keeps (now_ms : Z) (st : State) :
  pending (initializeAuth now_ms st) = pending st
  /\ (storage (initializeAuth now_ms st) = storage st
      \/ storage (initializeAuth now_ms st)
         = delete USER_DATA (delete AUTH_TOKEN (storage st))).
Proof.
  unfold initializeAuth, getItem.
  destruct (storage st !! AUTH_TOKEN) as [t|]; [|split; [reflexivity | now left]].
  destruct (storage st !! USER_DATA) as [ud|]; [|split; [reflexivity | now left]].
  destruct (truthy_str t && truthy_str ud); [|split; [reflexivity | now left]].
  destruct (jwtDecode t) as [decoded|]; [|split; [reflexivity | now right]].
  destruct (expired decoded now_ms); [split; [reflexivity | now right]|].
  destruct (JSON_parse ud);
    [split; [reflexivity | now left] | split; [reflexivity | now right]].
Qed.

(** X8. The session becomes Authenticated only through a login or
    through [initializeAuth]: no other operation turns an Anonymous
    state into an Authenticated one. And nothing but a login adds a
    value to [localStorage] or changes one: after any other operation,
    what is stored was stored before. *)
Theorem only_login_authenticates (now_ms : Z) (op : Op) (st : State) :
  pending st = None ->
  (forall email password reply, op <> Login email password reply) ->
  let st' := run now_ms op st in
  (op <> Initialize ->
   isAuthenticated st = false -> isAuthenticated st' = false)
  /\ (forall k v, storage st' !! k = Some v -> storage st !! k = Some v).
Proof.
  intros Hp Hl. cbv zeta. split.
  - intros Hi Ha.
    destruct (run_without_login now_ms op st Hp Hl Hi) as [[Hu | Hu] _];
      unfold isAuthenticated in *; now rewrite Hu.
  - assert (Hs : storage (run now_ms op st) = storage st
                 \/ storage (run now_ms op st)
                    = delete USER_DATA (delete AUTH_TOKEN (storage st))).
    { destruct op as [|email password reply| | | |].
      2:{ now contradiction (Hl email password reply). }
      2-5: apply (run_without_login now_ms _ st Hp Hl); discriminate.
      destruct (initializeAuth_keeps now_ms st) as [Hpend Hs].
      unfold run, perform. rewrite navigate_none by congruence. exact Hs. }
    intros k v Hk. destruct Hs as [-> | ->] in Hk; [exact Hk|].
    apply lookup_delete_Some in Hk as [_ Hk].
    now apply lookup_delete_Some in Hk as [_ Hk].
Qed.

(** ** Logout *)

(** X9. [handleLogout] of the layout is local: it sends no request,
    removes both persisted values and nothing else, leaves the state
    Anonymous with no error, and shows the login page; a protected route
    no longer shows its content, and every later startup is Anonymous. *)
Theorem handleLogout_is_local (st : State) :
  let st' := handleLogout st in
  requests (trace st') = requests (trace st)
  /\ storage st' !! AUTH_TOKEN = None
  /\ storage st' !! USER_DATA = None
  /\ (forall k, k <> AUTH_TOKEN -> k <> USER_DATA ->
        storage st' !! k = storage st !! k)
  /\ isAuthenticated st' = false
  /\ error st' = JNull
  /\ pathname st' = ROUTES_LOGIN
  /\ ProtectedRoute st' <> Children
  /\ (forall later path tr,
        isAuthenticated (startup later (storage st') path tr) = false).
Proof.
  cbv zeta. unfold handleLogout, router_navigate, logout. simpl.
  split; [now rewrite !requests_app, !app_nil_r|].
  split; [apply cleared_token|]. split; [apply cleared_user|].
  split; [intros k H1 H2; now rewrite !lookup_delete_ne by congruence|].
  split; [reflexivity|]. split; [reflexivity|]. split; [reflexivity|].
  split.
  - unfold ProtectedRoute, isAuthenticated; simpl.
    destruct (loading st); discriminate.
  - intros later path tr. unfold startup.
    rewrite initializeAuth_idle; [reflexivity|].
    simpl. now rewrite cleared_token.
Qed.

(** X10. From a storage that holds neither value, a login followed by
    a logout leaves [localStorage] exactly as it was, whatever the reply
    to the login was, and the state Anonymous. *)
Theorem logout_undoes_login (email password : string) (reply : Reply)
    (st : State) :
  pending st = None ->
  storage st !! AUTH_TOKEN = None ->
  storage st !! USER_DATA = None ->
  let st' := logout (fst (Client.login email password reply st)) in
  storage st' = storage st /\ isAuthenticated st' = false.
Proof.
  intros Hp Ht Hu. cbv zeta. split; [|reflexivity].
  destruct (login_delta email password reply st Hp)
    as (d & Hd & [_ Hs _] & _).
  unfold logout; simpl. rewrite Hs.
  apply map_eq. intros k.
  destruct (decide (k = USER_DATA)) as [->|Hku].
  { now rewrite lookup_delete_eq, Hu. }
  rewrite lookup_delete_ne by congruence.
  destruct (decide (k = AUTH_TOKEN)) as [->|Hkt].
  { now rewrite lookup_delete_eq, Ht. }
  rewrite lookup_delete_ne by congruence.
  now apply touched_frame.
Qed.

(** ** The request interceptor *)

(** X11. The request interceptor changes nothing of a request but its
    [x-auth-token] header: method, address, body and every other header
    stay. Without a stored, non-empty token the request is returned as
    it came; with one, the header is set to it, replacing any value the
    request had; and intercepting twice is intercepting once. *)
Theorem request_interceptor_frame (ls : gmap string string)
    (config : Config) :
  let config' := request_interceptor ls config in
  method config' = method config
  /\ url config' = url config
  /\ data config' = data config
  /\ (forall k, k <> X_AUTH_TOKEN ->
        headers config' !! k = headers config !! k)
  /\ (present (ls !! AUTH_TOKEN) = false -> config' = config)
  /\ (present (ls !! AUTH_TOKEN) = true ->
      headers config' !! X_AUTH_TOKEN = ls !! AUTH_TOKEN)
  /\ request_interceptor ls config' = config'.
Proof.
  cbv zeta. unfold request_interceptor, present.
  destruct (ls !! AUTH_TOKEN) as [t|]; [|now repeat split].
  destruct (truthy_str t); [|now repeat split]. simpl.
  split; [reflexivity|]. split; [reflexivity|]. split; [reflexivity|].
  split; [intros k Hk; now rewrite lookup_insert_ne by congruence|].
  split; [discriminate|].
  split; [intros _; apply lookup_insert_eq|].
  now rewrite insert_insert_eq.
Qed.

End Session.

End SessionFacts.

(* ===================================================================== *)
(** * The form pages *)
(* ===================================================================== *)

Module PagesFacts.
Import JsString Client Helpers Pages Vocabulary.
Import JsStringFacts TrimFacts HelpersFacts FormatFacts ClientFacts.

(** ** Field validation *)

Lemma email_errors_none (email : string) :
  email_errors email = None <-> isValidEmail (JStr email) = true.
Proof.
  unfold email_errors. destruct email as [|c s]; simpl.
  - split; discriminate.
  - destruct (isValidEmail (JStr (String c s))); simpl;
      split; congruence.
Qed.

Lemma password_errors_none (password : string) :
  password_errors password = None
  <-> (6 <= String.length password <= 50)%nat.
Proof.
  unfold password_errors.
  destruct (validatePassword_valid (JStr password)) as [H1 H2].
  destruct password as [|c s].
  - simpl. split; [discriminate | lia].
  - cbv zeta. change (truthy_str (String c s)) with true. cbv iota beta.
    change (negb true) with false. cbv iota.
    destruct (isValid (validatePassword (JStr (String c s)))) eqn:E; simpl.
    + split; [intros _|reflexivity].
      destruct (H1 eq_refl) as (s' & Es & Hl). now inversion Es; subst.
    + split; [discriminate|]. intros Hl.
      assert (false = true); [|discriminate].
      apply H2. now exists (String c s).
Qed.

Lemma name_errors_none (name : string) :
  name_errors name = None
  <-> (2 <= String.length (trim name) <= 50)%nat.
Proof.
  unfold name_errors.
  destruct (validateName_valid (JStr name)) as [H1 H2].
  destruct name as [|c s].
  - simpl. split; [discriminate | lia].
  - cbv zeta. change (truthy_str (String c s)) with true.
    change (negb true) with false. cbv iota.
    destruct (isValid (validateName (JStr (String c s)))) eqn:E; simpl.
    + split; [intros _|reflexivity].
      destruct (H1 eq_refl) as (s' & Es & Hl). now inversion Es; subst.
    + split; [discriminate|]. intros Hl.
      assert (false = true); [|discriminate].
      apply H2. now exists (String c s).
Qed.

Lemma no_errors_true (errors : Errors) :
  no_errors errors = true
  <-> errors_name errors = None /\ errors_email errors = None
      /\ errors_password errors = None.
Proof.
  unfold no_errors.
  destruct (errors_name errors), (errors_email errors),
    (errors_password errors); split; try discriminate;
    try (intros (? & ? & ?); discriminate); auto.
Qed.

Lemma Login_valid (formData : LoginForm) :
  no_errors (Login_validateForm formData) = true
  <-> isValidEmail (JStr (login_email formData)) = true
      /\ (6 <= String.length (login_password formData) <= 50)%nat.
Proof.
  rewrite no_errors_true. simpl.
  rewrite email_errors_none, password_errors_none. tauto.
Qed.

Lemma Register_valid (formData : RegisterForm) :
  no_errors (Register_validateForm formData) = true
  <-> (2 <= String.length (trim (form_name formData)) <= 50)%nat
      /\ isValidEmail (JStr (form_email formData)) = true
      /\ (6 <= String.length (form_password formData) <= 50)%nat.
Proof.
  rewrite no_errors_true. simpl.
  rewrite name_errors_none, email_errors_none, password_errors_none. tauto.
Qed.

(** ** One call through the [api] instance *)

Lemma api_call_frame (config : Config) (reply : Reply) (st : State) :
  let st' := fst (api_call config reply st) in
  requests (trace st')
  = (requests (trace st) ++ [request_interceptor (storage st) config])%list
  /\ user st' = user st
  /\ loading st' = loading st
  /\ error st' = error st
  /\ pathname st' = pathname st.
Proof.
  cbv zeta. unfold api_call.
  destruct (settle reply) as [err|payload]; simpl.
  - unfold response_rejected. destruct (is_unauthorized err); simpl.
    + destruct (negb (pathname st =? LOGIN_PATH)%string); simpl;
        rewrite !requests_app; simpl; rewrite ?app_nil_r; auto.
    + rewrite requests_app. auto.
  - rewrite requests_app. auto.
Qed.

Section Pages.
Context {R : Runtime}.

Lemma login_frame (email password : string) (reply : Reply) (st : State) :
  let st' := fst (Client.login email password reply st) in
  requests (trace st')
  = (requests (trace st)
     ++ [request_interceptor (storage st)
           (api_post "/auth/login" (credentials email password))])%list
  /\ pathname st' = pathname st
  /\ loading st' = false.
Proof.
  cbv zeta. unfold Client.login.
  pose proof (api_call_frame
                (api_post "/auth/login" (credentials email password)) reply
                (setLoading true (setError JNull st))) as H.
  cbv zeta in H.
  destruct (api_call _ reply (setLoading true (setError JNull st)))
    as [st1 [err|response]]; simpl in H;
    destruct H as (Hr & _ & _ & _ & Hp).
  - simpl. auto.
  - destruct (js_get response "token") as [token|]; [|simpl; auto].
    unfold setItem.
    destruct (quota_exceeded (storage st1) AUTH_TOKEN (ToString token));
      [simpl; auto|].
    destruct (js_get response "user") as [u|]; cbn [storage].
    2:{ simpl. rewrite requests_app. simpl. rewrite app_nil_r. auto. }
    destruct (quota_exceeded _ USER_DATA (stringified u)); simpl;
      rewrite !requests_app; simpl; rewrite ?app_nil_r; auto.
Qed.

Lemma register_frame (name email password : string)
    (interests : list string) (reply : Reply) (st : State) :
  let st' := fst (Client.register name email password interests reply st) in
  requests (trace st')
  = (requests (trace st)
     ++ [request_interceptor (storage st)
           (api_post "/auth/register"
              (registration name email password interests))])%list
  /\ user st' = user st
  /\ pathname st' = pathname st
  /\ loading st' = false.
Proof.
  cbv zeta. unfold Client.register.
  pose proof (api_call_frame
                (api_post "/auth/register"
                   (registration name email password interests)) reply
                (setLoading true (setError JNull st))) as H.
  cbv zeta in H.
  destruct (api_call _ reply (setLoading true (setError JNull st)))
    as [st1 [err|response]]; simpl in H;
    destruct H as (Hr & Hu & _ & _ & Hp); simpl; auto.
Qed.

(** What [login] leaves for each way the exchange can end. *)
Lemma login_cases (email password : string) (reply : Reply) (st : State) :
  let out := Client.login email password reply st in
  let failure err :=
    snd out = mkResult false (formatErrorMessage err)
    /\ user (fst out) = user st
    /\ error (fst out) = formatErrorMessage err in
  (forall payload token u,
      settle reply = inr payload ->
      js_get payload "token" = Some token ->
      js_get payload "user" = Some u ->
      let v := ToString token in
      let w := stringified u in
      (quota_exceeded (storage st) AUTH_TOKEN v = false ->
       quota_exceeded (<[AUTH_TOKEN := v]> (storage st)) USER_DATA w
         = false ->
       snd out = mkResult true JUndefined
       /\ user (fst out) = u
       /\ error (fst out) = JNull
       /\ storage (fst out)
          = <[USER_DATA := w]> (<[AUTH_TOKEN := v]> (storage st)))
      /\ (quota_exceeded (storage st) AUTH_TOKEN v = true ->
          failure (quota_error AUTH_TOKEN)
          /\ storage (fst out) = storage st)
      /\ (quota_exceeded (storage st) AUTH_TOKEN v = false ->
          quota_exceeded (<[AUTH_TOKEN := v]> (storage st)) USER_DATA w
            = true ->
          failure (quota_error USER_DATA)
          /\ storage (fst out) = <[AUTH_TOKEN := v]> (storage st)))
  /\ (forall payload,
        settle reply = inr payload ->
        js_get payload "token" = None ->
        failure (type_error payload "token")
        /\ storage (fst out) = storage st)
  /\ (forall err, settle reply = inl err -> failure err).
Proof.
  cbv zeta. unfold Client.login, api_call.
  split; [|split].
  - intros payload token u -> Ht Hu. cbn [fst snd]. rewrite Ht.
    unfold setItem. cbn [storage send setLoading setError].
    split; [|split].
    + intros Q1 Q2. rewrite Q1. cbn iota beta. rewrite Hu.
      cbn [storage]. rewrite Q2. simpl. auto.
    + intros Q1. rewrite Q1. simpl. auto.
    + intros Q1 Q2. rewrite Q1. cbn iota beta. rewrite Hu.
      cbn [storage]. rewrite Q2. simpl. auto.
  - intros payload -> Ht. simpl. rewrite Ht. simpl. auto.
  - intros err ->. simpl. unfold response_rejected.
    destruct (is_unauthorized err); [|simpl; auto].
    simpl. destruct (negb (pathname st =? LOGIN_PATH)%string); simpl; auto.
Qed.

(** ** The login page *)

(** X12. The login page sends a request exactly when the email, after
    trimming, matches the pattern and the password has 6 to 50
    characters. It then sends one request, to [/auth/login], with the
    email and the password as they were typed (the email is validated
    trimmed but sent untrimmed). Otherwise nothing is sent, the state
    of the session manager is untouched and a field error is shown. *)
Theorem Login_sends_iff_valid (formData : LoginForm) (reply : Reply)
    (st : State) :
  let out := Login_handleSubmit formData reply st in
  let valid :=
    isValidEmail (JStr (trim (login_email formData))) = true
    /\ (6 <= String.length (login_password formData) <= 50)%nat in
  (valid ->
     requests (trace (fst out))
     = (requests (trace st)
        ++ [request_interceptor (storage st)
              (api_post "/auth/login"
                 (credentials (login_email formData)
                    (login_password formData)))])%list
     /\ validationErrors (snd out) = mkErrors None None None)
  /\ (~ valid ->
      fst out = st
      /\ no_errors (validationErrors (snd out)) = false
      /\ page_error (snd out) = JStr "").
Proof.
  cbv zeta. rewrite !isValidEmail_string, trim_idempotent,
    <- isValidEmail_string.
  unfold Login_handleSubmit.
  pose proof (Login_valid formData) as Hv.
  destruct (no_errors (Login_validateForm formData)) eqn:E.
  - split; [intros _|intros Hn; contradiction Hn; now apply Hv].
    apply no_errors_true in E as (_ & He & Hpw). simpl in He, Hpw.
    pose proof (login_frame (login_email formData)
                  (login_password formData) reply st) as H.
    cbv zeta in H. destruct H as (Hr & _ & _).
    destruct (Client.login _ _ reply st) as [st1 result]. simpl in Hr.
    unfold Login_validateForm. rewrite He, Hpw.
    destruct (success result); simpl; auto.
  - split; [intros H; apply Hv in H; discriminate|].
    intros _. simpl. auto.
Qed.

(** X13. What the login page shows after a valid form was sent. A
    reply in the 200 range whose body has a token and a user, in a
    browser that takes both writes, ends at [/schemes] with both values
    stored; the protected route then shows its content when that user
    is truthy, and sends back to the login page when it is not. Every
    other outcome leaves the location and the user as they were and
    shows the text [formatErrorMessage] gives for the failure, which is
    never empty, so that the fallback text of the page is never
    reached: the rejection of the reply; the engine's TypeError when
    the body is [null] or [undefined]; the browser's refusal of the
    first write, with storage as it was; and its refusal of the second
    write, with the token stored alone. *)
Theorem Login_outcomes (formData : LoginForm) (reply : Reply) (st : State) :
  no_errors (Login_validateForm formData) = true ->
  let out := Login_handleSubmit formData reply st in
  (forall payload token u,
      settle reply = inr payload ->
      js_get payload "token" = Some token ->
      js_get payload "user" = Some u ->
      let v := ToString token in
      let w := stringified u in
      (quota_exceeded (storage st) AUTH_TOKEN v = false ->
       quota_exceeded (<[AUTH_TOKEN := v]> (storage st)) USER_DATA w
         = false ->
       pathname (fst out) = ROUTES_SCHEMES
       /\ user (fst out) = u
       /\ page_error (snd out) = JStr ""
       /\ storage (fst out) !! AUTH_TOKEN = Some v
       /\ storage (fst out) !! USER_DATA = Some w
       /\ ProtectedRoute (fst out)
          = if truthy u then Children else Navigate ROUTES_LOGIN)
      /\ (quota_exceeded (storage st) AUTH_TOKEN v = true ->
          Login_failed st out (quota_error AUTH_TOKEN)
          /\ storage (fst out) = storage st)
      /\ (quota_exceeded (storage st) AUTH_TOKEN v = false ->
          quota_exceeded (<[AUTH_TOKEN := v]> (storage st)) USER_DATA w
            = true ->
          Login_failed st out (quota_error USER_DATA)
          /\ storage (fst out) = <[AUTH_TOKEN := v]> (storage st)))
  /\ (forall payload,
        settle reply = inr payload ->
        js_get payload "token" = None ->
        Login_failed st out (type_error payload "token")
        /\ storage (fst out) = storage st)
  /\ (forall err, settle reply = inl err -> Login_failed st out err)
  /\ (forall err,
        Login_failed st out err -> truthy (page_error (snd out)) = true).
Proof.
  intros Hv. cbv zeta. unfold Login_handleSubmit. rewrite Hv. simpl.
  pose proof (login_cases (login_email formData) (login_password formData)
                reply st) as Hc.
  pose proof (login_frame (login_email formData) (login_password formData)
                reply st) as Hf.
  cbv zeta in Hc, Hf. destruct Hc as (Hok & Hnull & Herr).
  destruct Hf as (_ & Hpath & Hload).
  destruct (Client.login _ _ reply st) as [st1 result].
  cbn [fst snd] in Hok, Hnull, Herr, Hpath, Hload.
  assert (forall err,
             result = mkResult false (formatErrorMessage err)
             /\ user st1 = user st
             /\ error st1 = formatErrorMessage err ->
             Login_failed st
               (if success result
                then (router_navigate ROUTES_SCHEMES st1,
                      mkPage (JStr "") ""
                        (Login_validateForm formData) None)
                else (st1,
                      mkPage (js_or (Client.message result)
                                (JStr "Login failed. Please try again."))
                        "" (Login_validateForm formData) None))
               err
             /\ fst (if success result
                     then (router_navigate ROUTES_SCHEMES st1,
                           mkPage (JStr "") ""
                             (Login_validateForm formData) None)
                     else (st1,
                           mkPage (js_or (Client.message result)
                                     (JStr "Login failed. Please try again."))
                             "" (Login_validateForm formData) None))
                = st1) as Hfail.
  { intros err (-> & Hus & He). simpl.
    pose proof (formatErrorMessage_truthy err) as Ht.
    unfold Login_failed, js_or. simpl. rewrite Ht. auto 10. }
  split; [|split; [|split]].
  - intros payload token u Hs Ht Hu.
    destruct (Hok payload token u Hs Ht Hu) as (H1 & H2 & H3).
    split; [|split].
    + intros Q1 Q2. destruct (H1 Q1 Q2) as (-> & Hus & _ & Hst).
      simpl. rewrite Hst.
      split; [reflexivity|]. split; [exact Hus|]. split; [reflexivity|].
      split.
      { rewrite lookup_insert_ne by (intros E; inversion E).
        apply lookup_insert_eq. }
      split; [apply lookup_insert_eq|].
      unfold ProtectedRoute, router_navigate, isAuthenticated; simpl.
      rewrite Hload, Hus. now destruct (truthy u).
    + intros Q1. destruct (H2 Q1) as [Hr Hst].
      destruct (Hfail (quota_error AUTH_TOKEN) Hr) as [Hl ->]. now split.
    + intros Q1 Q2. destruct (H3 Q1 Q2) as [Hr Hst].
      destruct (Hfail (quota_error USER_DATA) Hr) as [Hl ->]. now split.
  - intros payload Hs Ht. destruct (Hnull payload Hs Ht) as [Hr Hst].
    destruct (Hfail (type_error payload "token") Hr) as [Hl ->].
    now split.
  - intros err Hs. now destruct (Hfail err (Herr err Hs)).
  - intros err (_ & _ & _ & _ & ->). apply formatErrorMessage_truthy.
Qed.

(** ** The registration page *)

(** X14. Whatever is typed into the registration page, a request it
    sends to [/auth/register] carries a name that is trimmed and has 2
    to 50 characters, an email that is trimmed and matches the pattern,
    a password of 6 to 50 characters as typed, and interests that are
    non-empty, comma-free and trimmed. It sends at most one request,
    and no outcome of it signs the visitor in. *)
Theorem Register_sends_clean_payload (formData : RegisterForm)
    (reply : Reply) (st : State) :
  let out := Register_handleSubmit formData reply st in
  user (fst out) = user st
  /\ (fst out = st
      \/ exists name email interests,
           requests (trace (fst out))
           = (requests (trace st)
              ++ [request_interceptor (storage st)
                    (api_post "/auth/register"
                       (registration name email (form_password formData)
                          interests))])%list
           /\ trim name = name
           /\ (2 <= String.length name <= 50)%nat
           /\ trim email = email
           /\ isValidEmail (JStr email) = true
           /\ (6 <= String.length (form_password formData) <= 50)%nat
           /\ Forall clean interests).
Proof.
  cbv zeta. unfold Register_handleSubmit.
  pose proof (Register_valid formData) as Hv.
  destruct (no_errors (Register_validateForm formData)) eqn:E;
    [|simpl; auto].
  destruct Hv as [Hv _]. destruct (Hv eq_refl) as (Hn & He & Hp).
  pose proof (register_frame (trim (form_name formData))
                (trim (form_email formData)) (form_password formData)
                (parseInterests (JStr (form_interests formData)))
                reply st) as H.
  cbv zeta in H. destruct H as (Hr & Hu & _ & _).
  destruct (Client.register _ _ _ _ reply st) as [st1 result].
  simpl in Hr, Hu.
  assert (user st1 = user st
          /\ (st1 = st
              \/ exists name email interests,
                   requests (trace st1)
                   = (requests (trace st)
                      ++ [request_interceptor (storage st)
                            (api_post "/auth/register"
                               (registration name email
                                  (form_password formData)
                                  interests))])%list
                   /\ trim name = name
                   /\ (2 <= String.length name <= 50)%nat
                   /\ trim email = email
                   /\ isValidEmail (JStr email) = true
                   /\ (6 <= String.length (form_password formData) <= 50)%nat
                   /\ Forall clean interests)) as Hgoal.
  { split; [exact Hu|]. right.
    exists (trim (form_name formData)), (trim (form_email formData)),
      (parseInterests (JStr (form_interests formData))).
    split; [exact Hr|]. split; [apply trim_idempotent|].
    split; [exact Hn|]. split; [apply trim_idempotent|].
    split.
    { rewrite isValidEmail_string, trim_idempotent,
        <- isValidEmail_string. exact He. }
    split; [exact Hp|].
    apply (parseInterests_clean (JStr (form_interests formData))). }
  destruct (success result); exact Hgoal.
Qed.

End Pages.

End PagesFacts.

(* ===================================================================== *)
(** * Pages, wire and handlers together *)
(* ===================================================================== *)

Module EndToEndFacts.
Import JsString Chat Auth Client Helpers Wire Pages Vocabulary.
Import JsStringFacts TrimFacts HelpersFacts FormatFacts ChatFacts AuthFacts.
Import ClientFacts PagesFacts.

(** ** The wire *)

Lemma request_interceptor_data (ls : gmap string string) (config : Config) :
  data (request_interceptor ls config) = data config.
Proof.
  unfold request_interceptor.
  destruct (ls !! AUTH_TOKEN) as [t|]; [|reflexivity].
  now destruct (truthy_str t).
Qed.

Lemma to_json_strings (l : list string) :
  to_json (JArr (List.map JStr l)) = JArr (List.map JStr l).
Proof.
  simpl. f_equal. induction l as [|x l IH]; [reflexivity|].
  simpl. now rewrite IH.
Qed.

Lemma as_strings_strings (l : list string) :
  as_strings (List.map JStr l) = Some l.
Proof. induction l as [|x l IH]; [reflexivity|]. simpl. now rewrite IH. Qed.

Lemma register_body_arrives (ls : gmap string string)
    (name email password : string) (interests : list string) :
  register_body
    (request_body
       (request_interceptor ls
          (api_post "/auth/register"
             (registration name email password interests))))
  = Some (mkRegisterBody (Some name) (Some email) (Some password)
            interests).
Proof.
  unfold request_body. rewrite request_interceptor_data.
  unfold api_post, registration. cbn [data].
  pose proof (to_json_strings interests) as H.
  cbn [to_json] in H |- *. injection H as H. rewrite H.
  unfold register_body. cbn. now rewrite as_strings_strings.
Qed.

Lemma login_body_arrives (ls : gmap string string) (email password : string) :
  login_body
    (request_body
       (request_interceptor ls
          (api_post "/auth/login" (credentials email password))))
  = Some (mkLoginBody (Some email) (Some password)).
Proof.
  unfold request_body. rewrite request_interceptor_data. reflexivity.
Qed.

Lemma settle_error (code : Z) (payload : jsval) :
  (code = 400 \/ code = 500)%Z ->
  settle (HttpReply code payload) = inl (HttpError code payload).
Proof. now intros [-> | ->]. Qed.

Lemma format_msg (code : Z) (text : string) :
  formatErrorMessage (HttpError code (msg text))
  = if truthy_str text then JStr text else JStr "Server error occurred".
Proof. simpl. unfold js_or. simpl. now destruct text. Qed.

(** ** Registration *)

Section Registration.
Context {B : Bcrypt} {M : UserSchema}.

(** A registration is answered with 200, 400 or 500, and every answer
    that is not a 200 carries its text in [msg]. *)
Lemma register_answers (salt : string) (db : Db) (b : RegisterBody) :
  (fst (Auth.register salt db b) = res_json (msg user_registered))
  \/ (exists code text,
         (code = 400 \/ code = 500)%Z
         /\ fst (Auth.register salt db b) = res_status_json code (msg text)
         /\ snd (Auth.register salt db b) = db).
Proof.
  unfold Auth.register.
  destruct (findOne (r_email b) (users db)).
  { right. exists 400%Z, user_already_exists. auto. }
  destruct (r_password b) as [password|].
  2:{ right. exists 500%Z, illegal_arguments. auto. }
  destruct (User_create _ db) as [err|db'].
  - right. exists 500%Z, err. auto.
  - now left.
Qed.

(** X15. The registration page and the [register] handler together,
    for a form that passes validation. The handler receives the trimmed
    name and email, the password as typed and the parsed interests.
    The page announces success and schedules the login page exactly
    when the handler created the record, which then carries those
    values; otherwise the store is unchanged and the page shows the
    [msg] of the answer, for an email that is already registered the
    text "User already exists". The visitor is signed in by neither. *)
Theorem Register_page_to_server (salt : string) (db : Db)
    (formData : RegisterForm) (st : State) :
  no_errors (Register_validateForm formData) = true ->
  let name := trim (form_name formData) in
  let email := trim (form_email formData) in
  let password := form_password formData in
  let interests := parseInterests (JStr (form_interests formData)) in
  let sent :=
    request_interceptor (storage st)
      (api_post "/auth/register"
         (registration name email password interests)) in
  let b := mkRegisterBody (Some name) (Some email) (Some password)
             interests in
  let answer := Auth.register salt db b in
  let out := Register_handleSubmit formData (deliver (fst answer)) st in
  register_body (request_body sent) = Some b
  /\ (status (fst answer) = 200 ->
      page_success (snd out) = REGISTER_SUCCESS
      /\ scheduled (snd out) = Some ROUTES_LOGIN
      /\ page_error (snd out) = JStr ""
      /\ findOne (Some email) (users (snd answer))
         = Some (mkUser (next_id db) (Some name) (Some email)
                   (bcrypt_hash password salt) interests))
  /\ (status (fst answer) <> 200 ->
      page_success (snd out) = ""
      /\ scheduled (snd out) = None
      /\ snd answer = db
      /\ exists text,
           body (fst answer) = msg text
           /\ page_error (snd out)
              = if truthy_str text then JStr text
                else JStr "Server error occurred")
  /\ (forall u,
        findOne (Some email) (users db) = Some u ->
        page_error (snd out) = JStr user_already_exists)
  /\ user (fst out) = user st.
Proof.
  intros Hv. cbv zeta.
  split; [apply register_body_arrives|].
  set (b := mkRegisterBody _ _ _ _).
  unfold Register_handleSubmit. rewrite Hv. cbn [negb].
  unfold Client.register, api_call, deliver.
  destruct (register_answers salt db b) as [Hok | (code & text & Hc & Ha & Hdb)].
  - pose proof (register_registers salt db b
                  (trim (form_email formData)) (form_password formData)
                  eq_refl eq_refl) as Hr.
    rewrite Hok in *. simpl.
    split.
    { intros _. split; [reflexivity|]. split; [reflexivity|].
      split; [reflexivity|]. destruct (Hr eq_refl) as [Hf _]. exact Hf. }
    split; [intros H; now contradiction H|].
    split; [|reflexivity].
    intros u Hu.
    rewrite (register_duplicate salt db b u Hu) in Hok. discriminate.
  - rewrite Ha. simpl status. simpl body.
    change (to_json (msg text)) with (msg text).
    rewrite (settle_error code (msg text) Hc).
    unfold failed. rewrite format_msg.
    assert (truthy (if truthy_str text then JStr text
                    else JStr "Server error occurred") = true) as Ht.
    { now destruct text. }
    cbn [fst snd success Client.message]. unfold js_or. rewrite Ht.
    cbn [page_success scheduled page_error].
    split; [intros ->; destruct Hc; discriminate|].
    split.
    { intros _. split; [reflexivity|]. split; [reflexivity|].
      split; [exact Hdb|]. exists text. now split. }
    split.
    { intros u Hu. rewrite (register_duplicate salt db b u Hu) in Ha.
      injection Ha as _ Ht'. now subst text. }
    unfold response_rejected.
    destruct (is_unauthorized (HttpError code (msg text))); [|reflexivity].
    cbn. now destruct (negb (pathname st =? LOGIN_PATH)%string).
Qed.

End Registration.

(** ** Login *)

Section Login.
Context {B : Bcrypt} {J : Jwt} {R : Runtime}.

(** X16. Login end to end, on a server that has a signing key and in
    a browser that takes both writes. For a registered user the page's
    request reaches the [login] handler as sent, and its answer leaves
    the client Authenticated with the handler's token and projection
    stored. Provided the client's decoder reads the expiry the server
    signed, tokens are not empty, and the stored projection parses
    back, every later start of the client restores that session up to
    and including seven days (in milliseconds) after the server's
    clock at login, and clears both stored values after that. *)
Theorem login_session_lasts_seven_days (secret : string) (now : Z)
    (db : Db) (e s : string) (u : Auth.User) (st : State) (ud : string) :
  bcrypt_verifies B ->
  registered db e s u ->
  secret <> "" ->
  (forall c k, jwtDecode (jwt_encode c k) = Some (mkDecoded (Some (c_exp c)))) ->
  (forall c k, jwt_encode c k <> "") ->
  (forall t, ToString (JStr t) = t) ->
  JSON_stringify (to_json (projection u)) = Some ud ->
  ud <> "" ->
  JSON_parse ud = Some (to_json (projection u)) ->
  let token := jwt_encode (mkClaims (u_id u) now (now + seven_days)) secret in
  quota_exceeded (storage st) AUTH_TOKEN token = false ->
  quota_exceeded (<[AUTH_TOKEN := token]> (storage st)) USER_DATA ud
    = false ->
  let sent :=
    request_interceptor (storage st)
      (api_post "/auth/login" (credentials e s)) in
  let b := mkLoginBody (Some e) (Some s) in
  let answer := Auth.login secret now db b in
  let st1 := fst (Client.login e s (deliver answer) st) in
  login_body (request_body sent) = Some b
  /\ status answer = 200
  /\ isAuthenticated st1 = true
  /\ user st1 = to_json (projection u)
  /\ storage st1 !! AUTH_TOKEN = Some token
  /\ storage st1 !! USER_DATA = Some ud
  /\ (forall later path tr,
        let st2 := startup later (storage st1) path tr in
        (later <= (now + seven_days) * 1000 ->
         isAuthenticated st2 = true
         /\ user st2 = user st1
         /\ storage st2 = storage st1)
        /\ ((now + seven_days) * 1000 < later ->
            isAuthenticated st2 = false
            /\ storage st2 !! AUTH_TOKEN = None
            /\ storage st2 !! USER_DATA = None)).
Proof.
  intros Hb Hreg Hk Hdec Hne Hts Hstr Hud Hparse t Q1 Q2. cbv zeta.
  split; [apply login_body_arrives|].
  rewrite (login_registered secret now db e s u Hb Hreg Hk). fold t.
  assert (JObj [("id", JNum (Z.of_N (u_id u)));
                ("name", js_of_opt (u_name u)); ("email", JStr e)]
          = projection u) as ->.
  { destruct Hreg as [Hf _]. apply findOne_email in Hf.
    unfold projection. now rewrite Hf. }
  split; [reflexivity|].
  assert (exists fs, to_json (projection u) = JObj fs) as (fs & Hfs).
  { unfold projection. simpl. eauto. }
  assert (to_json (JObj [("token", JStr t); ("user", projection u)])
          = JObj [("token", JStr t); ("user", to_json (projection u))])
    as Hbody.
  { cbn [to_json]. fold (to_json (projection u)). now rewrite Hfs. }
  pose proof (login_cases e s
                (deliver (res_json (JObj [("token", JStr t);
                                          ("user", projection u)]))) st)
    as Hc.
  cbv zeta in Hc. destruct Hc as (Hok & _ & _).
  unfold deliver in *. cbn [status body res_json] in *. rewrite Hbody in *.
  destruct (Hok _ (JStr t) (to_json (projection u)) eq_refl eq_refl eq_refl)
    as (Hok' & _ & _).
  assert (stringified (to_json (projection u)) = ud) as Hsd.
  { unfold stringified. now rewrite Hstr. }
  rewrite Hts, Hsd in Hok'.
  destruct (Hok' Q1 Q2) as (_ & Hus & _ & Hst).
  set (st1 := fst (Client.login e s _ st)) in *.
  assert (storage st1 !! AUTH_TOKEN = Some t) as Ht.
  { rewrite Hst, lookup_insert_ne by (intros E; inversion E).
    apply lookup_insert_eq. }
  assert (storage st1 !! USER_DATA = Some ud) as Hu.
  { rewrite Hst. apply lookup_insert_eq. }
  clear Hok Hok'. clearbody st1.
  split; [unfold isAuthenticated; now rewrite Hus, Hfs|].
  split; [exact Hus|]. split; [exact Ht|]. split; [exact Hu|].
  assert (jwtDecode t = Some (mkDecoded (Some (now + seven_days)))) as Hd.
  { unfold t. now rewrite Hdec. }
  intros later path tr. cbv zeta. unfold startup.
  rewrite (initializeAuth_both later _ t ud) by
    (try assumption; apply Hne).
  rewrite Hd. unfold expired. cbn [d_exp].
  split.
  - intros Hl. apply Z.ltb_ge in Hl. rewrite Hl, Hparse.
    unfold isAuthenticated, setLoading, setUser, mount. cbn [user storage].
    rewrite Hus, Hfs. auto.
  - intros Hl. apply Z.ltb_lt in Hl. rewrite Hl.
    unfold isAuthenticated, setLoading, clear_session, setUser, removeItem,
      mount. cbn [user storage].
    split; [reflexivity|]. split; [apply cleared_token|apply cleared_user].
Qed.

End Login.

(** ** Chat *)

Section Chatting.
Context {R : Runtime}.


End Chatting.

End EndToEndFacts.

(* ===================================================================== *)
(** * The store of users *)
(* ===================================================================== *)

Module StoreFacts.
Import Auth Vocabulary AuthFacts.

Lemma findOne_None_fresh (e : option string) (us : list User) :
  findOne e us = None -> ~ elem_of e (List.map u_email us).
Proof.
  intros H Hin. apply list_elem_of_In, in_map_iff in Hin as (u & Hu & Hin).
  pose proof (find_none _ _ H u Hin) as Hf. simpl in Hf.
  apply bool_decide_eq_false in Hf. contradiction.
Qed.

Lemma count_email_fresh (e : option string) (us : list User) :
  ~ elem_of e (List.map u_email us) -> count_email e us = 0%nat.
Proof.
  unfold count_email. induction us as [|u us IH]; intros H; [reflexivity|].
  simpl in *. rewrite not_elem_of_cons in H. destruct H as [Hne H].
  rewrite bool_decide_eq_false_2 by congruence. now apply IH.
Qed.

Lemma count_email_NoDup (e : option string) (us : list User) :
  NoDup (List.map u_email us) -> (count_email e us <= 1)%nat.
Proof.
  induction us as [|u us IH]; intros H; [unfold count_email; simpl; lia|].
  simpl in H. apply NoDup_cons in H as [Hu H].
  unfold count_email in *. simpl.
  destruct (bool_decide (u_email u = e)) eqn:E.
  - apply bool_decide_eq_true in E. subst e.
    pose proof (count_email_fresh _ us Hu) as H0. unfold count_email in H0.
    simpl. rewrite H0. lia.
  - now apply IH.
Qed.

Lemma consistent_empty : Consistent empty_db.
Proof.
  constructor; simpl; [apply NoDup_nil_2 | apply NoDup_nil_2 | apply Forall_nil; exact I].
Qed.

Section Store.
Context {B : Bcrypt} {M : UserSchema}.

(** One registration appends at most one record and uses up one
    identity for it. *)
Lemma register_grows (salt : string) (db : Db) (b : RegisterBody) :
  exists new,
    users (snd (register salt db b)) = (users db ++ new)%list
    /\ (List.length new <= 1)%nat
    /\ next_id (snd (register salt db b))
       = (next_id db + N.of_nat (List.length new))%N.
Proof.
  destruct (register_inv salt db b)
    as [(password & _ & _ & _ & ->) | (_ & ->)].
  - eexists. simpl. split; [reflexivity|]. simpl. split; [lia | reflexivity].
  - exists []. rewrite app_nil_r. simpl. split; [reflexivity|].
    split; [lia|]. now rewrite N.add_0_r.
Qed.

Lemma register_consistent (salt : string) (db : Db) (b : RegisterBody) :
  Consistent db -> Consistent (snd (register salt db b)).
Proof.
  intros [He Hi Hb].
  destruct (register_inv salt db b)
    as [(password & Hf & _ & _ & ->) | (_ & ->)]; [|now constructor].
  constructor; simpl.
  - rewrite List.map_app. simpl.
    apply NoDup_app. split; [exact He|]. split; [|apply NoDup_singleton].
    intros x Hx Hx'. apply list_elem_of_singleton in Hx'. subst x.
    now apply (findOne_None_fresh _ _ Hf).
  - rewrite List.map_app. simpl.
    apply NoDup_app. split; [exact Hi|]. split; [|apply NoDup_singleton].
    intros x Hx Hx'. apply list_elem_of_singleton in Hx'. subst x.
    apply list_elem_of_In in Hx. apply in_map_iff in Hx as (u & Hu & Hin).
    rewrite Forall_forall in Hb. apply list_elem_of_In in Hin.
    specialize (Hb u Hin). simpl in Hb. lia.
  - apply Forall_app. split.
    + eapply Forall_impl; [exact Hb|]. simpl. intros u Hu. lia.
    + apply Forall_cons. split; [simpl; lia | apply Forall_nil; exact I].
Qed.

(** X18. Registrations keep the store of users consistent: starting
    from a store in which no two records share an email or an identity
    and every identity is below the next one to be given, any run of
    registration requests ends in such a store. Records are only ever
    appended, never changed or removed; as many identities are used up
    as records were created; and no email is held by two records. *)
Theorem register_all_keeps_store_consistent
    (reqs : list (string * RegisterBody)) (db : Db) :
  Consistent db ->
  let db' := register_all reqs db in
  Consistent db'
  /\ (exists new,
         users db' = (users db ++ new)%list
         /\ (List.length new <= List.length reqs)%nat
         /\ next_id db' = (next_id db + N.of_nat (List.length new))%N)
  /\ (forall e, (count_email e (users db') <= 1)%nat).
Proof.
  cbv zeta. revert db. induction reqs as [|[salt b] reqs IH]; intros db Hc.
  - simpl. split; [exact Hc|]. split.
    + exists []. rewrite app_nil_r, N.add_0_r. simpl.
      split; [reflexivity|]. split; [lia | reflexivity].
    + intros e. apply count_email_NoDup. now destruct Hc.
  - unfold register_all. cbn [List.fold_left fst snd].
    fold (register_all reqs (snd (register salt db b))).
    destruct (IH _ (register_consistent salt db b Hc))
      as (Hc' & (new' & Hu' & Hl' & Hn') & Hcount).
    destruct (register_grows salt db b) as (new & Hu & Hl & Hn).
    split; [exact Hc'|]. split; [|exact Hcount].
    exists (new ++ new')%list. rewrite Hu', Hu, Hn', Hn, <- app_assoc.
    split; [reflexivity|]. rewrite List.length_app. simpl. split; lia.
Qed.

End Store.

End StoreFacts.

(* ===================================================================== *)
(** * The keyword tests of the chatbot *)
(* ===================================================================== *)

Module KeywordFacts.
Import JsString Chat HelpersFacts.

Lemma prefix_app (a b s : string) :
  String.prefix (a ++ b) s = true -> String.prefix a s = true.
Proof.
  revert s. induction a as [|c a IH]; intros s H; [now destruct s|].
  rewrite append_cons in H. destruct s as [|d s]; [discriminate|].
  simpl in *. destruct (ascii_dec c d); [now apply IH | discriminate].
Qed.

Lemma prefix_self (k post : string) : String.prefix k (k ++ post) = true.
Proof.
  induction k as [|c k IH]; [now destruct post|].
  rewrite append_cons. simpl. now destruct (ascii_dec c c).
Qed.

Lemma includes_unfold (s needle : string) :
  includes s needle
  = String.prefix needle s
    || match s with
       | EmptyString => false
       | String _ s' => includes s' needle
       end.
Proof. now destruct s. Qed.

(** A message that contains a text contains every beginning of it. *)
Lemma includes_app (s a b : string) :
  includes s (a ++ b) = true -> includes s a = true.
Proof.
  induction s as [|c s IH]; intros H; rewrite includes_unfold in H |- *;
    apply orb_true_iff in H as [H|H]; apply orb_true_iff.
  - left. now apply prefix_app in H.
  - discriminate.
  - left. now apply prefix_app in H.
  - right. now apply IH.
Qed.

Lemma startsWith_includes (s k : string) :
  startsWith s k = true -> includes s k = true.
Proof.
  unfold startsWith. intros H. rewrite includes_unfold, H. reflexivity.
Qed.

Lemma includes_inside (pre k post : string) :
  includes (pre ++ k ++ post) k = true.
Proof.
  induction pre as [|c pre IH].
  - rewrite append_nil, includes_unfold, prefix_self. reflexivity.
  - rewrite append_cons, includes_unfold, IH. apply orb_true_r.
Qed.

Lemma orb_absorb (a c : bool) : (c = true -> a = true) -> a || c = a.
Proof. destruct a, c; intros H; try reflexivity. now rewrite H. Qed.

(** X19. Four of the keyword tests of the chatbot can never decide a
    reply: a message that contains "schemes", "scholarships" or "jobs"
    contains the singular, and one that starts with "hii" contains
    "hi". The first category wins: a message that contains "scheme"
    anywhere gets the schemes reply whatever else it says. *)
Theorem redundant_keywords (m : string) :
  is_scheme m = includes m "scheme" || includes m "government"
  /\ is_scholarship m
     = includes m "scholarship" || includes m "financial aid"
  /\ is_job m
     = includes m "job" || includes m "career" || includes m "employment"
  /\ is_greeting m = includes m "hello" || includes m "hi" || includes m "hey"
  /\ (forall pre post, respond (pre ++ "scheme" ++ post) = schemes_reply).
Proof.
  pose proof (includes_app m "scheme" "s") as H1.
  pose proof (includes_app m "scholarship" "s") as H2.
  pose proof (includes_app m "job" "s") as H3.
  pose proof (fun H => includes_app m "hi" "i" (startsWith_includes m "hii" H))
    as H4.
  change ("scheme" ++ "s") with "schemes" in H1.
  change ("scholarship" ++ "s") with "scholarships" in H2.
  change ("job" ++ "s") with "jobs" in H3.
  change ("hi" ++ "i") with "hii" in H4.
  unfold is_scheme, is_scholarship, is_job, is_greeting.
  split; [|split; [|split; [|split]]].
  - destruct (includes m "scheme"), (includes m "government"),
      (includes m "schemes"); try reflexivity. now discriminate H1.
  - destruct (includes m "scholarship"), (includes m "scholarships"),
      (includes m "financial aid"); try reflexivity; now discriminate H2.
  - destruct (includes m "job"), (includes m "jobs"), (includes m "career"),
      (includes m "employment"); try reflexivity; now discriminate H3.
  - destruct (includes m "hello"), (includes m "hi"), (includes m "hey"),
      (startsWith m "hii"); try reflexivity; now discriminate H4.
  - intros pre post. unfold respond, is_scheme.
    now rewrite includes_inside.
Qed.

End KeywordFacts.

(* ===================================================================== *)
(** * The completion proxy *)
(* ===================================================================== *)

Module ProxyFacts.
Import JsString Client Proxy JsStringFacts ChatFacts.


End ProxyFacts.

(* ===================================================================== *)
(** * The pages and helpers on concrete inputs *)
(* ===================================================================== *)

Module Scenarios.
Import JsString Auth Client Reference Helpers Wire Pages Vocabulary Fixtures.
Import ReferenceFacts.


(** A password of six blanks and a name of one letter. *)
Lemma validators_decide_by_length_witness :
  isValid (validatePassword (JStr "      ")) = true
  /\ Helpers.message (validateName (JStr " A ")) <> "".
Proof.
  destruct (HelpersFacts.validators_decide_by_length (JStr "      ")
              (JStr " A ")) as ([_ H1] & _ & _ & [H4 _]).
  split.
  - apply H1. exists "      ". split; [reflexivity | simpl; lia].
  - intros E. specialize (H4 E). discriminate.
Defined.

(** Three interests separated by a comma and a blank. *)
Lemma parseInterests_reads_back_witness :
  parseInterests (JStr (String.concat ", " ["health"; "jobs"; "education"]))
  = ["health"; "jobs"; "education"].
Proof.
  destruct (FormatFacts.parseInterests_reads_back JNull) as (_ & H & _).
  apply (H " " ["health"; "jobs"; "education"]); [reflexivity|].
  repeat (apply Forall_cons; split);
    try (apply Forall_nil; exact I);
    (split; [discriminate | split; reflexivity]).
Defined.

(** A text of twelve characters cut to eight. *)
Lemma truncateText_length_witness :
  Z.of_nat (String.length (truncateText (JStr "Hello, world") 8
                             default_suffix)) = 8.
Proof.
  destruct (FormatFacts.truncateText_length "Hello, world" 8 default_suffix
              ltac:(discriminate)) as (_ & H & _).
  destruct (H ltac:(simpl; lia) ltac:(simpl; lia)) as [Hl _]. exact Hl.
Defined.


(** Alice's browser a day after her login. *)
Lemma protected_content_at_startup_witness :
  ProtectedRoute (startup (R := runtime) 86400000 alice_storage "/schemes" [])
  = Children.
Proof.
  destruct (SessionFacts.protected_content_at_startup (R := runtime)
              86400000 alice_storage "/schemes" []) as ([_ H] & _).
  apply H.
  exists alice_token, (render alice_projection), (mkDecoded (Some 605800)),
    alice_projection.
  repeat split; discriminate.
Defined.

(** The same browser started at the epoch and a day later. *)
Lemma initializeAuth_settles_witness :
  startup (R := runtime) 0 alice_storage "/" []
  = startup (R := runtime) 86400000 alice_storage "/" [].
Proof.
  destruct (SessionFacts.initializeAuth_settles (R := runtime) 86400000
              alice_storage "/" []) as (_ & H).
  apply H; [discriminate | reflexivity].
Defined.

(** A login and a logout in a browser that keeps a theme. *)
Lemma other_keys_untouched_witness :
  storage
    (run_all (R := runtime)
       [(0, Login "a@x.com" "secret1" (HttpReply 200 login_answer));
        (1, Logout)] themed_page) !! "theme"
  = Some "dark".
Proof.
  rewrite (SessionFacts.other_keys_untouched (R := runtime)
             [(0, Login "a@x.com" "secret1" (HttpReply 200 login_answer));
              (1, Logout)] themed_page "theme" eq_refl
             ltac:(discriminate) ltac:(discriminate)).
  reflexivity.
Defined.

(** A registration that the server accepts. *)
Lemma only_login_authenticates_witness :
  isAuthenticated
    (run (R := runtime) 0
       (Register "Alice" "a@x.com" "secret1" []
          (HttpReply 200 (msg user_registered))) fresh_page)
  = false.
Proof.
  destruct (SessionFacts.only_login_authenticates (R := runtime) 0
              (Register "Alice" "a@x.com" "secret1" []
                 (HttpReply 200 (msg user_registered))) fresh_page
              eq_refl ltac:(discriminate)) as [H _].
  apply H; [discriminate | reflexivity].
Defined.

(** Alice leaves from the chat page. *)
Lemma handleLogout_is_local_witness :
  storage (handleLogout on_chat_page) !! AUTH_TOKEN = None
  /\ pathname (handleLogout on_chat_page) = ROUTES_LOGIN.
Proof.
  destruct (SessionFacts.handleLogout_is_local (R := runtime)
              on_chat_page)
    as (_ & H2 & _ & _ & _ & _ & H7 & _).
  split; [exact H2 | exact H7].
Defined.

(** Alice logs in on a fresh page and out again. *)
Lemma logout_undoes_login_witness :
  storage
    (logout (fst (Client.login (R := runtime) "a@x.com" "secret1"
                    (HttpReply 200 login_answer) fresh_page)))
  = ∅.
Proof.
  destruct (SessionFacts.logout_undoes_login (R := runtime) "a@x.com"
              "secret1" (HttpReply 200 login_answer) fresh_page
              eq_refl eq_refl eq_refl) as [H _].
  exact H.
Defined.

(** A login answered with a token and a projection, on a fresh page of
    a browser that takes both writes. *)
Lemma storage_effects_of_operations_witness :
  storage_effects
    (trace (run (R := runtime) 0
              (Login "a@x.com" "secret1" (HttpReply 200 login_answer))
              fresh_page))
  = written alice_token (render alice_projection).
Proof.
  destruct (ClientFacts.storage_effects_of_operations (R := runtime) 0
              (Login "a@x.com" "secret1" (HttpReply 200 login_answer))
              fresh_page eq_refl)
    as (_ & H & _).
  exact (H "a@x.com" "secret1" (HttpReply 200 login_answer) login_answer
           (JStr alice_token) alice_projection eq_refl eq_refl eq_refl
           eq_refl eq_refl eq_refl).
Defined.

(** A chat call from Alice's browser. *)
Lemma request_interceptor_frame_witness :
  headers (request_interceptor alice_storage chat_call) !! X_AUTH_TOKEN
  = Some alice_token
  /\ data (request_interceptor alice_storage chat_call) = data chat_call.
Proof.
  destruct (SessionFacts.request_interceptor_frame alice_storage chat_call)
    as (_ & _ & H3 & _ & _ & H6 & _).
  split; [|exact H3]. rewrite (H6 eq_refl). reflexivity.
Defined.

(** Alice's login form, sent with the blanks she typed. *)
Lemma Login_sends_iff_valid_witness :
  requests
    (trace (fst (Login_handleSubmit (R := runtime) alice_login_form
                   (HttpReply 200 login_answer) fresh_page)))
  = [api_post "/auth/login" (credentials " a@x.com " "secret1")].
Proof.
  destruct (PagesFacts.Login_sends_iff_valid (R := runtime) alice_login_form
              (HttpReply 200 login_answer) fresh_page) as [H _].
  destruct H as [Hr _]; [|exact Hr].
  split; [reflexivity | simpl; lia].
Defined.

(** Her login answered with a token and her projection. *)
Lemma Login_outcomes_witness :
  pathname
    (fst (Login_handleSubmit (R := runtime) alice_login_form
            (HttpReply 200 login_answer) fresh_page))
  = ROUTES_SCHEMES.
Proof.
  destruct (PagesFacts.Login_outcomes (R := runtime) alice_login_form
              (HttpReply 200 login_answer) fresh_page eq_refl) as [H _].
  destruct (H login_answer (JStr alice_token) alice_projection
              eq_refl eq_refl eq_refl) as [H1 _].
  destruct (H1 eq_refl eq_refl) as [Hp _].
  exact Hp.
Defined.

(** A registration from a signed-in browser that gets no answer. *)
Lemma Register_sends_clean_payload_witness :
  user (fst (Register_handleSubmit alice_form NoReply on_chat_page))
  = alice_projection.
Proof.
  destruct (PagesFacts.Register_sends_clean_payload alice_form NoReply
              on_chat_page) as [H _].
  exact H.
Defined.

(** Alice registers through the page on the empty store. *)
Lemma Register_page_to_server_witness :
  let answer :=
    Auth.register (B := bcrypt) (M := schema) "salt" empty_db
      (mkRegisterBody (Some "Alice") (Some "a@x.com") (Some "secret1")
         ["health"; "jobs"; "education"]) in
  page_success
    (snd (Register_handleSubmit alice_form (deliver (fst answer)) fresh_page))
  = REGISTER_SUCCESS.
Proof.
  destruct (EndToEndFacts.Register_page_to_server (B := bcrypt)
              (M := schema) "salt" empty_db alice_form fresh_page eq_refl)
    as (_ & H & _).
  destruct (H eq_refl) as [Hs _]. exact Hs.
Defined.

(** Alice logs in at second 1000; her browser starts again a day later
    and three weeks later. *)
Lemma login_session_lasts_seven_days_witness :
  let answer :=
    Auth.login (B := bcrypt) (J := jwt) secret 1000 db1 alice_logs_in in
  let st1 :=
    fst (Client.login (R := runtime) "a@x.com" "secret1" (deliver answer)
           fresh_page) in
  isAuthenticated (startup (R := runtime) 86400000 (storage st1) "/" [])
  = true
  /\ isAuthenticated (startup (R := runtime) 2000000000 (storage st1) "/" [])
     = false.
Proof.
  assert (registered (B := bcrypt) db1 "a@x.com" "secret1" alice) as Hreg.
  { split; [reflexivity | now exists "salt"]. }
  assert (forall c k,
             jwtDecode (Runtime := runtime) (jwt_encode (Jwt := jwt) c k)
             = Some (mkDecoded (Some (c_exp c)))) as Hdec.
  { intros c k. unfold runtime. cbn [jwtDecode].
    now rewrite jwt_decodes_reference. }
  assert (forall c k, jwt_encode (Jwt := jwt) c k <> "") as Hne.
  { intros c k. unfold jwt. cbn [jwt_encode].
    destruct (Z.of_N (c_id c)); discriminate. }
  assert (forall t, ToString (Runtime := runtime) (JStr t) = t) as Hts.
  { intros t. reflexivity. }
  assert (JSON_stringify (Runtime := runtime) (to_json (projection alice))
          = Some (render alice_projection)) as Hstr
    by (vm_compute; reflexivity).
  assert (render alice_projection <> "") as Hud
    by (vm_compute; discriminate).
  assert (JSON_parse (Runtime := runtime) (render alice_projection)
          = Some (to_json (projection alice))) as Hparse
    by (vm_compute; reflexivity).
  pose proof (EndToEndFacts.login_session_lasts_seven_days (B := bcrypt)
                (J := jwt) (R := runtime) secret 1000 db1 "a@x.com" "secret1"
                alice fresh_page (render alice_projection)
                bcrypt_verifies_reference Hreg ltac:(discriminate)
                Hdec Hne Hts Hstr Hud Hparse eq_refl eq_refl) as H.
  cbv zeta in H. destruct H as (_ & _ & _ & _ & _ & _ & H).
  cbv zeta. split.
  - destruct (H 86400000 "/" []) as [H1 _].
    destruct (H1 ltac:(vm_compute; discriminate)) as [Ha _]. exact Ha.
  - destruct (H 2000000000 "/" []) as [_ H2].
    destruct (H2 ltac:(vm_compute; reflexivity)) as [Ha _]. exact Ha.
Defined.


(** Alice's request sent twice. *)
Lemma register_all_keeps_store_consistent_witness :
  (count_email (Some "a@x.com")
     (users (register_all (B := bcrypt) (M := schema) two_requests empty_db))
   <= 1)%nat.
Proof.
  destruct (StoreFacts.register_all_keeps_store_consistent (B := bcrypt)
              (M := schema) two_requests empty_db StoreFacts.consistent_empty)
    as (_ & _ & H).
  apply H.
Defined.

(** A question that names two categories. *)
Lemma redundant_keywords_witness :
  Chat.respond "jobs or schemes?" = Chat.schemes_reply.
Proof.
  destruct (KeywordFacts.redundant_keywords "") as (_ & _ & _ & _ & H).
  exact (H "jobs or " "s?").
Defined.


End Scenarios.
